(** * bun-plugin-html: asset graph, identity folding and write policy

    A shallow embedding of [src/index.ts].  The plugin discovers the files an
    HTML entry point references, hands scripts and styles to their compilers,
    decides every output path from a naming template, folds files that share a
    base name and a source directory into one identity ([NamedAs]) and writes
    every output path once ([PathSaved]).

    JavaScript strings are modelled as [string]; objects used as dictionaries
    whose key order is observable ([NamedAs]) as insertion-ordered association
    lists; the write ledger as a [gset]; the disk as a [gmap]. *)

From Stdlib Require Import Ascii String List Bool Arith ZArith DecimalString Lia.
From stdpp Require Import base option list gmap strings.

Local Open Scope string_scope.
Local Open Scope list_scope.

(** ** JavaScript string primitives *)

Module Js.

(** [s.startsWith(p)] *)
Fixpoint startsWith (p s : string) : bool :=
  match p, s with
  | EmptyString, _ => true
  | String a p', String b s' => if Ascii.eqb a b then startsWith p' s' else false
  | String _ _, EmptyString => false
  end.

(** [s.indexOf(p) > -1] *)
Fixpoint includes (p s : string) : bool :=
  startsWith p s ||
  match s with
  | EmptyString => false
  | String _ s' => includes p s'
  end.

(** [s.indexOf(p)], [-1] when [p] does not occur. *)
Fixpoint indexOf (p s : string) : Z :=
  if startsWith p s then 0%Z
  else match s with
       | EmptyString => (-1)%Z
       | String _ s' =>
           let i := indexOf p s' in
           if (i <? 0)%Z then (-1)%Z else (i + 1)%Z
       end.

(** The decimal text of an integer, as a template literal prints it. *)
Definition of_int (z : Z) : string := NilZero.string_of_int (Z.to_int z).

Fixpoint spaces (n : nat) : string :=
  match n with
  | O => EmptyString
  | S n' => String " "%char (spaces n')
  end.

(** ['^'.padStart(n)] *)
Definition caret_padStart (n : Z) : string :=
  spaces (Z.to_nat (n - 1)) +:+ "^".

Fixpoint rev_acc (s acc : string) : string :=
  match s with
  | EmptyString => acc
  | String c s' => rev_acc s' (String c acc)
  end.

Definition rev (s : string) : string := rev_acc s EmptyString.

(** [s.endsWith(p)] *)
Definition endsWith (p s : string) : bool := startsWith (rev p) (rev s).

Fixpoint drop (n : nat) (s : string) : string :=
  match n, s with
  | O, _ => s
  | S n', String _ s' => drop n' s'
  | S _, EmptyString => EmptyString
  end.

Fixpoint take (n : nat) (s : string) : string :=
  match n, s with
  | O, _ => EmptyString
  | S n', String c s' => String c (take n' s')
  | S _, EmptyString => EmptyString
  end.

(** [s.replace(p, r)] with a string pattern: the first occurrence only.
    The replacement is taken as it is (no [$] pattern in it). *)
Fixpoint replace (p r s : string) : string :=
  if startsWith p s then r +:+ drop (String.length p) s
  else match s with
       | EmptyString => EmptyString
       | String c s' => String c (replace p r s')
       end.

(** [s.replaceAll(p, r)] for a non-empty pattern: matches are found left to
    right and do not overlap; [skip] counts the characters of the current
    match that are still to be passed over. *)
Fixpoint replaceAll_from (skip : nat) (p r s : string) : string :=
  match s with
  | EmptyString => EmptyString
  | String c s' =>
      match skip with
      | S k => replaceAll_from k p r s'
      | O => if startsWith p s
             then r +:+ replaceAll_from (String.length p - 1) p r s'
             else String c (replaceAll_from 0 p r s')
      end
  end.

Definition replaceAll (p r s : string) : string := replaceAll_from 0 p r s.

Definition lower_ascii (c : ascii) : ascii :=
  let n := nat_of_ascii c in
  if (65 <=? n)%nat && (n <=? 90)%nat then ascii_of_nat (n + 32) else c.

Fixpoint toLowerCase (s : string) : string :=
  match s with
  | EmptyString => EmptyString
  | String c s' => String (lower_ascii c) (toLowerCase s')
  end.

(** Truthiness of a string: only the empty string is falsy. *)
Definition truthy (s : string) : bool :=
  match s with EmptyString => false | String _ _ => true end.

(** [l.includes(x)] on an array of strings. *)
Definition arr_includes (x : string) (l : list string) : bool :=
  existsb (String.eqb x) l.

(** [s.split(sep)] for a one-character separator. *)
Fixpoint split (sep : ascii) (s : string) : list string :=
  match s with
  | EmptyString => [EmptyString]
  | String c s' =>
      if Ascii.eqb c sep then EmptyString :: split sep s'
      else match split sep s' with
           | h :: t => String c h :: t
           | [] => [String c EmptyString]
           end
  end.

(** [l.join(sep)] *)
Fixpoint join (sep : string) (l : list string) : string :=
  match l with
  | [] => EmptyString
  | [x] => x
  | x :: rest => x +:+ sep +:+ join sep rest
  end.

End Js.

(** ** Node's [path] module (POSIX flavour)

    [src/index.ts] only calls [path.join], [path.parse], [path.resolve],
    [path.relative], [path.normalize] and [path.dirname].  They belong to the
    runtime, so the plugin's functions are stated over the interface
    [PathApi]; [Posix] gives the algorithms of Node's [path.posix] to run
    the plugin on concrete inputs. *)

Record ParsedPath := mkParsed {
  p_root : string;
  p_dir : string;
  p_base : string;
  p_ext : string;
  p_name : string
}.

Class PathApi := {
  path_join : list string -> string;
  path_parse : string -> ParsedPath;
  path_resolve : list string -> string;
  path_relative : string -> string -> string;
  path_normalize : string -> string;
  path_dirname : string -> string
}.

Module Posix.

Definition slash : ascii := "/"%char.
Definition dot : ascii := "."%char.

Definition isAbsolute (p : string) : bool :=
  match p with String c _ => Ascii.eqb c slash | EmptyString => false end.

(** One segment pushed on the stack of kept segments (most recent first). *)
Definition norm_step (allowAboveRoot : bool) (acc : list string) (seg : string)
  : list string :=
  if String.eqb seg "" || String.eqb seg "." then acc
  else if String.eqb seg ".." then
    match acc with
    | top :: rest =>
        if String.eqb top ".." then (if allowAboveRoot then seg :: acc else acc)
        else rest
    | [] => if allowAboveRoot then [seg] else []
    end
  else seg :: acc.

Definition normalizeString (p : string) (allowAboveRoot : bool) : string :=
  Js.join "/" (List.rev (fold_left (norm_step allowAboveRoot) (Js.split slash p) [])).

Definition normalize (p : string) : string :=
  if String.eqb p "" then "."
  else
    let abs := isAbsolute p in
    let trailing := Js.endsWith "/" p in
    let q := normalizeString p (negb abs) in
    if String.eqb q "" then
      if abs then "/" else if trailing then "./" else "."
    else
      let q' := if trailing then q +:+ "/" else q in
      if abs then "/" +:+ q' else q'.

Definition join (args : list string) : string :=
  match filter (fun a => Js.truthy a = true) args with
  | [] => "."
  | parts => normalize (Js.join "/" parts)
  end.

(** Arguments are taken from the right until one is absolute. *)
Fixpoint resolve_from (rev_args : list string) (acc : string) : string * bool :=
  match rev_args with
  | [] => (acc, false)
  | p :: rest =>
      if Js.truthy p then
        let acc' := p +:+ "/" +:+ acc in
        if isAbsolute p then (acc', true) else resolve_from rest acc'
      else resolve_from rest acc
  end.

Definition resolve (cwd : string) (args : list string) : string :=
  let '(joined, abs) := resolve_from (List.rev args) "" in
  let '(joined, abs) :=
    if abs then (joined, true) else (cwd +:+ "/" +:+ joined, isAbsolute cwd) in
  let q := normalizeString joined (negb abs) in
  if abs then "/" +:+ q else if Js.truthy q then q else ".".

Fixpoint strip_common (a b : list string) : list string * list string :=
  match a, b with
  | x :: a', y :: b' => if String.eqb x y then strip_common a' b' else (a, b)
  | _, _ => (a, b)
  end.

Definition segments (p : string) : list string :=
  filter (fun a => Js.truthy a = true) (Js.split slash p).

Definition relative (cwd : string) (from to : string) : string :=
  let f := resolve cwd [from] in
  let t := resolve cwd [to] in
  if String.eqb f t then ""
  else
    let '(fr, tr) := strip_common (segments f) (segments t) in
    Js.join "/" (map (fun _ => "..") fr ++ tr).

(** The scan of [path.parse] and [path.dirname] runs from the end of the
    string; it is written here over the reversed string. *)
Fixpoint drop_slashes (r : string) : string :=
  match r with
  | String c r' => if Ascii.eqb c slash then drop_slashes r' else r
  | EmptyString => EmptyString
  end.

(** Splits a reversed string at its first slash: the reversed last segment
    and, when a slash was met, what precedes that slash (still reversed). *)
Fixpoint until_slash (r : string) : string * option string :=
  match r with
  | EmptyString => (EmptyString, None)
  | String c r' =>
      if Ascii.eqb c slash then (EmptyString, Some r')
      else let '(seg, rest) := until_slash r' in (String c seg, rest)
  end.

Fixpoint until_dot (r : string) : string * option string :=
  match r with
  | EmptyString => (EmptyString, None)
  | String c r' =>
      if Ascii.eqb c dot then (EmptyString, Some r')
      else let '(seg, rest) := until_dot r' in (String c seg, rest)
  end.

(** Extension of a base name (given reversed): from its last dot, unless
    there is none, the dot is the first character, or the base is [".."]. *)
Definition ext_of_rev (rbase : string) : string :=
  match until_dot rbase with
  | (_, None) => ""
  | (rext, Some before) =>
      if String.eqb before "" || String.eqb rbase ".." then ""
      else String dot (Js.rev rext)
  end.

Definition parse (p : string) : ParsedPath :=
  if String.eqb p "" then mkParsed "" "" "" "" ""
  else
    let abs := isAbsolute p in
    let root := if abs then "/" else "" in
    let body := if abs then Js.drop 1 p else p in
    let r := drop_slashes (Js.rev body) in
    let '(rbase, before) := until_slash r in
    let base := Js.rev rbase in
    let ext := ext_of_rev rbase in
    let name := Js.take (String.length base - String.length ext) base in
    let dir :=
      match before with
      | Some rdir => root +:+ Js.rev rdir
      | None => root
      end in
    mkParsed root dir base ext name.

Definition dirname (p : string) : string :=
  if String.eqb p "" then "."
  else
    let abs := isAbsolute p in
    let r := drop_slashes (Js.rev (Js.drop 1 p)) in
    match until_slash r with
    | (_, None) => if abs then "/" else "."
    | (_, Some rdir) =>
        if abs && String.eqb rdir "" then "//"
        else Js.take 1 p +:+ Js.rev rdir
    end.

(** The runtime's working directory is a parameter of [resolve]. *)
Definition api (cwd : string) : PathApi := {|
  path_join := join;
  path_parse := parse;
  path_resolve := resolve cwd;
  path_relative := relative cwd;
  path_normalize := normalize;
  path_dirname := dirname
|}.

End Posix.

(** ** Data model *)

(** [BuildArtifact['kind']] *)
Inductive Kind := EntryPoint | Chunk | Asset | Sourcemap | Bytecode.

Definition Kind_eqb (a b : Kind) : bool :=
  match a, b with
  | EntryPoint, EntryPoint | Chunk, Chunk | Asset, Asset
  | Sourcemap, Sourcemap | Bytecode, Bytecode => true
  | _, _ => false
  end.

(** A [BunFile] is a lazily read reference to a path.  [Bun.file(path)]
    returns a new object at every call and the graph is a [Map] keyed by
    object identity, so a handle carries the number of the allocation that
    made it next to its [name]. *)
Record BunFile := mkFile {
  fd_id : nat;
  fd_name : option string
}.

(** [!file.name]: an absent or empty name is falsy. *)
Definition name_of (f : BunFile) : option string :=
  match fd_name f with
  | Some n => if Js.truthy n then Some n else None
  | None => None
  end.

Record Attribute := mkAttr {
  attr_name : string;
  attr_value : string
}.

(** What [Bun.write] accepts as a body and [FileDetails.content] holds: a
    string, a file handle (a [Blob] read on demand) or other binary data. *)
Inductive Body :=
| BText (s : string)
| BFile (f : BunFile)
| BBytes (b : list ascii).

(** Truthiness of a body: only the empty string is falsy. *)
Definition body_truthy (b : Body) : bool :=
  match b with BText s => Js.truthy s | _ => true end.

(** [FileDetails] of [./utils]; [originalPath] is a string or [false]. *)
Record FileDetails := mkDetails {
  content : option Body;
  attribute : option Attribute;
  kind : Kind;
  hash : string;
  originalPath : option string;
  htmlImporter : string
}.

Definition File : Type := BunFile * FileDetails.

(** [BunPluginHTMLOptions] *)
Inductive Inline := InlineBool (b : bool) | InlineObj (css js : option bool).
Inductive KeepPaths := KeepBool (b : bool) | KeepList (l : list string).

(** [HtmlMinifyOptions.minifyCSS]: absent, a boolean, the options of
    clean-css (kept abstract), or a function of the user. *)
Inductive MinifyCSS :=
| CssUndefined
| CssBool (b : bool)
| CssObject (cleanCssOptions : string)
| CssFunction (f : string -> string).

(** The fields of [HtmlMinifyOptions] the plugin itself reads. *)
Record HtmlMinifyOptions := mkMinify {
  minifyHTML : option bool;
  minifyCSS : MinifyCSS
}.

(** [minifyCSS: {}], [minifyHTML: true] *)
Definition defaultMinifyOptions : HtmlMinifyOptions :=
  mkMinify (Some true) (CssObject "{}").

(** What [new CleanCSS(options).minify(text)] returns. *)
Record CleanCssOutput := mkCssOutput {
  styles : string;
  warnings : list string;
  errors : list string
}.

Record Options := mkOptions {
  inline : option Inline;
  naming_css : option string;
  minifyOptions : option HtmlMinifyOptions;
  includeExtensions : option (list string);
  excludeExtensions : option (list string);
  excludeSelectors : option (list string);
  keepOriginalPaths : option KeepPaths;
  suppressErrors : option bool
}.

(** [BuildConfig['naming']]: a template, or one template per kind. *)
Record NamingObj := mkNaming {
  n_entry : option string;
  n_chunk : option string;
  n_asset : option string
}.

Inductive Naming := NamingString (s : string) | NamingObject (o : NamingObj).

(** The fields of [build.config] the plugin reads. *)
Record BuildConfig := mkConfig {
  cfg_naming : option Naming;
  cfg_outdir : option string;
  cfg_minify : bool;
  cfg_experimentalCss : bool;
  cfg_splitting : bool
}.

Definition attributesToSearch : list string :=
  ["src"; "href"; "data"; "action"; "data-src"; "lowsrc"].
Definition extensionsToBuild : list string := [".js"; ".jsx"; ".ts"; ".tsx"].
Definition selectorsToExclude : list string := ["a"].

(** ** Insertion-ordered dictionaries

    A JavaScript object read with [o[k]], written with [o[k] = v] and
    enumerated with [Object.keys] or [for ... in]: writing an existing key
    keeps its place, a new key goes last.  Keys that look like integers
    (enumerated first) and keys that every object inherits ([constructor],
    [toString], ...) are outside the model. *)

Module Dict.
Section Dict.
Context {V : Type}.

Fixpoint get (k : string) (d : list (string * V)) : option V :=
  match d with
  | [] => None
  | (k', v) :: d' => if String.eqb k k' then Some v else get k d'
  end.

Fixpoint set (k : string) (v : V) (d : list (string * V)) : list (string * V) :=
  match d with
  | [] => [(k, v)]
  | (k', v') :: d' =>
      if String.eqb k k' then (k, v) :: d' else (k', v') :: set k v d'
  end.

End Dict.
End Dict.

(** [NamedAs]: base name, then source directory, to the final relative path
    and the handle of the output. *)
Record NamedEntry := mkNamed {
  named_as : string;
  named_fd : BunFile
}.

Definition NamedAs : Type := list (string * list (string * NamedEntry)).

(** [namedAs[base]?.[dir]] *)
Definition named_lookup (base dir : string) (n : NamedAs) : option NamedEntry :=
  match Dict.get base n with
  | Some names => Dict.get dir names
  | None => None
  end.

(** ** Deferred markup rules, events and the state of one plugin instance *)

(** The closures pushed on [toChangeAttributes] / [attributesToChange],
    with what each one captures. *)
Inductive Rule :=
| InlineStyle (selector : string) (file : BunFile) (details : FileDetails)
              (extension : string)
| InlineScript (selector : string) (file : BunFile) (details : FileDetails)
| SetAttribute (selector : string) (attr : Attribute) (file : BunFile)
               (extension : string).

(** What the plugin does to the outside, in the order it happens. *)
Inductive Event :=
| EvWrite (name : string) (body : Body)
| EvLog (line : string)
| EvWarn (line : string)
| EvError (line : string)
| EvTransform (location : string) (rules : list Rule).

(** [html(options)] closes over [_namedAs] and [_pathSaved]; the disk, the
    handle counter and the trace of events are the world it runs in. *)
Record State := mkState {
  namedAs : NamedAs;
  pathSaved : gset string;
  disk : gmap string string;
  next_fd : nat;
  trace : list Event
}.

Definition initial (d : gmap string string) : State :=
  mkState [] ∅ d 0 [].

Definition with_namedAs (n : NamedAs) (st : State) : State :=
  mkState n (pathSaved st) (disk st) (next_fd st) (trace st).

Definition emit (e : Event) (st : State) : State :=
  mkState (namedAs st) (pathSaved st) (disk st) (next_fd st) (trace st ++ [e]).

(** [Bun.file(path)]: a new handle. *)
Definition Bun_file (path : string) (st : State) : BunFile * State :=
  (mkFile (next_fd st) (Some path),
   mkState (namedAs st) (pathSaved st) (disk st) (S (next_fd st)) (trace st)).

(** [fs.exists(path)] and [file.exists()] *)
Definition exists_on_disk (path : string) (st : State) : bool :=
  bool_decide (is_Some (disk st !! path)).

Definition file_exists (f : BunFile) (st : State) : bool :=
  match fd_name f with
  | Some n => exists_on_disk n st
  | None => false
  end.

(** [file.text()]; reading a file that is not there is outside the model
    and gives the empty text. *)
Definition file_text (f : BunFile) (st : State) : string :=
  match fd_name f with
  | Some n => default "" (disk st !! n)
  | None => ""
  end.

Definition body_data (b : Body) (st : State) : string :=
  match b with
  | BText s => s
  | BFile f => file_text f st
  | BBytes l => string_of_list_ascii l
  end.

(** [Bun.write(name, body, { createPath: true })] *)
Definition Bun_write (name : string) (body : Body) (st : State) : State :=
  mkState (namedAs st) (pathSaved st)
          (<[name := body_data body st]> (disk st))
          (next_fd st) (trace st ++ [EvWrite name body]).

(** A call either returns or throws. *)
Inductive Outcome (A : Type) :=
| Returned (a : A)
| Thrown (message : string).
Arguments Returned {A} a.
Arguments Thrown {A} message.

(** ** Markup elements, as the rewriter hands them to a rule *)

Record Element := mkElement {
  tagName : string;
  attrs : list (string * string);
  inner : option string;      (* set by [setInnerContent] *)
  replaced : option string    (* set by [replace] *)
}.

Module El.
Definition hasAttribute (a : string) (el : Element) : bool :=
  bool_decide (is_Some (Dict.get a (attrs el))).
Definition getAttribute (a : string) (el : Element) : option string :=
  Dict.get a (attrs el).
Definition removeAttribute (a : string) (el : Element) : Element :=
  mkElement (tagName el)
    (filter (fun kv => negb (String.eqb a (fst kv)) = true) (attrs el))
    (inner el) (replaced el).
Definition setAttribute (a v : string) (el : Element) : Element :=
  mkElement (tagName el) (Dict.set a v (attrs el)) (inner el) (replaced el).
Definition setInnerContent (c : string) (el : Element) : Element :=
  mkElement (tagName el) (attrs el) (Some c) (replaced el).
Definition replace (html : string) (el : Element) : Element :=
  mkElement (tagName el) (attrs el) (inner el) (Some html).
End El.

(** ** The plugin's collaborators

    [src/index.ts] imports its helpers from [./utils]; the hash, the
    regular-expression engine, the compilers and the markup rewriter belong
    to the runtime.  The plugin is stated over all of them. *)
Class Runtime := {
  rt_path :: PathApi;
  (* ./utils *)
  isURL : string -> bool;
  attributeToSelector : Attribute -> string;
  changeFileExtension : string -> string -> string;
  contentToString : option Body -> State -> string;
  findLastCommonPath : list string -> string;
  removeCommonPath : string -> string -> string;
  returnLineNumberOfOccurance : string -> string -> Z;
  (* the position is passed in half characters: [search.length / 2] need
     not be an integer *)
  getColumnNumber : string -> Z -> Z;
  getLines : string -> Z -> Z -> string;
  (* Bun, sass, html-minifier-terser, HTMLRewriter, RegExp *)
  Bun_hash : string -> string;
  sass_compileString : string -> string;
  minify_html : string -> HtmlMinifyOptions -> string;
  rewriter_transform : list Rule -> string -> string -> State -> string;
  (* [content.match(clue)] for the pattern built from an origin name *)
  match_clue : string -> string -> option (list string);
  (* whether an element matches one selector *)
  selector_matches : string -> Element -> bool;
  (* [Bun.resolveSync(specifier, from)], which throws when it finds nothing *)
  Bun_resolveSync : string -> string -> Outcome string;
  (* [(await fs.lstat(path)).isDirectory()] *)
  is_directory : string -> bool;
  (* [new CleanCSS(options).minify(text)] *)
  cleancss_minify : string -> string -> CleanCssOutput
}.

(** ** Identity folding: [keepNamedAs] *)

Section Folding.
Context `{Runtime}.

Definition keepNamedAs (parsedOriginPath parsedNewPath : ParsedPath)
    (resolved : string) (st : State) : option NamedEntry * State :=
  let root := p_root parsedOriginPath in
  let dir := p_dir parsedOriginPath in
  let base := p_base parsedOriginPath in
  let names := default [] (Dict.get base (namedAs st)) in
  let nameDir := path_join [root; dir] in
  match Dict.get nameDir names with
  | Some e => (Some e, st)
  | None =>
      let as_ := path_join [p_root parsedNewPath; p_dir parsedNewPath;
                            p_base parsedNewPath] in
      if negb (String.eqb as_ (path_join [nameDir; base])) then
        let '(fd, st1) := Bun_file resolved st in
        let e := mkNamed as_ fd in
        (Some e,
         with_namedAs (Dict.set base (Dict.set nameDir e names) (namedAs st1)) st1)
      else (None, st)
  end.

(** ** Naming templates *)

(** [/\.(c|s[ac])ss$/i.test(extension)] *)
Definition is_style_ext (extension : string) : bool :=
  let e := Js.toLowerCase extension in
  Js.endsWith ".css" e || Js.endsWith ".sass" e || Js.endsWith ".scss" e.

(** [/s[ac]ss$/i.test(ext)] *)
Definition is_sass_ext (ext : string) : bool :=
  let e := Js.toLowerCase ext in
  Js.endsWith "sass" e || Js.endsWith "scss" e.

Inductive NamingType := entry | chunk | asset.

Definition buildNamingType (k : Kind) : NamingType :=
  match k with
  | EntryPoint => entry
  | Chunk => chunk
  | _ => asset
  end.

(** [build.config.naming[buildNamingType]] *)
Definition naming_field (o : NamingObj) (t : NamingType) : option string :=
  match t with
  | entry => n_entry o
  | chunk => n_chunk o
  | asset => n_asset o
  end.

(** [options.naming?.css] when [options] is given and the template is truthy *)
Definition css_override (options : option Options) : option string :=
  match options with
  | Some o =>
      match naming_css o with
      | Some t => if Js.truthy t then Some t else None
      | None => None
      end
  | None => None
  end.

(** The template [renameFile] picks for a file: [undefined] is [None]. *)
Definition pick_naming (options : option Options) (config : BuildConfig)
    (extension : string) (k : Kind) : option string :=
  match (if is_style_ext extension then css_override options else None) with
  | Some t => Some t
  | None =>
      match cfg_naming config with
      | Some (NamingString s) => Some s
      | Some (NamingObject o) => naming_field o (buildNamingType k)
      | None => None
      end
  end.

(** The four [replaceAll] of [renameFile].  The replacement text is taken
    as it is: names that hold a [$] pattern are outside the model. *)
Definition expand_template (naming dir hash ext name : string) : string :=
  Js.replaceAll "[name]" name
    (Js.replaceAll "[ext]" ext
       (Js.replaceAll "[hash]" hash
          (Js.replaceAll "[dir]" dir naming))).

Definition renameFile (options : option Options) (config : BuildConfig)
    (file : BunFile) (hash : string) (k : Kind) (sharedPath : string)
    (st : State) : BunFile * State :=
  match k with
  | Sourcemap | Bytecode => (file, st)
  | _ =>
    match name_of file with
    | None => (file, st)
    | Some fname =>
      let extension := p_ext (path_parse fname) in
      match pick_naming options config extension k with
      | None => (file, st)
      | Some naming =>
        if negb (Js.truthy naming) then (file, st)
        else
          let filePath := path_normalize fname in
          let filePath := Js.replace sharedPath "." filePath in
          let parsedPath := path_parse filePath in
          let dir := p_dir parsedPath in
          let ext := Js.replace "." "" (p_ext parsedPath) in
          let name := p_name parsedPath in
          let ext := if is_sass_ext ext then "css" else ext in
          let newPath := expand_template naming dir hash ext name in
          let resolved := path_resolve [sharedPath; newPath] in
          let newPathParsed := path_parse newPath in
          match keepNamedAs parsedPath newPathParsed resolved st with
          | (Some named, st1) => (named_fd named, st1)
          | (None, st1) => Bun_file resolved st1
          end
      end
    end
  end.

(** The [naming] that [forJsFiles] hands to [Bun.build] for every script. *)
Definition forJsFiles_naming (config : BuildConfig) : NamingObj :=
  match cfg_naming config with
  | Some (NamingString s) => mkNaming (Some s) (Some s) (Some s)
  | Some (NamingObject o) => mkNaming (n_chunk o) (n_chunk o) (n_asset o)
  | None => mkNaming (Some "./[name]-[hash].[ext]") None None
  end.

End Folding.

(** ** The pattern [clue] of [save]

    For an origin name N the pattern has two alternatives, tried in this
    order at every position, with the flag g:
    - a quote (single or double), optionally a run of characters other than
      quotes and line feeds that ends in a slash, then N, optionally a
      question mark or a hash sign followed by characters other than quotes,
      and the opening quote again;
    - an opening parenthesis, optionally a non-empty run of characters other
      than a closing parenthesis, line feeds and quotes that ends in a slash,
      then N, optionally a question mark or a hash sign followed by
      characters other than quotes and closing parentheses, and a closing
      parenthesis.
    [Clue] is a backtracking matcher with JavaScript's priorities (greedy
    quantifiers, ordered alternatives, leftmost match, matches that do not
    overlap).  N is matched literally: [save] escapes only its dots, so the
    matcher is exact for names without any other pattern character. *)

Module Clue.

Inductive re :=
| Lit (s : string)
| Class (p : ascii -> bool)
| Star (p : ascii -> bool)
| Seq (a b : re)
| Opt (a : re)
| Alt (a b : re).

Fixpoint star (p : ascii -> bool) (s : string) (k : string -> option string)
  : option string :=
  match s with
  | String c s' =>
      if p c then
        match star p s' k with
        | Some r => Some r
        | None => k s
        end
      else k s
  | EmptyString => k s
  end.

(** [run r s k]: the rest of [s] after the first way (in priority order)
    to match [r] at the start of [s] and then satisfy [k]. *)
Fixpoint run (r : re) (s : string) (k : string -> option string) : option string :=
  match r with
  | Lit l => if Js.startsWith l s then k (Js.drop (String.length l) s) else None
  | Class p =>
      match s with
      | String c s' => if p c then k s' else None
      | EmptyString => None
      end
  | Star p => star p s k
  | Seq a b => run a s (fun s1 => run b s1 k)
  | Opt a =>
      match run a s k with
      | Some x => Some x
      | None => k s
      end
  | Alt a b =>
      match run a s k with
      | Some x => Some x
      | None => run b s k
      end
  end.

Fixpoint matches_from (skip : nat) (r : re) (s : string) : list string :=
  match s with
  | EmptyString => []
  | String _ s' =>
      match skip with
      | S n => matches_from n r s'
      | O =>
          match run r s Some with
          | Some rest =>
              let n := String.length s - String.length rest in
              Js.take n s :: matches_from (n - 1) r s'
          | None => matches_from 0 r s'
          end
      end
  end.

Definition one_of (c : string) (a : ascii) : bool :=
  Js.includes (String a EmptyString) c.
Definition none_of (c : string) (a : ascii) : bool := negb (one_of c a).

Definition nl : string := String (ascii_of_nat 10) EmptyString.
Definition quotes : string := String "'"%char (String (ascii_of_nat 34) EmptyString).
Definition dquote : string := String (ascii_of_nat 34) EmptyString.

Definition quoted (q originName : string) : re :=
  Seq (Lit q)
   (Seq (Opt (Seq (Star (none_of (quotes +:+ nl))) (Lit "/")))
    (Seq (Lit originName)
     (Seq (Opt (Seq (Class (one_of "?#")) (Star (none_of quotes))))
          (Lit q)))).

Definition parenthesized (originName : string) : re :=
  Seq (Lit "(")
   (Seq (Opt (Seq (Class (none_of (")" +:+ nl +:+ quotes)))
              (Seq (Star (none_of (")" +:+ nl +:+ quotes))) (Lit "/"))))
    (Seq (Lit originName)
     (Seq (Opt (Seq (Class (one_of "?#")) (Star (none_of (quotes +:+ ")")))))
          (Lit ")")))).

Definition clue (originName : string) : re :=
  Alt (Alt (quoted "'" originName) (quoted dquote originName))
      (parenthesized originName).

(** [content.match(clue)]: [null] when nothing matches. *)
Definition match_ (originName content : string) : option (list string) :=
  match matches_from 0 (clue originName) content with
  | [] => None
  | l => Some l
  end.

End Clue.

(** ** The write step: [save] *)

Section Save.
Context `{Runtime}.

(** [s.substring(a, b)] *)
Definition substring (a b : nat) (s : string) : string :=
  Js.take (Nat.max a b - Nat.min a b) (Js.drop (Nat.min a b) s).

(** [pathString.match(/[?#]/)?.index] *)
Fixpoint extra_tail_index (s : string) : option nat :=
  match s with
  | EmptyString => None
  | String c s' =>
      if Clue.one_of "?#" c then Some 0
      else option_map S (extra_tail_index s')
  end.

(** [s.replace(/^\.\//, '')] *)
Definition strip_dot_slash (s : string) : string :=
  if Js.startsWith "./" s then Js.drop 2 s else s.

(** [_keepOriginalPaths === true] *)
Definition keep_all (keep : option KeepPaths) : bool :=
  match keep with
  | Some (KeepBool true) => true
  | _ => false
  end.

(** The test that exempts a literal: [_keepOriginalPaths] is a non-empty
    array and one of its strings is a suffix of [pathString]. *)
Definition kept_literal (keep : option KeepPaths) (pathString : string) : bool :=
  match keep with
  | Some (KeepList l) =>
      (0 <? length l)%nat &&
      existsb (fun s => (String.length s <=? String.length pathString)%nat
                        && Js.endsWith s pathString) l
  | _ => false
  end.

(** The body of [for (const originDir in asNewNames)]. *)
Definition rewrite_for_dir (hostDir originName pathStrCtx prefix pathString
    suffix : string) (content : string) (d : string * NamedEntry) : string :=
  let originDir := fst d in
  let originPath := path_join [originDir; originName] in
  let newPath := named_as (snd d) in
  if Js.startsWith "/" pathString then
    Js.replace pathStrCtx (prefix +:+ ("/" +:+ newPath) +:+ suffix) content
  else if negb (String.eqb (strip_dot_slash pathString) (strip_dot_slash originPath))
  then
    let pathStrDir := p_dir (path_parse (path_join [hostDir; pathString])) in
    if negb (String.eqb pathStrDir originDir) then content
    else Js.replace pathStrCtx
           (prefix +:+ path_relative hostDir newPath +:+ suffix) content
  else Js.replace pathStrCtx (prefix +:+ newPath +:+ suffix) content.

(** The body of [for (let i = 0; i < pathStrings.length; i++)]: one matched
    literal with its delimiters. *)
Definition literal_path (pathStrCtx : string) : string :=
  substring 1 (String.length pathStrCtx - 1) pathStrCtx.

(** The literal without its query or fragment, and the suffix they join. *)
Definition split_extra_tail (pathString suffix : string) : string * string :=
  match extra_tail_index pathString with
  | Some (S i) => (substring 0 (S i) pathString, Js.drop (S i) pathString +:+ suffix)
  | _ => (pathString, suffix)
  end.

Definition rewrite_literal (keep : option KeepPaths) (hostDir originName : string)
    (asNewNames : list (string * NamedEntry)) (content pathStrCtx : string)
  : string :=
  let prefix := substring 0 1 pathStrCtx in
  let pathString := literal_path pathStrCtx in
  let suffix := Js.drop (String.length pathStrCtx - 1) pathStrCtx in
  if isURL pathString then content
  else
    let '(pathString, suffix) := split_extra_tail pathString suffix in
    if kept_literal keep pathString then content
    else fold_left (rewrite_for_dir hostDir originName pathStrCtx prefix
                      pathString suffix) asNewNames content.

(** The body of [for (let j = 0; j < originNames.length; j++)]. *)
Definition rewrite_origin (keep : option KeepPaths) (hostDir : string)
    (content : string) (o : string * list (string * NamedEntry)) : string :=
  match match_clue (fst o) content with
  | None => content
  | Some pathStrings =>
      fold_left (rewrite_literal keep hostDir (fst o) (snd o)) pathStrings content
  end.

(** [outdir || '.'] *)
Definition outdir_or_dot (outdir : option string) : string :=
  match outdir with
  | Some d => if Js.truthy d then d else "."
  | None => "."
  end.

(** The text [save] writes for a string body when paths are not all kept. *)
Definition rewrite_body (keep : option KeepPaths) (name : string)
    (outdir : option string) (n : NamedAs) (body : string) : string :=
  let hostDir := path_relative (outdir_or_dot outdir) (p_dir (path_parse name)) in
  fold_left (rewrite_origin keep hostDir) n body.

Definition mark_saved (name : string) (st : State) : State :=
  mkState (namedAs st) ({[name]} ∪ pathSaved st) (disk st) (next_fd st) (trace st).

(** [save(name, body, options, outdir)].  [_pathSaved] is read as a set of
    paths: a path that is a property every object inherits ([constructor],
    [toString], ...) is outside the model. *)
Definition save (keep : option KeepPaths) (name : string) (body : Body)
    (outdir : option string) (st : State) : State :=
  if bool_decide (name ∈ pathSaved st) then st
  else
    let st := mark_saved name st in
    if keep_all keep then Bun_write name body st
    else
      match body with
      | BText s =>
          Bun_write name (BText (rewrite_body keep name outdir (namedAs st) s)) st
      | _ => Bun_write name body st
      end.

End Save.

(** ** The reference extractor: the element handler of [getAllFiles] *)

Section Extractor.
Context `{Runtime}.

(** The first attribute of [attributesToSearch] the element has. *)
Definition searched_attribute (el : Element) : option (string * option string) :=
  match List.find (fun a => El.hasAttribute a el) attributesToSearch with
  | Some a => Some (a, El.getAttribute a el)
  | None => None
  end.

(** [options?.excludeExtensions?.includes(extension)] *)
Definition extension_excluded (options : option Options) (extension : string) : bool :=
  match options with
  | Some o =>
      match excludeExtensions o with
      | Some l => Js.arr_includes extension l
      | None => false
      end
  | None => false
  end.

(** [options?.suppressErrors !== true] *)
Definition errors_shown (options : option Options) : bool :=
  match options with
  | Some o =>
      match suppressErrors o with
      | Some true => false
      | _ => true
      end
  | None => true
  end.

Definition tab : string := String (ascii_of_nat 9) EmptyString.
Definition dq : string := String (ascii_of_nat 34) EmptyString.

(** The four lines printed for a reference to a file that is not there. *)
Definition missing_diagnostic (filePath fileText : string) (el : Element)
    (attributeName attributeValue : string) : list Event :=
  let search := attributeName +:+ "=" +:+ dq +:+ attributeValue +:+ dq in
  let line := returnLineNumberOfOccurance fileText search in
  let columnNumber :=
    (getColumnNumber fileText
       (2 * Js.indexOf search fileText + Z.of_nat (String.length search))
     + Z.of_nat (String.length (Js.of_int line)) + 1)%Z in
  [ EvLog (getLines fileText 4 (line + 1)%Z);
    EvLog (Js.caret_padStart columnNumber);
    EvError ("bun-plugin-html - HTMLParseError: Specified <" +:+ tagName el
             +:+ "> " +:+ attributeName +:+ " '" +:+ attributeValue
             +:+ "' does not exist!");
    EvLog (tab +:+ "  at " +:+ filePath +:+ ":" +:+ Js.of_int line +:+ ":"
           +:+ Js.of_int columnNumber) ].

(** The variables of [getAllFiles] the handler writes. *)
Record Extraction := mkExtraction {
  ex_files : list File;
  ex_fileText : string
}.

Definition emit_all (es : list Event) (st : State) : State :=
  fold_left (fun s e => emit e s) es st.

(** [rewriter.on(excludedSelector, { async element(el) { ... } })] *)
Definition on_element (options : option Options) (filePath htmlResolvedPath
    hash : string) (el : Element) (ex : Extraction) (st : State)
  : Outcome (Extraction * State) :=
  match searched_attribute el with
  | Some (attributeName, Some attributeValue) =>
      if negb (Js.truthy attributeName) || negb (Js.truthy attributeValue)
         || isURL attributeValue
      then Returned (ex, st)
      else
        let resolvedPath := path_resolve [path_dirname filePath; attributeValue] in
        let extension := p_ext (path_parse resolvedPath) in
        if extension_excluded options extension then Returned (ex, st)
        else
          let '(file, st) := Bun_file resolvedPath st in
          if negb (file_exists file st) then
            let fileText := Js.replaceAll tab tab (ex_fileText ex) in
            let ex := mkExtraction (ex_files ex) fileText in
            if errors_shown options then
              Returned (ex, emit_all (missing_diagnostic filePath fileText el
                                        attributeName attributeValue) st)
            else Returned (ex, st)
          else
            Returned
              (mkExtraction
                 (ex_files ex ++
                  [(file, mkDetails None (Some (mkAttr attributeName attributeValue))
                            Chunk hash (Some resolvedPath) htmlResolvedPath)])
                 (ex_fileText ex),
               st)
  | _ => Returned (ex, st)
  end.

(** The selector [getAllFiles] registers the handler on. *)
Definition excludedSelector (excluded : list string) : string :=
  fold_left (fun acc exclude => acc +:+ ":not(" +:+ exclude +:+ ")") excluded "".

(** The elements that selector selects, when every member of [excluded] is
    a selector of its own: those that match none of them. *)
Definition handler_runs (excluded : list string) (el : Element) : bool :=
  forallb (fun exclude => negb (selector_matches exclude el)) excluded.

End Extractor.

(** ** [setup]: the lists in force and the [onLoad] hook *)

(** [options?.excludeSelectors ? options.excludeSelectors.concat(selectorsToExclude)
    : selectorsToExclude] *)
Definition excluded_of (options : option Options) : list string :=
  match options with
  | Some o =>
      match excludeSelectors o with
      | Some l => l ++ selectorsToExclude
      | None => selectorsToExclude
      end
  | None => selectorsToExclude
  end.

Definition buildExtensions_of (options : option Options) : list string :=
  match options with
  | Some o =>
      match includeExtensions o with
      | Some l => l ++ extensionsToBuild
      | None => extensionsToBuild
      end
  | None => extensionsToBuild
  end.

(** [_keepOriginalPaths = options?.keepOriginalPaths] *)
Definition keepOriginalPaths_of (options : option Options) : option KeepPaths :=
  match options with
  | Some o => keepOriginalPaths o
  | None => None
  end.

(** [options?.minifyOptions ?? defaultMinifyOptions] *)
Definition htmlOptions_of (options : option Options) : HtmlMinifyOptions :=
  match options with
  | Some o => default defaultMinifyOptions (minifyOptions o)
  | None => defaultMinifyOptions
  end.

(** The filter [/\.(html|htm)$/] of [build.onLoad]. *)
Definition onLoad_filter (path : string) : bool :=
  Js.endsWith ".html" path || Js.endsWith ".htm" path.

(** The callback of [build.onLoad]: it reads neither its argument nor the
    plugin's options. *)
Definition onLoad (options : option Options) (args_path : string)
  : Outcome (option string) :=
  Thrown "bun-plugin-html does not support output information at this time.".

(** ** The graph: [Map<BunFile, FileDetails>]

    Keys are compared by identity and iterated in insertion order; a loop
    over the map that deletes or overwrites the entry it is at goes on with
    the next one. *)

Definition Graph : Type := list File.

Module G.
Definition same (f g : BunFile) : bool := Nat.eqb (fd_id f) (fd_id g).

Definition has (f : BunFile) (g : Graph) : bool :=
  existsb (fun e => same f (fst e)) g.
End G.

Section Classifier.
Context `{Runtime}.

Definition getExtensionFiles (files : Graph) (extensions : list string) : list File :=
  filter (fun e =>
            match name_of (fst e) with
            | Some n => Js.arr_includes (p_ext (path_parse n)) extensions
            | None => false
            end = true) files.

(** [options && (options.inline === true || (typeof options.inline ===
    'object' && options.inline?.css === true))], and the same for [js]. *)
Definition inline_css (options : option Options) : bool :=
  match options with
  | Some o =>
      match inline o with
      | Some (InlineBool b) => b
      | Some (InlineObj (Some true) _) => true
      | _ => false
      end
  | None => false
  end.

Definition inline_js (options : option Options) : bool :=
  match options with
  | Some o =>
      match inline o with
      | Some (InlineBool b) => b
      | Some (InlineObj _ (Some true)) => true
      | _ => false
      end
  | None => false
  end.

(** What one turn of the inner loop of [processHtmlFiles] does with an
    entry of the graph: the entry that stays (if any) and the rule pushed
    (if any). *)
Definition classify (options : option Options) (buildExtensions : list string)
    (st : State) (e : File) : option File * list Rule :=
  let file := fst e in
  let details := snd e in
  match attribute details with
  | None => (Some e, [])
  | Some attr =>
      let selector := attributeToSelector attr in
      match name_of file with
      | None => (Some e, [])
      | Some fname =>
          let extension := p_ext (path_parse fname) in
          if is_style_ext extension then
            if inline_css options
            then (None, [InlineStyle selector file details extension])
            else (Some e, [])
          else if Js.arr_includes extension buildExtensions then
            if inline_js options
            then (None, [InlineScript selector file details])
            else (Some e, [])
          else
            (Some (file, mkDetails (content details) (attribute details) Asset
                           (Bun_hash (file_text file st))
                           (originalPath details) (htmlImporter details)),
             [])
      end
  end.

(** One run of [for (const [file, details] of files)]. *)
Fixpoint classify_all (options : option Options) (buildExtensions : list string)
    (st : State) (files : Graph) : Graph * list Rule :=
  match files with
  | [] => ([], [])
  | e :: rest =>
      let '(kept, rules) := classify options buildExtensions st e in
      let '(files', rules') := classify_all options buildExtensions st rest in
      (match kept with Some e' => e' :: files' | None => files' end,
       rules ++ rules')
  end.

(** The inner loop once for every member of [htmlFiles]. *)
Fixpoint classify_times (n : nat) (options : option Options)
    (buildExtensions : list string) (st : State) (files : Graph)
  : Graph * list Rule :=
  match n with
  | O => (files, [])
  | S n' =>
      let '(files1, rules1) := classify_all options buildExtensions st files in
      let '(files2, rules2) := classify_times n' options buildExtensions st files1 in
      (files2, rules1 ++ rules2)
  end.

Definition processHtmlFiles (options : option Options)
    (buildExtensions : list string) (st : State) (files : Graph)
  : Graph * list Rule :=
  let htmlFiles := getExtensionFiles files [".html"; ".htm"] in
  classify_times (length htmlFiles) options buildExtensions st files.

(** ** Applying a rule to an element it selects *)

(** [/\.s[ac]ss$/i.test(extension)] *)
Definition is_sass_source (extension : string) : bool :=
  let e := Js.toLowerCase extension in
  Js.endsWith ".sass" e || Js.endsWith ".scss" e.

(** [content.replaceAll(/(<)(\/script>)/g, '\\x3C$2')] *)
Definition escape_script (content : string) : string :=
  Js.replaceAll "</script>" "\x3C/script>" content.

(** [a || b] on strings *)
Definition or_else (a b : string) : string := if Js.truthy a then a else b.

Definition apply_rule (buildExtensions : list string) (fileLocation : string)
    (st : State) (r : Rule) (el : Element) : Element :=
  match r with
  | InlineStyle _ file details extension =>
      let content := or_else (contentToString (content details) st)
                             (file_text file st) in
      let content := if is_sass_source extension
                     then sass_compileString content else content in
      El.replace ("<style>" +:+ content +:+ "</style>") el
  | InlineScript _ file details =>
      let content :=
        match content details with
        | None => file_text file st
        | Some _ => contentToString (content details) st
        end in
      El.setInnerContent (escape_script content) (El.removeAttribute "src" el)
  | SetAttribute _ attr file extension =>
      match El.getAttribute (attr_name attr) el, name_of file with
      | Some _, Some fname =>
          let filePath := path_relative (path_dirname fileLocation) fname in
          let filePath := if Js.arr_includes extension buildExtensions
                          then changeFileExtension filePath ".js" else filePath in
          El.setAttribute (attr_name attr) filePath el
      | _, _ => el
      end
  end.

End Classifier.

(** ** The compilation bridge: what it does with failures *)

Section Bridge.
Context `{Runtime}.

(** [getCSSMinifier(config, options)] *)
Definition getCSSMinifier (config : BuildConfig) (options : HtmlMinifyOptions)
    (text : string) (st : State) : string * State :=
  let off := match minifyCSS options with CssBool false => true | _ => false end in
  if cfg_minify config && negb off then
    match minifyCSS options with
    | CssFunction f => (f text, st)
    | setting =>
        let cssOptions := match setting with CssObject o => o | _ => "{}" end in
        let output := cleancss_minify cssOptions text in
        let st := emit_all (map EvWarn (warnings output)) st in
        if (0 <? length (errors output))%nat then
          (text, emit_all (map EvError (errors output)) st)
        else (styles output, st)
    end
  else (text, st).

(** What [forJsFiles] does with the result of one [Bun.build] before it
    reads its outputs: [if (!result.success && options?.suppressErrors !==
    true) console.error(result.logs)]. *)
Definition report_build (options : option Options) (success : bool)
    (logs : string) (st : State) : State :=
  if negb success && errors_shown options then emit (EvError logs) st else st.

(** The arguments of an [onResolve] callback and what it returns:
    [{ ...args, path, external }]. *)
Record ResolveArgs := mkArgs {
  args_path : string;
  args_importer : string
}.

Record Resolved := mkResolved {
  res_path : string;
  res_external : option bool
}.

(** An entry of [toReplacePaths]. *)
Record ToReplace := mkToReplace {
  tr_from : string;
  tr_path : string;
  tr_resolved : string
}.

Definition bind {A B} (o : Outcome A) (k : A -> Outcome B) : Outcome B :=
  match o with
  | Returned a => k a
  | Thrown m => Thrown m
  end.

Notation "'do' x <- o ; k" := (bind o (fun x => k))
  (at level 10, x name, o at level 100, k at level 200).

(** The [try] block of the callback of [customResolver]: the answer, and
    the entry pushed on [toReplacePaths] if any. *)
Definition resolve_try (config : BuildConfig) (tempDirPath pathToResolveFrom : string)
    (requiresTempDir : bool) (args : ResolveArgs) (st : State)
  : Outcome (option Resolved * option ToReplace) :=
  let p := args_path args in
  if isURL p then Returned (None, None)
  else
    let tempPath := path_resolve [tempDirPath; p] in
    let originalPath := path_resolve [p; pathToResolveFrom] in
    let isModule := negb (Js.startsWith "./" p) && negb (Js.startsWith "../" p)
                    && negb (Js.startsWith "/" p) in
    if exists_on_disk tempPath st then
      do resolved <- Bun_resolveSync p tempDirPath;
      Returned (Some (mkResolved resolved (Some false)), None)
    else if isModule || exists_on_disk originalPath st then
      do resolved <- Bun_resolveSync p pathToResolveFrom;
      Returned (Some (mkResolved resolved (Some false)), None)
    else
      let candidate := path_resolve [args_importer args; "../"; p] in
      let exists_ := exists_on_disk candidate st || is_directory candidate in
      do resolved <-
        (if negb isModule then
           if exists_ then
             if is_directory candidate then
               if requiresTempDir then Bun_resolveSync p originalPath
               else Bun_resolveSync "." candidate
             else Bun_resolveSync p (p_dir (path_parse (args_importer args)))
           else Bun_resolveSync "." candidate
         else Returned candidate);
      if cfg_splitting config then
        Returned (Some (mkResolved resolved (Some true)),
                  Some (mkToReplace (args_importer args) p resolved))
      else Returned (Some (mkResolved resolved (Some false)), None).

(** The lines the [catch] block prints. *)
Definition resolution_diagnostic (error : string) : list Event :=
  map EvError
    [ "Error during module resolution:";
      "Potential reasons:";
      "- Missing file in specified paths";
      "- Invalid file type (non-JS file)";
      "If unresolved, please report to `bun-plugin-html`.";
      error ].

(** The callback of [customResolver]: [try { ... } catch (error) { ... }]. *)
Definition onResolve (options : option Options) (config : BuildConfig)
    (tempDirPath pathToResolveFrom : string) (requiresTempDir : bool)
    (args : ResolveArgs) (toReplacePaths : list ToReplace) (st : State)
  : Outcome (option Resolved * list ToReplace * State) :=
  match resolve_try config tempDirPath pathToResolveFrom requiresTempDir args st with
  | Returned (answer, pushed) =>
      Returned (answer,
                match pushed with
                | Some t => toReplacePaths ++ [t]
                | None => toReplacePaths
                end,
                st)
  | Thrown error =>
      Returned (Some (mkResolved "" None), toReplacePaths,
                if errors_shown options
                then emit_all (resolution_diagnostic error) st else st)
  end.

End Bridge.

(** ** The end of [setup]: output identities, then the two write loops *)

Section Output.
Context `{Runtime}.

(** [keys.push(key.name as string)]; every handle of the graph comes from
    [Bun.file(path)] and has a name. *)
Definition mapIntoKeys (files : Graph) : list string :=
  map (fun e => default "" (fd_name (fst e))) files.

(** [if (build.config.outdir) filePath = path.resolve(build.config.outdir, filePath)] *)
Definition under_outdir (config : BuildConfig) (filePath : string) : string :=
  match cfg_outdir config with
  | Some d => if Js.truthy d then path_resolve [d; filePath] else filePath
  | None => filePath
  end.

(** The details pushed on [newFiles]: [content] is [details.content ?? file]. *)
Definition output_details (file : BunFile) (details : FileDetails) : FileDetails :=
  mkDetails (Some (default (BFile file) (content details))) (attribute details)
            (kind details) (hash details) (originalPath details)
            (htmlImporter details).

(** The body of [for (const [file, details] of files.entries())]. *)
Definition resolve_output (options : option Options) (config : BuildConfig)
    (buildExtensions : list string) (commonPath : string)
    (acc : list File * State) (e : File) : list File * State :=
  let '(newFiles, st) := acc in
  let file := fst e in
  let details := snd e in
  match name_of file with
  | None => (newFiles, st)
  | Some fname =>
      let extension := p_ext (path_parse fname) in
      if Js.arr_includes extension buildExtensions then
        let filePath := removeCommonPath fname commonPath in
        let parsedNewPath := path_parse filePath in
        let filePath := under_outdir config filePath in
        let '(named, st) :=
          match originalPath details with
          | Some o =>
              if Js.truthy o then
                keepNamedAs (path_parse (removeCommonPath o commonPath))
                            parsedNewPath filePath st
              else (None, st)
          | None => (None, st)
          end in
        let '(fd, st) :=
          match named with
          | Some n => (named_fd n, st)
          | None => Bun_file filePath st
          end in
        (newFiles ++ [(fd, output_details file details)], st)
      else
        let '(newFile, st) :=
          renameFile options config file (hash details) (kind details)
                     commonPath st in
        match name_of newFile with
        | None => (newFiles, st)
        | Some newName =>
            let filePath := under_outdir config (removeCommonPath newName commonPath) in
            let '(fd, st) := Bun_file filePath st in
            (newFiles ++ [(fd, output_details file details)], st)
        end
  end.

Definition resolve_outputs (options : option Options) (config : BuildConfig)
    (buildExtensions : list string) (files : Graph) (st : State)
  : list File * State :=
  let commonPath := findLastCommonPath (mapIntoKeys files) in
  fold_left (resolve_output options config buildExtensions commonPath)
            files ([], st).

(** [name.indexOf(details.hash) > -1 && (await fs.exists(name))] *)
Definition already_there (name hash : string) (st : State) : bool :=
  Js.includes hash name && exists_on_disk name st.

Definition not_entry (e : File) : bool := negb (Kind_eqb (kind (snd e)) EntryPoint).
Definition is_entry (e : File) : bool := Kind_eqb (kind (snd e)) EntryPoint.

(** The body of the first loop, over the members of [newFiles] that are
    not entry points; [rules] is [attributesToChange]. *)
Definition write_asset (options : option Options) (config : BuildConfig)
    (acc : list Rule * State) (e : File) : list Rule * State :=
  let '(rules, st) := acc in
  let file := fst e in
  let details := snd e in
  match name_of file, content details with
  | Some name, Some body =>
      if negb (body_truthy body) then (rules, st)
      else if already_there name (hash details) st then (rules, st)
      else
        let st := save (keepOriginalPaths_of options) name body
                       (cfg_outdir config) st in
        match attribute details with
        | None => (rules, st)
        | Some attr =>
            (rules ++ [SetAttribute (attributeToSelector attr) attr file
                                    (p_ext (path_parse name))],
             st)
        end
  | _, _ => (rules, st)
  end.

(** The body of the second loop, over the entry points. *)
Definition write_entry (options : option Options) (config : BuildConfig)
    (rules : list Rule) (st : State) (e : File) : State :=
  let file := fst e in
  let details := snd e in
  let fileContents := contentToString (content details) st in
  let location := default "" (fd_name file) in
  let st := emit (EvTransform location rules) st in
  let fileContents := rewriter_transform rules location fileContents st in
  let htmlOptions := htmlOptions_of options in
  let fileContents :=
    if cfg_minify config && bool_decide (minifyHTML htmlOptions = Some true)
    then minify_html fileContents htmlOptions else fileContents in
  match name_of file with
  | None => st
  | Some name =>
      if already_there name (hash details) st then st
      else save (keepOriginalPaths_of options) name
                (BText fileContents) (cfg_outdir config) st
  end.

Definition write_outputs (options : option Options) (config : BuildConfig)
    (attributesToChange : list Rule) (newFiles : list File) (st : State)
  : State :=
  let '(rules, st) :=
    fold_left (write_asset options config)
              (List.filter not_entry newFiles) (attributesToChange, st) in
  fold_left (write_entry options config rules)
            (List.filter is_entry newFiles) st.

(** From [processHtmlFiles] to the end of [setup]. *)
Definition finish (options : option Options) (config : BuildConfig)
    (files : Graph) (st : State) : State :=
  let buildExtensions := buildExtensions_of options in
  let '(files, attributesToChange) :=
    processHtmlFiles options buildExtensions st files in
  let '(newFiles, st) :=
    resolve_outputs options config buildExtensions files st in
  write_outputs options config attributesToChange newFiles st.

End Output.

(** ** A runtime to run the plugin on examples

    The path functions are Node's POSIX ones and the pattern matcher is
    [Clue].  The functions of [./utils] are modelled from what the
    specification says of them.  The collaborators whose algorithms are not
    the plugin's (the hash, the compilers, the markup rewriter) are
    replaced by simple functions; every theorem below is proved for all
    runtimes, and the examples do not go through these. *)

Module Demo.

Definition is_alpha (c : ascii) : bool :=
  let n := nat_of_ascii (Js.lower_ascii c) in (97 <=? n)%nat && (n <=? 122)%nat.
Definition is_digit (c : ascii) : bool :=
  let n := nat_of_ascii c in (48 <=? n)%nat && (n <=? 57)%nat.

Fixpoint scheme_rest (s : string) : bool :=
  match s with
  | EmptyString => false
  | String c s' =>
      if Ascii.eqb c ":"%char then true
      else if is_alpha c || is_digit c || Clue.one_of "+-." c then scheme_rest s'
      else false
  end.

(** Modelled from the spec: [isURL] of [./utils] accepts the absolute,
    scheme-qualified URLs, which are never build inputs. *)
Definition isURL (s : string) : bool :=
  match s with
  | String c s' => is_alpha c && scheme_rest s'
  | EmptyString => false
  end.

(** Modelled from the spec: [attributeToSelector] of [./utils] gives the
    selector of the elements that carry the attribute with that value. *)
Definition attributeToSelector (a : Attribute) : string :=
  "[" +:+ attr_name a +:+ "=" +:+ String (ascii_of_nat 34) EmptyString
      +:+ attr_value a +:+ String (ascii_of_nat 34) EmptyString +:+ "]".

(** Modelled from the spec: [changeFileExtension] of [./utils] forces the
    extension of a reference to the one given. *)
Definition changeFileExtension (p ext : string) : string :=
  Js.take (String.length p - String.length (p_ext (Posix.parse p))) p +:+ ext.

(** Modelled from the spec: [contentToString] of [./utils] gives the text
    of a content, the empty text when there is none. *)
Definition contentToString (c : option Body) (st : State) : string :=
  match c with
  | Some b => body_data b st
  | None => ""
  end.

Fixpoint common_prefix (a b : list string) : list string :=
  match a, b with
  | x :: a', y :: b' => if String.eqb x y then x :: common_prefix a' b' else []
  | _, _ => []
  end.

(** Modelled from the spec: [findLastCommonPath] of [./utils] gives the
    lowest common ancestor directory of the paths. *)
Definition findLastCommonPath (paths : list string) : string :=
  match map (fun p => Js.split Posix.slash (Posix.dirname p)) paths with
  | [] => ""
  | d :: ds => Js.join "/" (fold_left common_prefix ds d)
  end.

(** Modelled from the spec: [removeCommonPath] of [./utils] gives the path
    relative to the common ancestor. *)
Definition removeCommonPath (p common : string) : string :=
  Js.replace (common +:+ "/") "" p.

Fixpoint count_lines (n : nat) (s : string) : Z :=
  match n, s with
  | S n', String c s' =>
      ((if Ascii.eqb c (ascii_of_nat 10) then 1 else 0) + count_lines n' s')%Z
  | _, _ => 0%Z
  end.

(** Modelled from the spec: the diagnostic names the line of the reference
    (counted from 1). *)
Definition returnLineNumberOfOccurance (text search : string) : Z :=
  let i := Js.indexOf search text in
  if (i <? 0)%Z then (-1)%Z else (1 + count_lines (Z.to_nat i) text)%Z.

Fixpoint column (n : nat) (s : string) (col : Z) : Z :=
  match n, s with
  | S n', String c s' =>
      column n' s' (if Ascii.eqb c (ascii_of_nat 10) then 0 else col + 1)%Z
  | _, _ => col
  end.

(** Modelled from the spec: the caret points at the column of a position,
    given here in half characters. *)
Definition getColumnNumber (text : string) (pos2 : Z) : Z :=
  column (Z.to_nat (pos2 / 2)) text 0%Z.

(** Modelled from the spec: the source excerpt of the diagnostic, here the
    one line numbered [line - 1]. *)
Definition getLines (text : string) (amount line : Z) : string :=
  nth (Z.to_nat (line - 2)) (Js.split (ascii_of_nat 10) text) "".

(** In place of [Bun.hash(x, 1).toString(16).slice(0, 8)]: the length of
    the text in eight digits. *)
Definition Bun_hash (text : string) : string :=
  let d := Js.of_int (Z.of_nat (String.length text)) in
  Js.drop (String.length d) "00000000" +:+ d.

(** Type selectors only: an element matches a tag name when it is its own.
    The remaining collaborators of [runtime] are the simplest ones: a
    resolver that finds nothing, no directories, a clean-css that returns
    its input. *)
Definition selector_matches (selector : string) (el : Element) : bool :=
  String.eqb selector (tagName el).

Definition runtime (cwd : string) : Runtime :=
  Build_Runtime (Posix.api cwd)
    isURL attributeToSelector changeFileExtension contentToString
    findLastCommonPath removeCommonPath
    returnLineNumberOfOccurance getColumnNumber getLines
    Bun_hash
    (fun s => s)
    (fun s _ => s)
    (fun _ _ text _ => text)
    Clue.match_
    selector_matches
    (fun specifier from => Thrown ("Cannot find module " +:+ specifier))
    (fun _ => false)
    (fun _ text => mkCssOutput text [] []).

End Demo.

(** ** Vocabulary of the statements on identity folding *)

Section FoldingTerms.
Context `{Runtime}.

(** The key a file is folded under: its base name and [path.join(root, dir)]. *)
Definition fold_key (o : ParsedPath) : string * string :=
  (p_base o, path_join [p_root o; p_dir o]).

Definition recorded (key : string * string) (n : NamedAs) : option NamedEntry :=
  named_lookup (fst key) (snd key) n.

(** [as !== path.join(nameDir, base)]: the new relative path is not the
    original one. *)
Definition relocated (o n : ParsedPath) : bool :=
  negb (String.eqb (path_join [p_root n; p_dir n; p_base n])
                   (path_join [snd (fold_key o); p_base o])).

(** What [renameFile] passes to [keepNamedAs], when it gets that far: the
    parsed original path, the parsed new path and the resolved new path. *)
Definition fold_input (options : option Options) (config : BuildConfig)
    (sharedPath : string) (file : BunFile) (hash : string) (k : Kind)
  : option (ParsedPath * ParsedPath * string) :=
  match k with
  | Sourcemap | Bytecode => None
  | _ =>
    match name_of file with
    | None => None
    | Some fname =>
      match pick_naming options config (p_ext (path_parse fname)) k with
      | None => None
      | Some naming =>
        if negb (Js.truthy naming) then None
        else
          let parsedPath := path_parse (Js.replace sharedPath "." (path_normalize fname)) in
          let ext := Js.replace "." "" (p_ext parsedPath) in
          let ext := if is_sass_ext ext then "css" else ext in
          let newPath := expand_template naming (p_dir parsedPath) hash ext
                                         (p_name parsedPath) in
          Some (parsedPath, path_parse newPath, path_resolve [sharedPath; newPath])
      end
    end
  end.

(** [extends n n']: every mapping of [n] is a mapping of [n']. *)
Definition extends (n n' : NamedAs) : Prop :=
  forall key e, recorded key n = Some e -> recorded key n' = Some e.

(** What may happen between two renamings: other renamings, the folding of
    compiled scripts (which calls [keepNamedAs] itself), writes. *)
Inductive Op :=
| OpRename (options : option Options) (config : BuildConfig) (file : BunFile)
           (hash : string) (k : Kind) (sharedPath : string)
| OpKeep (o n : ParsedPath) (resolved : string)
| OpSave (keep : option KeepPaths) (name : string) (body : Body)
         (outdir : option string).

Definition run_op (st : State) (op : Op) : State :=
  match op with
  | OpRename options config file hash k sharedPath =>
      snd (renameFile options config file hash k sharedPath st)
  | OpKeep o n resolved => snd (keepNamedAs o n resolved st)
  | OpSave keep name body outdir => save keep name body outdir st
  end.

Definition run_ops (ops : list Op) (st : State) : State := fold_left run_op ops st.

End FoldingTerms.

(** ** Inputs of the examples *)

Module Ex.

Definition rt : Runtime := Demo.runtime "/work".

(** [naming: { entry: '[dir]/[name].[ext]', chunk: '[dir]/[name]-[hash].[ext]',
    asset: '[dir]/[name]-[hash].[ext]' }], [outdir: '/proj/dist'] *)
Definition per_kind : BuildConfig :=
  mkConfig (Some (NamingObject (mkNaming (Some "[dir]/[name].[ext]")
                                         (Some "[dir]/[name]-[hash].[ext]")
                                         (Some "[dir]/[name]-[hash].[ext]"))))
           (Some "/proj/dist") false false false.

(** A page that is an entry point and that another page also refers to
    (an [iframe], a [link]): two handles on one path, one of kind
    [entry-point], one that [processHtmlFiles] made an [asset]. *)
Definition page_entry : BunFile := mkFile 100 (Some "/proj/page.html").
Definition page_asset : BunFile := mkFile 101 (Some "/proj/page.html").

(** An image two pages refer to: two handles on one path. *)
Definition logo_1 : BunFile := mkFile 102 (Some "/proj/img/logo.png").
Definition logo_2 : BunFile := mkFile 103 (Some "/proj/img/logo.png").

End Ex.

(** ** Vocabulary of the statements on writes *)

Definition is_write_to (name : string) (e : Event) : bool :=
  match e with
  | EvWrite n _ => String.eqb n name
  | _ => false
  end.

(** How many times the trace writes the path. *)
Definition writes_to (name : string) (t : list Event) : nat :=
  length (List.filter (is_write_to name) t).

(** The writes of a trace, in order. *)
Definition writes_of (t : list Event) : list (string * Body) :=
  flat_map (fun e => match e with EvWrite n b => [(n, b)] | _ => [] end) t.

(** Every path the trace writes is in the ledger, and is written once. *)
Definition ledger_ok (st : State) : Prop :=
  forall x, (writes_to x (trace st) <= 1)%nat /\
            (writes_to x (trace st) = 1%nat -> x ∈ pathSaved st).

(** ** Inputs of the examples on writes *)

Module ExWrite.

(** The source tree: one image. *)
Definition sources : gmap string string := {[ "/proj/img/logo.png" := "PNG" ]}.

(** Two members of [newFiles] on the output path [/proj/dist/img/logo.png]
    (two pages refer to the image; the template has no hash). *)
Definition logo_details : FileDetails :=
  mkDetails (Some (BFile Ex.logo_1)) (Some (mkAttr "src" "./img/logo.png"))
            Asset "0a0b0c0d" (Some "/proj/img/logo.png") "/proj/index.html".

Definition out_1 : File := (mkFile 7 (Some "/proj/dist/img/logo.png"), logo_details).
Definition out_2 : File := (mkFile 8 (Some "/proj/dist/img/logo.png"), logo_details).

Definition plain : BuildConfig :=
  mkConfig (Some (NamingString "[dir]/[name].[ext]")) (Some "/proj/dist")
           false false false.

(** The state after the write step of [out_1]. *)
Definition after_first : State :=
  snd (@write_asset Ex.rt None plain ([], initial sources) out_1).

End ExWrite.

(** ** Vocabulary of the statements on naming *)

Section NamingTerms.
Context `{Runtime}.

(** The style override is in force: the extension is a style extension
    and [options.naming.css] is a non-empty template. *)
Definition css_override_applies (options : option Options) (extension : string)
  : bool :=
  is_style_ext extension && bool_decide (is_Some (css_override options)).

(** The output path [renameFile] computes from a template. *)
Definition renamed_path (naming sharedPath fname hash : string) : string :=
  let parsedPath := path_parse (Js.replace sharedPath "." (path_normalize fname)) in
  let ext := Js.replace "." "" (p_ext parsedPath) in
  let ext := if is_sass_ext ext then "css" else ext in
  path_resolve [sharedPath;
                expand_template naming (p_dir parsedPath) hash ext (p_name parsedPath)].

(** The key [renameFile] folds a file name under. *)
Definition rename_key (sharedPath fname : string) : string * string :=
  fold_key (path_parse (Js.replace sharedPath "." (path_normalize fname))).

Definition renamable (k : Kind) : bool :=
  match k with
  | Sourcemap | Bytecode => false
  | _ => true
  end.

End NamingTerms.

(** ** Vocabulary of the statements on the order of writes *)

(** An event of the first loop: the write of a member of [newFiles] that
    is not an entry point. *)
Definition asset_event (newFiles : list File) (ev : Event) : Prop :=
  exists e name body,
    e ∈ newFiles /\ not_entry e = true /\ name_of (fst e) = Some name /\
    ev = EvWrite name body.

(** An event of the second loop: the markup pass of an entry point, run
    with the rules [rules], or the write of an entry point. *)
Definition entry_event (newFiles : list File) (rules : list Rule) (ev : Event)
  : Prop :=
  exists e,
    e ∈ newFiles /\ is_entry e = true /\
    (ev = EvTransform (default "" (fd_name (fst e))) rules \/
     exists name body, name_of (fst e) = Some name /\ ev = EvWrite name body).

(** ** Vocabulary of the statements on inlining *)

Fixpoint has_char (c : ascii) (s : string) : bool :=
  match s with
  | EmptyString => false
  | String a s' => Ascii.eqb c a || has_char c s'
  end.

Section InlineTerms.
Context `{Runtime}.

(** The entries [processHtmlFiles] inlines: they carry the attribute of the
    element that refers to them, and their extension is a style extension
    with [inline] covering [css], or else a buildable extension with
    [inline] covering [js]. *)
Definition inlined (options : option Options) (buildExtensions : list string)
    (e : File) : bool :=
  match attribute (snd e), name_of (fst e) with
  | Some _, Some fname =>
      let extension := p_ext (path_parse fname) in
      if is_style_ext extension then inline_css options
      else Js.arr_includes extension buildExtensions && inline_js options
  | _, _ => false
  end.

(** The rule pushed for an inlined entry. *)
Definition inline_rule (e : File) : option Rule :=
  match attribute (snd e), name_of (fst e) with
  | Some attr, Some fname =>
      let extension := p_ext (path_parse fname) in
      Some (if is_style_ext extension
            then InlineStyle (attributeToSelector attr) (fst e) (snd e) extension
            else InlineScript (attributeToSelector attr) (fst e) (snd e))
  | _, _ => None
  end.

(** The text a style rule inlines and the text a script rule starts from. *)
Definition style_text (file : BunFile) (details : FileDetails) (extension : string)
    (st : State) : string :=
  let content := or_else (contentToString (content details) st) (file_text file st) in
  if is_sass_source extension then sass_compileString content else content.

Definition script_text (file : BunFile) (details : FileDetails) (st : State)
  : string :=
  match content details with
  | None => file_text file st
  | Some _ => contentToString (content details) st
  end.

(** The handles of a graph are distinct, as the keys of a [Map] are. *)
Definition distinct_handles (files : Graph) : Prop :=
  NoDup (map (fun e => fd_id (fst e)) files).

End InlineTerms.

(** ** Inputs of the examples on inlining *)

Module ExInline.

Definition inline_all : Options :=
  mkOptions (Some (InlineBool true)) None None None None None None None.

(** A page, and a chunk the bundler split off one of its scripts: no
    element of the page refers to it, so it carries no attribute. *)
Definition page : File :=
  (mkFile 0 (Some "/proj/index.html"),
   mkDetails None None EntryPoint "11112222" (Some "/proj/index.html")
             "/proj/index.html").

Definition split_chunk : File :=
  (mkFile 5 (Some "/proj/chunk-7f3a.js"),
   mkDetails (Some (BText "export const x = 1;")) None Chunk "7f3a0000" None
             "/proj/index.html").

(** The script of the page, compiled. *)
Definition main_js : File :=
  (mkFile 4 (Some "/proj/main.js"),
   mkDetails (Some (BText "document.write('<b></script>');"))
             (Some (mkAttr "src" "./main.ts")) Chunk "aa00bb11"
             (Some "/proj/main.ts") "/proj/index.html").

Definition graph : Graph := [page; main_js; split_chunk].

Definition script_element : Element :=
  mkElement "script" [("type", "module"); ("src", "./main.ts")] None None.

End ExInline.

(** ** Inputs of the examples on extraction *)

Module ExMissing.

(** [<img src="./missing.png">] in [/proj/index.html]; the file is not there. *)
Definition img : Element := mkElement "img" [("src", "./missing.png")] None None.

Definition page_text : string := "<img src=" +:+ dq +:+ "./missing.png" +:+ dq +:+ ">".

Definition start : Extraction := mkExtraction [] page_text.

Definition sources : gmap string string := {[ "/proj/index.html" := page_text ]}.

(** [excludeExtensions: ['.png']], errors not suppressed. *)
Definition no_png : Options :=
  mkOptions None None None None (Some [".png"]) None None None.

End ExMissing.

(** ** Vocabulary of the statements on kept paths *)

Section KeepTerms.
Context `{Runtime}.

(** The path of a matched literal as the exemption test sees it: without
    its delimiters and without its query or fragment. *)
Definition literal_bare_path (pathStrCtx : string) : string :=
  fst (split_extra_tail (literal_path pathStrCtx)
         (Js.drop (String.length pathStrCtx - 1) pathStrCtx)).




End KeepTerms.

(** ** Inputs of the examples on kept paths *)

Module ExKeep.


Definition css : string :=
  ".a{background:url(img/logo.png)} .b{background:url(https://cdn.example/logo.png)}".



End ExKeep.

(** ** Inputs of the examples on the lists of [setup] *)

Module ExLists.

(** [excludeSelectors: ['link']], [includeExtensions: ['.cljs']] *)
Definition custom : Options :=
  mkOptions None None None (Some [".cljs"]) None (Some ["link"]) None None.

Definition anchor : Element :=
  mkElement "a" [("href", "./other.html")] None None.

End ExLists.

(** ** A small build *)

Module ExBuild.

(** A page that refers to an image and a style sheet; the style sheet
    refers to the image too. *)
Definition html_text : string :=
  "<img src='./img/logo.png'><link rel='stylesheet' href='./main.css'>".
Definition css_text : string := "a{background:url(img/logo.png)}".

Definition sources : gmap string string :=
  {[ "/proj/index.html" := html_text;
     "/proj/img/logo.png" := "PNG";
     "/proj/main.css" := css_text ]}.

(** The graph after extraction and the style bridge. *)
Definition page : File :=
  (mkFile 0 (Some "/proj/index.html"),
   mkDetails None None EntryPoint "11112222" (Some "/proj/index.html")
             "/proj/index.html").
Definition logo : File :=
  (mkFile 1 (Some "/proj/img/logo.png"),
   mkDetails None (Some (mkAttr "src" "./img/logo.png")) Chunk "11112222"
             (Some "/proj/img/logo.png") "/proj/index.html").
Definition sheet : File :=
  (mkFile 2 (Some "/proj/main.css"),
   mkDetails (Some (BText css_text)) (Some (mkAttr "href" "./main.css")) Chunk
             "cccc0000" (Some "/proj/main.css") "/proj/index.html").

Definition graph : Graph := [page; logo; sheet].

(** [naming: '[dir]/[name]-[hash].[ext]'], [outdir: '/proj/dist'] *)
Definition hashed : BuildConfig :=
  mkConfig (Some (NamingString "[dir]/[name]-[hash].[ext]")) (Some "/proj/dist")
           false false false.

Definition start : State := mkState [] ∅ sources 3 [].

End ExBuild.

(** * Further components

    The rest of [src/index.ts]: the graph as a map, the whole extractor,
    the style bridge, and what [forJsFiles] does before and after it runs
    the bundler. *)

(** ** The graph as a map: [files.delete] and [files.set] *)

Definition graph_delete (f : BunFile) (g : Graph) : Graph :=
  List.filter (fun e => negb (G.same f (fst e))) g.

Fixpoint graph_set (f : BunFile) (d : FileDetails) (g : Graph) : Graph :=
  match g with
  | [] => [(f, d)]
  | e :: g' => if G.same f (fst e) then (fst e, d) :: g' else e :: graph_set f d g'
  end.

(** ** Two more collaborators *)

Class Toolchain := {
  (* [sass.compileString(text, { style: 'compressed' }).css]; a source the
     compiler rejects is outside the model *)
  sass_compressed : string -> string;
  (* the elements of a document, in the order the rewriter visits them *)
  document_elements : string -> list Element
}.

(** ** The extractor: [getAllFiles] and the head of [setup] *)

Section WholeExtractor.
Context `{Runtime} `{Toolchain}.

(** The handlers run one after the other, in the order of the document,
    on the elements the selector of [excluded] selects, and all have
    returned when [getAllFiles] returns its list. *)
Definition visit (options : option Options) (filePath htmlResolvedPath
    hash : string) (acc : Outcome (Extraction * State)) (el : Element)
  : Outcome (Extraction * State) :=
  match acc with
  | Returned (ex, st) => on_element options filePath htmlResolvedPath hash el ex st
  | Thrown m => Thrown m
  end.

Definition getAllFiles (options : option Options) (filePath : string)
    (excluded : list string) (st : State) : Outcome (list File * State) :=
  let extension := p_ext (path_parse filePath) in
  if negb (String.eqb extension ".htm") && negb (String.eqb extension ".html")
  then Returned ([], st)
  else
    let htmlResolvedPath := path_resolve [filePath] in
    let '(originalFile, st) := Bun_file htmlResolvedPath st in
    (* [await originalFile.text()] rejects when the page is not there *)
    if negb (file_exists originalFile st) then
      Thrown ("ENOENT: no such file or directory, open '" +:+ htmlResolvedPath +:+ "'")
    else
    let fileText := file_text originalFile st in
    let hash := Bun_hash fileText in
    let files := [(originalFile,
                   mkDetails None None EntryPoint hash (Some htmlResolvedPath)
                             htmlResolvedPath)] in
    match fold_left (visit options filePath htmlResolvedPath hash)
            (List.filter (handler_runs excluded) (document_elements fileText))
            (Returned (mkExtraction files fileText, st)) with
    | Returned (ex, st) => Returned (ex_files ex, st)
    | Thrown m => Thrown m
    end.

(** [new Map((await Promise.all(entrypoints.map(getAllFiles))).flat())]:
    every handle is a key of its own, and the files come in the order of
    the entry points.  The documents are taken one after the other; what
    two of them print may interleave in a run, which no statement below
    depends on. *)
Fixpoint extract_all (options : option Options) (entrypoints : list string)
    (st : State) : Outcome (Graph * State) :=
  match entrypoints with
  | [] => Returned ([], st)
  | entrypoint :: rest =>
      match getAllFiles options entrypoint (excluded_of options) st with
      | Returned (files, st) =>
          match extract_all options rest st with
          | Returned (files', st) => Returned (files ++ files', st)
          | Thrown m => Thrown m
          end
      | Thrown m => Thrown m
      end
  end.

End WholeExtractor.

(** ** The style bridge: [forStyleFiles] *)

Section StyleBridge.
Context `{Runtime} `{Toolchain}.

(** The text of a style file: compiled when its original path is a sass
    source, minified otherwise. *)
Definition compile_style (config : BuildConfig) (htmlOptions : HtmlMinifyOptions)
    (item : File) (st : State) : string * State :=
  let content := or_else (contentToString (content (snd item)) st)
                         (file_text (fst item) st) in
  if is_sass_source (default "" (originalPath (snd item)))
  then (sass_compressed content, st)
  else getCSSMinifier config htmlOptions content st.

(** The body of [for (const item of cssFiles)]. *)
Definition style_step (config : BuildConfig) (htmlOptions : HtmlMinifyOptions)
    (acc : Graph * State) (item : File) : Graph * State :=
  let '(files, st) := acc in
  let '(content, st) := compile_style config htmlOptions item st in
  if negb (cfg_experimentalCss config) then
    (graph_set (fst item)
       (mkDetails (Some (BText content)) (attribute (snd item)) (kind (snd item))
                  (Bun_hash content) (originalPath (snd item))
                  (htmlImporter (snd item)))
       files,
     st)
  else (graph_delete (fst item) files, st).

Definition style_extensions : list string := [".css"; ".scss"; ".sass"].

(** What it returns (the style files, when the bundler compiles them), the
    graph and the state it leaves. *)
Definition forStyleFiles (options : option Options) (config : BuildConfig)
    (htmlOptions : HtmlMinifyOptions) (files : Graph) (st : State)
  : option (list File) * Graph * State :=
  let cssFiles := getExtensionFiles files style_extensions in
  let '(files, st) := fold_left (style_step config htmlOptions) cssFiles (files, st) in
  (if cfg_experimentalCss config then Some cssFiles else None, files, st).

End StyleBridge.

(** ** [forJsFiles] around the bundler *)

Section ScriptBridge.
Context `{Runtime} `{Toolchain}.

(** The first lines of [forJsFiles]: the scripts leave the graph; with the
    bundler's own style pipeline, the style files join them. *)
Definition forJsFiles_sources (options : option Options) (config : BuildConfig)
    (htmlOptions : HtmlMinifyOptions) (buildExtensions : list string)
    (files : Graph) (st : State) : list File * Graph * State :=
  let jsFiles := getExtensionFiles files buildExtensions in
  let files := fold_left (fun g item => graph_delete (fst item) g) jsFiles files in
  if cfg_experimentalCss config then
    let '(cssFiles, files, st) := forStyleFiles options config htmlOptions files st in
    (jsFiles ++ default [] cssFiles, files, st)
  else (jsFiles, files, st).

(** [jsFiles.some((file) => file.details.content !== undefined)] *)
Definition requiresTempDir_of (jsFiles : list File) : bool :=
  existsb (fun e => bool_decide (is_Some (content (snd e)))) jsFiles.

(** The body of the staging [map]: the entry point of a script, and the
    copy written for it.  The calls of [Bun.write] are made in the order of
    the scripts. *)
Definition stage_one (tempDirPath commonPath : string) (item : File) (st : State)
  : string * State :=
  match name_of (fst item) with
  | None => (default "" (fd_name (fst item)), st)
  | Some name =>
      let tempFilePath :=
        path_resolve [tempDirPath; removeCommonPath name commonPath] in
      (tempFilePath,
       Bun_write tempFilePath (default (BFile (fst item)) (content (snd item))) st)
  end.

Fixpoint stage_all (tempDirPath commonPath : string) (jsFiles : list File)
    (st : State) : list string * State :=
  match jsFiles with
  | [] => ([], st)
  | item :: rest =>
      let '(entrypoint, st) := stage_one tempDirPath commonPath item st in
      let '(entrypoints, st) := stage_all tempDirPath commonPath rest st in
      (entrypoint :: entrypoints, st)
  end.

(** [entrypoints], as the builds get them. *)
Definition stage (tempDirPath : string) (jsFiles : list File) (st : State)
  : list string * State :=
  let entrypoints := map (fun e => default "" (fd_name (fst e))) jsFiles in
  let commonPath := findLastCommonPath entrypoints in
  if requiresTempDir_of jsFiles then stage_all tempDirPath commonPath jsFiles st
  else (entrypoints, st).

(** An output of [Bun.build]. *)
Record BuildOutput := mkOutput {
  out_path : string;
  out_kind : Kind;
  out_loader : string;
  out_hash : option string;
  out_text : string
}.

(** [output.hash || Bun.hash(outputText, 1).toString(16).slice(0, 8)] *)
Definition output_hash (output : BuildOutput) : string :=
  match out_hash output with
  | Some h => if Js.truthy h then h else Bun_hash (out_text output)
  | None => Bun_hash (out_text output)
  end.

(** The path an output is filed under: out of the staging directory, into
    the common path. *)
Definition output_filePath (commonPath tempDirPath : string) (output : BuildOutput)
  : string :=
  let filePath := path_resolve [commonPath +:+ "/" +:+ out_path output] in
  if Js.includes tempDirPath filePath then
    Js.replace tempDirPath commonPath
      (Js.replace ("/private" +:+ tempDirPath) commonPath filePath)
  else filePath.

(** What the loop over the builds carries along: the graph,
    [entrypointToOutput] and the state. *)
Record Folded := mkFolded {
  fo_files : Graph;
  fo_outputs : list (string * string);
  fo_state : State
}.

(** The body of [for (const output of result.outputs)] for the script
    [source].  A new handle is a new key of the map. *)
Definition fold_output (commonPath tempDirPath : string) (source : File)
    (acc : Folded) (output : BuildOutput) : Folded :=
  let filePath := output_filePath commonPath tempDirPath output in
  if Kind_eqb (out_kind output) EntryPoint || String.eqb (out_loader output) "css"
  then
    match name_of (fst source) with
    | None => acc
    | Some name =>
        let '(fd, st) := Bun_file filePath (fo_state acc) in
        mkFolded
          (fo_files acc ++
           [(fd, mkDetails (Some (BText (out_text output))) (attribute (snd source))
                   (kind (snd source)) (output_hash output)
                   (originalPath (snd source)) (htmlImporter (snd source)))])
          (Dict.set name filePath (fo_outputs acc))
          st
    end
  else
    let '(fd, st) := Bun_file filePath (fo_state acc) in
    mkFolded
      (fo_files acc ++
       [(fd, mkDetails (Some (BText (out_text output))) None (out_kind output)
               (output_hash output) None (htmlImporter (snd source)))])
      (fo_outputs acc)
      st.

(** One turn of the loop over the entry points: the report of the build,
    then its outputs. *)
Definition fold_build (options : option Options) (commonPath tempDirPath : string)
    (acc : Folded) (build : File * (bool * string * list BuildOutput)) : Folded :=
  let '(source, (success, logs, outputs)) := build in
  let acc := mkFolded (fo_files acc) (fo_outputs acc)
                      (report_build options success logs (fo_state acc)) in
  fold_left (fold_output commonPath tempDirPath source) outputs acc.

(** [toReplacePaths.find((item) => entrypointToOutput.get(item.from) === file.name)] *)
Definition find_toReplace (entrypointToOutput : list (string * string))
    (toReplacePaths : list ToReplace) (file : BunFile) : option ToReplace :=
  List.find (fun item =>
               bool_decide (Dict.get (tr_from item) entrypointToOutput = fd_name file))
            toReplacePaths.

(** [!s] for a string or [undefined] *)
Definition given (s : option string) : option string :=
  match s with
  | Some v => if Js.truthy v then Some v else None
  | None => None
  end.

(** The three [replaceAll] of the last loop of [forJsFiles].  The new path
    is taken as it is (no [$] pattern in it). *)
Definition patch_text (specifier newPath text : string) : string :=
  Js.replaceAll ("require(" +:+ dq +:+ specifier +:+ dq +:+ ")")
                ("require(" +:+ dq +:+ "./" +:+ newPath +:+ dq +:+ ")")
    (Js.replaceAll ("from" +:+ dq +:+ specifier +:+ dq)
                   ("from" +:+ dq +:+ "./" +:+ newPath +:+ dq)
       (Js.replaceAll ("from " +:+ dq +:+ specifier +:+ dq)
                      ("from " +:+ dq +:+ "./" +:+ newPath +:+ dq) text)).

(** The body of the last loop: the specifier of the first queued import
    of the file, if any, is pointed at the output of its target. *)
Definition patch_entry (entrypointToOutput : list (string * string))
    (toReplacePaths : list ToReplace) (st : State) (e : File) : File :=
  match find_toReplace entrypointToOutput toReplacePaths (fst e) with
  | None => e
  | Some toReplace =>
      match given (Dict.get (tr_resolved toReplace) entrypointToOutput),
            given (Dict.get (tr_from toReplace) entrypointToOutput) with
      | Some output, Some fromOutput =>
          let newPath := path_relative (p_dir (path_parse fromOutput)) output in
          (fst e,
           mkDetails
             (Some (BText (patch_text (tr_path toReplace) newPath
                             (contentToString (content (snd e)) st))))
             (attribute (snd e)) (kind (snd e)) (hash (snd e))
             (originalPath (snd e)) (htmlImporter (snd e)))
      | _, _ => e
      end
  end.

Definition patch_imports (entrypointToOutput : list (string * string))
    (toReplacePaths : list ToReplace) (st : State) (files : Graph) : Graph :=
  map (patch_entry entrypointToOutput toReplacePaths st) files.

End ScriptBridge.

(** ** Vocabulary of the further statements *)

Section FurtherTerms.
Context `{Runtime}.

(** Every mapping on record renames its file, onto a handle made before
    now, and no two keys share a handle. *)
Definition namedAs_ok (st : State) : Prop :=
  (forall key e, recorded key (namedAs st) = Some e ->
     named_as e <> path_join [snd key; fst key] /\
     (fd_id (named_fd e) < next_fd st)%nat) /\
  (forall key key' e e',
     recorded key (namedAs st) = Some e -> recorded key' (namedAs st) = Some e' ->
     fd_id (named_fd e) = fd_id (named_fd e') -> key = key').

(** The ledger holds the paths the trace writes, each written once, and
    the disk holds for every other path what [d] holds. *)
Definition ledger_exact (d : gmap string string) (st : State) : Prop :=
  forall x, (writes_to x (trace st) <= 1)%nat /\
            (x ∈ pathSaved st <-> writes_to x (trace st) = 1%nat) /\
            (x ∉ pathSaved st -> disk st !! x = d !! x).

(** The calls the bundler makes to the resolver during the builds, one
    after the other, on the one [toReplacePaths]. *)
Fixpoint onResolve_all (options : option Options) (config : BuildConfig)
    (tempDirPath pathToResolveFrom : string) (requiresTempDir : bool)
    (calls : list ResolveArgs) (toReplacePaths : list ToReplace) (st : State)
  : list ToReplace * State :=
  match calls with
  | [] => (toReplacePaths, st)
  | args :: rest =>
      match onResolve options config tempDirPath pathToResolveFrom
                      requiresTempDir args toReplacePaths st with
      | Returned (_, toReplacePaths, st) =>
          onResolve_all options config tempDirPath pathToResolveFrom
                        requiresTempDir rest toReplacePaths st
      | Thrown _ => (toReplacePaths, st)
      end
  end.

End FurtherTerms.

Section BridgeTerms.
Context `{Runtime}.

(** The test of [getExtensionFiles]: the file has a name whose extension
    is one of [extensions]. *)
Definition has_extension (extensions : list string) (e : File) : bool :=
  match name_of (fst e) with
  | Some n => Js.arr_includes (p_ext (path_parse n)) extensions
  | None => false
  end.

(** Two states that differ by what was printed at most. *)
Definition same_but_trace (st st' : State) : Prop :=
  namedAs st' = namedAs st /\ pathSaved st' = pathSaved st /\
  disk st' = disk st /\ next_fd st' = next_fd st /\
  writes_of (trace st') = writes_of (trace st).

End BridgeTerms.

Section ExtractorTerms.
Context `{Runtime}.

(** An entry the handler of [getAllFiles] pushes for the page [filePath]:
    a file that is there, referred to by a searched attribute whose value
    is a non-empty path and no URL, and whose extension is not excluded. *)
Definition extracted_asset (options : option Options) (filePath htmlResolvedPath
    hash : string) (st : State) (e : File) : Prop :=
  exists a v,
    let p := path_resolve [path_dirname filePath; v] in
    a ∈ attributesToSearch /\ Js.truthy v = true /\ isURL v = false /\
    extension_excluded options (p_ext (path_parse p)) = false /\
    exists_on_disk p st = true /\
    fd_name (fst e) = Some p /\
    snd e = mkDetails None (Some (mkAttr a v)) Chunk hash (Some p) htmlResolvedPath.

(** The path is a page for [getAllFiles]: its extension is [.htm] or
    [.html]. *)
Definition is_page (filePath : string) : bool :=
  let extension := p_ext (path_parse filePath) in
  String.eqb extension ".htm" || String.eqb extension ".html".

(** The entry point is a page that is not on the disk. *)
Definition page_missing (st : State) (filePath : string) : bool :=
  is_page filePath && negb (exists_on_disk (path_resolve [filePath]) st).

(** Handles made between two states, each later than the one before. *)
Fixpoint handles_between (lo hi : nat) (files : list File) : Prop :=
  match files with
  | [] => (lo <= hi)%nat
  | e :: rest => (lo <= fd_id (fst e))%nat /\ handles_between (S (fd_id (fst e))) hi rest
  end.

End ExtractorTerms.

(** ** Inputs of the examples on the bridges *)

Module ExBridge.

(** [<img src='./img/logo.png'>] and [<link rel='stylesheet' href='./main.css'>] *)
Definition img : Element := mkElement "img" [("src", "./img/logo.png")] None None.
Definition sheet_link : Element :=
  mkElement "link" [("rel", "stylesheet"); ("href", "./main.css")] None None.

(** A compiler that leaves the text as it is, and a rewriter that visits
    the two elements of the page of the small build. *)
Definition toolchain : Toolchain :=
  Build_Toolchain (fun text => text)
    (fun text => if String.eqb text ExBuild.html_text then [img; sheet_link] else []).

(** The configuration of the small build, with [experimentalCss: true]. *)
Definition css_by_bundler : BuildConfig :=
  mkConfig (Some (NamingString "[dir]/[name]-[hash].[ext]")) (Some "/proj/dist")
           false true false.

(** The script of the page. *)
Definition script : File :=
  (mkFile 3 (Some "/proj/main.ts"),
   mkDetails None (Some (mkAttr "src" "./main.ts")) Chunk "11112222"
             (Some "/proj/main.ts") "/proj/index.html").

Definition graph : Graph := [ExBuild.page; script; ExBuild.sheet].

(** The state after the extraction: four handles made, nothing written. *)
Definition start : State := mkState [] ∅ ExBuild.sources 4 [].

(** What the bundler gives for the script: its entry point and a chunk. *)
Definition main_out : BuildOutput :=
  mkOutput "main.js" EntryPoint "js" None "import './chunk-1.js';".
Definition chunk_out : BuildOutput :=
  mkOutput "chunk-1.js" Chunk "js" (Some "abcd1234") "export{}".

(** [import { x } from './util.ts'] in the script. *)
Definition import_util : ResolveArgs := mkArgs "./util.ts" "/proj/main.ts".

End ExBridge.

(** * Properties *)

(** ** Dictionaries *)

Section DictFacts.
Context {V : Type}.

Lemma Dict_get_set_eq k (v : V) d : Dict.get k (Dict.set k v d) = Some v.
Proof.
  induction d as [|[k' v'] d IH]; simpl.
  - by rewrite String.eqb_refl.
  - destruct (String.eqb k k') eqn:E; simpl.
    + by rewrite String.eqb_refl.
    + by rewrite E.
Qed.

Lemma Dict_get_set_ne k k' (v : V) d :
  k <> k' -> Dict.get k' (Dict.set k v d) = Dict.get k' d.
Proof.
  intros Hne. induction d as [|[k0 v0] d IH]; simpl.
  - destruct (String.eqb k' k) eqn:E; [|done].
    apply String.eqb_eq in E. congruence.
  - destruct (String.eqb k k0) eqn:E; simpl.
    + apply String.eqb_eq in E. subst k0.
      destruct (String.eqb k' k) eqn:E'; [|done].
      apply String.eqb_eq in E'. congruence.
    + destruct (String.eqb k' k0); [done|apply IH].
Qed.

End DictFacts.

(** ** The path functions and the pattern matcher on examples *)

Example posix_parse_1 :
  Posix.parse "./images/favicon.ico"
  = mkParsed "" "./images" "favicon.ico" ".ico" "favicon".
Proof. reflexivity. Qed.

Example posix_parse_2 : Posix.parse "/a" = mkParsed "/" "/" "a" "" "a".
Proof. reflexivity. Qed.

Example posix_parse_3 : Posix.parse "x/.bashrc" = mkParsed "" "x" ".bashrc" "" ".bashrc".
Proof. reflexivity. Qed.

Example posix_join_1 : Posix.join [""; "./images"; "favicon.ico"] = "images/favicon.ico".
Proof. reflexivity. Qed.

Example posix_join_2 : Posix.join [""; "."] = ".".
Proof. reflexivity. Qed.

Example posix_resolve_1 : Posix.resolve "/work" ["/proj"; "./a/../b.css"] = "/proj/b.css".
Proof. reflexivity. Qed.

Example posix_resolve_2 : Posix.resolve "/work" ["dist"; "x.js"] = "/work/dist/x.js".
Proof. reflexivity. Qed.

Example posix_relative_1 : Posix.relative "/work" "/proj/dist" "/proj/dist/img/a.png" = "img/a.png".
Proof. reflexivity. Qed.

Example posix_relative_2 : Posix.relative "/work" "/proj/dist/js" "/proj/dist/img/a.png" = "../img/a.png".
Proof. reflexivity. Qed.

Example posix_dirname_1 : Posix.dirname "./x/index.html" = "./x".
Proof. reflexivity. Qed.

Example posix_normalize_1 : Posix.normalize "/proj//a/./b/../c.png" = "/proj/a/c.png".
Proof. reflexivity. Qed.

Example clue_1 :
  Clue.match_ "a.png" "x{background:url(./img/a.png?v=1)} y='a.png' z"
  = Some ["(./img/a.png?v=1)"; "'a.png'"].
Proof. reflexivity. Qed.

Example clue_2 : Clue.match_ "a.png" "import x from 'b.png'" = None.
Proof. reflexivity. Qed.

Example clue_3 : Clue.match_ "a.png" "u('xa.png') v('y/a.png')" = Some ["'y/a.png'"].
Proof. reflexivity. Qed.

(** ** A small build, from [processHtmlFiles] to the last write

    The image and the style sheet are written first, under their hashed
    names, and the page last; the reference of the style sheet to the image
    and the references of the page follow the renaming.  (The hash of the
    image is the stand-in hash of [Demo].) *)

Example small_build_writes :
  writes_of (trace (@finish Ex.rt None ExBuild.hashed ExBuild.graph ExBuild.start))
  = [ ("/proj/dist/img/logo-00000003.png", BFile (fst ExBuild.logo));
      ("/proj/dist/main-cccc0000.css",
       BText "a{background:url(img/logo-00000003.png)}");
      ("/proj/dist/index-11112222.html",
       BText "<img src='img/logo-00000003.png'><link rel='stylesheet' href='main-cccc0000.css'>") ].
Proof. vm_compute. reflexivity. Qed.

(** ** Identity folding *)

Section FoldingFacts.
Context `{Runtime}.

Lemma renameFile_fold_input options config file hash k sharedPath st :
  renameFile options config file hash k sharedPath st =
  match fold_input options config sharedPath file hash k with
  | None => (file, st)
  | Some (o, n, resolved) =>
      match keepNamedAs o n resolved st with
      | (Some named, st1) => (named_fd named, st1)
      | (None, st1) => Bun_file resolved st1
      end
  end.
Proof.
  unfold renameFile, fold_input.
  destruct k; try reflexivity;
    (destruct (name_of file) as [fname|]; [|reflexivity];
     destruct (pick_naming _ _ _ _) as [naming|]; [|reflexivity];
     destruct (negb (Js.truthy naming)); reflexivity).
Qed.

(** A mapping on record is what [keepNamedAs] returns, and nothing changes. *)
Lemma keepNamedAs_hit o n resolved st e :
  recorded (fold_key o) (namedAs st) = Some e ->
  keepNamedAs o n resolved st = (Some e, st).
Proof.
  unfold recorded, named_lookup, fold_key, keepNamedAs; simpl.
  destruct (Dict.get (p_base o) (namedAs st)) as [names|]; [|discriminate].
  simpl. intros ->. reflexivity.
Qed.

(** With no mapping on record, a relocated file records one: its new
    relative path and a new handle on the resolved path. *)
Lemma keepNamedAs_miss_relocated o n resolved st :
  recorded (fold_key o) (namedAs st) = None ->
  relocated o n = true ->
  let e := mkNamed (path_join [p_root n; p_dir n; p_base n])
                   (mkFile (next_fd st) (Some resolved)) in
  fst (keepNamedAs o n resolved st) = Some e /\
  recorded (fold_key o) (namedAs (snd (keepNamedAs o n resolved st))) = Some e.
Proof.
  unfold recorded, named_lookup, fold_key, relocated, keepNamedAs; simpl.
  intros Hmiss Hrel.
  assert (Dict.get (path_join [p_root o; p_dir o])
            (default [] (Dict.get (p_base o) (namedAs st))) = None) as ->.
  { destruct (Dict.get (p_base o) (namedAs st)); [exact Hmiss|reflexivity]. }
  rewrite Hrel. simpl. split; [reflexivity|].
  rewrite Dict_get_set_eq. apply Dict_get_set_eq.
Qed.

(** With no mapping on record, a file that keeps its relative path records
    nothing. *)
Lemma keepNamedAs_miss_in_place o n resolved st :
  recorded (fold_key o) (namedAs st) = None ->
  relocated o n = false ->
  keepNamedAs o n resolved st = (None, st).
Proof.
  unfold recorded, named_lookup, fold_key, relocated, keepNamedAs; simpl.
  intros Hmiss Hrel.
  assert (Dict.get (path_join [p_root o; p_dir o])
            (default [] (Dict.get (p_base o) (namedAs st))) = None) as ->.
  { destruct (Dict.get (p_base o) (namedAs st)); [exact Hmiss|reflexivity]. }
  rewrite Hrel. reflexivity.
Qed.

Lemma extends_refl n : extends n n.
Proof. intros key e He. exact He. Qed.

Lemma extends_trans n1 n2 n3 : extends n1 n2 -> extends n2 n3 -> extends n1 n3.
Proof. intros H12 H23 key e He. apply H23, H12, He. Qed.

Lemma keepNamedAs_extends o n resolved st :
  extends (namedAs st) (namedAs (snd (keepNamedAs o n resolved st))).
Proof.
  destruct (recorded (fold_key o) (namedAs st)) as [e|] eqn:Hrec.
  { rewrite (keepNamedAs_hit _ _ _ _ _ Hrec). apply extends_refl. }
  destruct (relocated o n) eqn:Hrel.
  2:{ rewrite (keepNamedAs_miss_in_place _ _ _ _ Hrec Hrel). apply extends_refl. }
  intros [b d] e He.
  revert Hrec Hrel He.
  unfold recorded, named_lookup, fold_key, relocated, keepNamedAs; simpl.
  intros Hmiss Hrel He.
  assert (Dict.get (path_join [p_root o; p_dir o])
            (default [] (Dict.get (p_base o) (namedAs st))) = None) as Hnone.
  { destruct (Dict.get (p_base o) (namedAs st)); [exact Hmiss|reflexivity]. }
  rewrite Hnone, Hrel. simpl.
  destruct (String.eqb_spec (p_base o) b) as [<-|Hb].
  - rewrite Dict_get_set_eq.
    destruct (Dict.get (p_base o) (namedAs st)) as [names|]; [|discriminate].
    simpl in *.
    destruct (String.eqb_spec (path_join [p_root o; p_dir o]) d) as [<-|Hd].
    + congruence.
    + rewrite Dict_get_set_ne by exact Hd. exact He.
  - rewrite Dict_get_set_ne by exact Hb. exact He.
Qed.

Lemma Bun_file_namedAs path st : namedAs (snd (Bun_file path st)) = namedAs st.
Proof. reflexivity. Qed.

Lemma renameFile_extends options config file hash k sharedPath st :
  extends (namedAs st)
          (namedAs (snd (renameFile options config file hash k sharedPath st))).
Proof.
  rewrite renameFile_fold_input.
  destruct (fold_input _ _ _ _ _ _) as [[[o n] resolved]|]; [|apply extends_refl].
  pose proof (keepNamedAs_extends o n resolved st) as Hext.
  destruct (keepNamedAs o n resolved st) as [[named|] st1]; simpl in *.
  - exact Hext.
  - exact Hext.
Qed.

Lemma save_namedAs keep name body outdir st :
  namedAs (save keep name body outdir st) = namedAs st.
Proof.
  unfold save. case_bool_decide; [reflexivity|].
  destruct (keep_all keep); [reflexivity|].
  destruct body; reflexivity.
Qed.

Lemma run_ops_extends ops st : extends (namedAs st) (namedAs (run_ops ops st)).
Proof.
  revert st. induction ops as [|op ops IH]; intros st; simpl.
  - apply extends_refl.
  - eapply extends_trans; [|apply IH].
    destruct op; simpl.
    + apply renameFile_extends.
    + apply keepNamedAs_extends.
    + rewrite save_namedAs. apply extends_refl.
Qed.

End FoldingFacts.

Section FoldingClaim.
Context `{Runtime}.

(** C1 (as amended).  Identity folding is first-recorded-wins.  Take two
    files that [renameFile] folds under the same key (same base name, same
    source directory relative to the common ancestor), the first of which
    gets a new relative path that differs from its original one, or finds
    a mapping on record already.  Whatever
    renamings, foldings of compiled scripts and writes happen in between,
    the second file resolves to the handle the first one resolved to (so to
    the same output path), the second renaming changes nothing, and that
    handle is the one on record under the key. *)
Theorem folding_first_recorded_wins
    options config sharedPath st f1 h1 k1 f2 h2 k2 ops o1 n1 r1 o2 n2 r2 :
  fold_input options config sharedPath f1 h1 k1 = Some (o1, n1, r1) ->
  fold_input options config sharedPath f2 h2 k2 = Some (o2, n2, r2) ->
  fold_key o1 = fold_key o2 ->
  relocated o1 n1 = true \/ recorded (fold_key o1) (namedAs st) <> None ->
  let a := renameFile options config f1 h1 k1 sharedPath st in
  let st' := run_ops ops (snd a) in
  let b := renameFile options config f2 h2 k2 sharedPath st' in
  fst b = fst a /\ snd b = st' /\
  exists e, recorded (fold_key o1) (namedAs st') = Some e /\ named_fd e = fst a.
Proof.
  intros Hin1 Hin2 Hkey Hrel a st' b.
  assert (exists e, recorded (fold_key o1) (namedAs (snd a)) = Some e
                    /\ named_fd e = fst a) as (e & Hrec & Hfd).
  { subst a. rewrite renameFile_fold_input, Hin1.
    destruct (recorded (fold_key o1) (namedAs st)) as [e0|] eqn:Hold.
    - rewrite (keepNamedAs_hit _ _ _ _ _ Hold). simpl. eauto.
    - destruct Hrel as [Hrel|Hrel]; [|done].
      destruct (keepNamedAs_miss_relocated o1 n1 r1 st Hold Hrel) as [Hres Hnew].
      destruct (keepNamedAs o1 n1 r1 st) as [named st1]; simpl in *.
      subst named. simpl. eauto. }
  assert (recorded (fold_key o1) (namedAs st') = Some e) as Hrec'.
  { subst st'. apply run_ops_extends, Hrec. }
  assert (b = (named_fd e, st')) as Hb.
  { subst b. rewrite renameFile_fold_input, Hin2.
    rewrite (keepNamedAs_hit o2 n2 r2 st' e); [reflexivity|].
    rewrite <- Hkey. exact Hrec'. }
  rewrite Hb. simpl. repeat split; [exact Hfd|]. eauto.
Qed.

End FoldingClaim.

(** Two handles on [/proj/img/logo.png], renamed as assets with the
    template [[dir]/[name]-[hash].[ext]]: the second one resolves to the
    handle of the first, whatever hash it carries. *)
Lemma folding_first_recorded_wins_witness :
  let a := @renameFile Ex.rt None Ex.per_kind Ex.logo_1 "0a0b0c0d" Asset "/proj"
             (initial ∅) in
  let b := @renameFile Ex.rt None Ex.per_kind Ex.logo_2 "ffffffff" Asset "/proj"
             (snd a) in
  fst b = fst a /\ snd b = snd a /\
  exists e, @recorded ("logo.png", "img") (namedAs (snd a)) = Some e
            /\ named_fd e = fst a.
Proof.
  exact (@folding_first_recorded_wins Ex.rt None Ex.per_kind "/proj" (initial ∅)
           Ex.logo_1 "0a0b0c0d" Asset Ex.logo_2 "ffffffff" Asset []
           _ _ _ _ _ _ eq_refl eq_refl eq_refl (or_introl eq_refl)).
Defined.

(** C1 (as stated) fails.  [/proj/page.html] is in the graph twice, as an
    entry point and as an asset; both are folded under the key
    [("page.html", ".")].  The entry template leaves the first where it is,
    so nothing is recorded, and the second is renamed on its own: the two
    resolve to different output paths. *)
Lemma folding_unrecorded_first_differs :
  (exists o1 n1 r1 o2 n2 r2,
     @fold_input Ex.rt None Ex.per_kind "/proj" Ex.page_entry "11112222" EntryPoint
       = Some (o1, n1, r1) /\
     @fold_input Ex.rt None Ex.per_kind "/proj" Ex.page_asset "abcd1234" Asset
       = Some (o2, n2, r2) /\
     @fold_key Ex.rt o1 = ("page.html", ".") /\
     @fold_key Ex.rt o2 = ("page.html", ".")) /\
  fd_name (fst (@renameFile Ex.rt None Ex.per_kind Ex.page_entry "11112222"
                  EntryPoint "/proj" (initial ∅)))
    = Some "/proj/page.html" /\
  fd_name (fst (@renameFile Ex.rt None Ex.per_kind Ex.page_asset "abcd1234" Asset
                  "/proj"
                  (snd (@renameFile Ex.rt None Ex.per_kind Ex.page_entry
                          "11112222" EntryPoint "/proj" (initial ∅)))))
    = Some "/proj/page-abcd1234.html".
Proof.
  split; [|split; reflexivity].
  do 6 eexists. repeat split; reflexivity.
Qed.

(** ** The write ledger *)

Section LedgerFacts.
Context `{Runtime}.

(** What [keepNamedAs] and [renameFile] leave alone. *)
Lemma keepNamedAs_frame o n resolved st :
  let st' := snd (keepNamedAs o n resolved st) in
  pathSaved st' = pathSaved st /\ disk st' = disk st /\ trace st' = trace st.
Proof.
  unfold keepNamedAs.
  destruct (Dict.get _ _); [done|].
  destruct (negb _); done.
Qed.

Lemma renameFile_frame options config file hash k sharedPath st :
  let st' := snd (renameFile options config file hash k sharedPath st) in
  pathSaved st' = pathSaved st /\ disk st' = disk st /\ trace st' = trace st.
Proof.
  rewrite renameFile_fold_input.
  destruct (fold_input _ _ _ _ _ _) as [[[o n] resolved]|]; [|done].
  pose proof (keepNamedAs_frame o n resolved st) as Hf.
  destruct (keepNamedAs o n resolved st) as [[named|] st1]; simpl in *; exact Hf.
Qed.

Lemma save_noop keep name body outdir st :
  name ∈ pathSaved st -> save keep name body outdir st = st.
Proof. intros Hin. unfold save. by rewrite bool_decide_eq_true_2. Qed.

(** A first [save] of a path: the ledger gets the path, the disk the data
    of one body, the trace one write. *)
Lemma save_fresh keep name body outdir st :
  name ∉ pathSaved st ->
  exists body',
    save keep name body outdir st
    = Bun_write name body' (mark_saved name st).
Proof.
  intros Hnot. unfold save. rewrite bool_decide_eq_false_2 by exact Hnot.
  destruct (keep_all keep); [eauto|].
  destruct body; eauto.
Qed.

Lemma save_marks keep name body outdir st :
  name ∈ pathSaved (save keep name body outdir st).
Proof.
  destruct (decide (name ∈ pathSaved st)) as [Hin|Hnot].
  - by rewrite save_noop.
  - destruct (save_fresh keep name body outdir st Hnot) as [body' ->].
    simpl. set_solver.
Qed.

Lemma save_ledger_mono keep name body outdir st x :
  x ∈ pathSaved st -> x ∈ pathSaved (save keep name body outdir st).
Proof.
  intros Hx. destruct (decide (name ∈ pathSaved st)) as [Hin|Hnot].
  - by rewrite save_noop.
  - destruct (save_fresh keep name body outdir st Hnot) as [body' ->].
    simpl. set_solver.
Qed.

Lemma run_op_ledger_mono op st x :
  x ∈ pathSaved st -> x ∈ pathSaved (run_op st op).
Proof.
  intros Hx. destruct op; simpl.
  - by rewrite (proj1 (renameFile_frame _ _ _ _ _ _ _)).
  - by rewrite (proj1 (keepNamedAs_frame _ _ _ _)).
  - by apply save_ledger_mono.
Qed.

Lemma run_ops_ledger_mono ops st x :
  x ∈ pathSaved st -> x ∈ pathSaved (run_ops ops st).
Proof.
  revert st. induction ops as [|op ops IH]; intros st Hx; simpl; [done|].
  apply IH, run_op_ledger_mono, Hx.
Qed.

(** A path of the ledger keeps what the disk holds for it. *)
Lemma run_op_disk_kept op st x :
  x ∈ pathSaved st -> disk (run_op st op) !! x = disk st !! x.
Proof.
  intros Hx. destruct op as [options config file h k sharedPath
                            |o n resolved|keep name body outdir]; simpl.
  - by rewrite (proj1 (proj2 (renameFile_frame _ _ _ _ _ _ _))).
  - by rewrite (proj1 (proj2 (keepNamedAs_frame _ _ _ _))).
  - destruct (decide (name ∈ pathSaved st)) as [Hin|Hnot].
    + by rewrite save_noop.
    + destruct (save_fresh keep name body outdir st Hnot) as [body' ->].
      simpl. apply lookup_insert_ne. intros ->. contradiction.
Qed.

Lemma run_ops_disk_kept ops st x :
  x ∈ pathSaved st -> disk (run_ops ops st) !! x = disk st !! x.
Proof.
  revert st. induction ops as [|op ops IH]; intros st Hx; simpl; [done|].
  rewrite IH by (apply run_op_ledger_mono, Hx).
  apply run_op_disk_kept, Hx.
Qed.

Lemma writes_to_app name t1 t2 :
  writes_to name (t1 ++ t2) = (writes_to name t1 + writes_to name t2)%nat.
Proof. unfold writes_to. by rewrite List.filter_app, length_app. Qed.

Lemma writes_to_one name n b :
  writes_to name [EvWrite n b] = if String.eqb n name then 1%nat else 0%nat.
Proof. unfold writes_to. simpl. by destruct (String.eqb n name). Qed.

Lemma ledger_ok_initial d : ledger_ok (initial d).
Proof. intros x. unfold writes_to. simpl. split; [lia|discriminate]. Qed.

Lemma run_op_ledger_ok op st : ledger_ok st -> ledger_ok (run_op st op).
Proof.
  intros Hok. destruct op as [options config file h k sharedPath
                               |o n resolved|keep name body outdir]; simpl.
  - destruct (renameFile_frame options config file h k sharedPath st)
      as (Hp & _ & Ht).
    intros x. rewrite Ht, Hp. apply Hok.
  - destruct (keepNamedAs_frame o n resolved st) as (Hp & _ & Ht).
    intros x. rewrite Ht, Hp. apply Hok.
  - destruct (decide (name ∈ pathSaved st)) as [Hin|Hnot].
    + by rewrite save_noop.
    + destruct (save_fresh keep name body outdir st Hnot) as [body' ->].
      intros x. simpl. rewrite writes_to_app, writes_to_one.
      destruct (Hok x) as [Hle Hin].
      destruct (String.eqb_spec name x) as [<-|Hne]; simpl.
      * assert (writes_to name (trace st) = 0%nat) as ->.
        { destruct (writes_to name (trace st)) as [|[|?]] eqn:E; [done| |lia].
          exfalso. by apply Hnot, Hin. }
        split; [lia|]. intros _. set_solver.
      * rewrite Nat.add_0_r. split; [exact Hle|].
        intros E. specialize (Hin E). set_solver.
Qed.

Lemma run_ops_ledger_ok ops st : ledger_ok st -> ledger_ok (run_ops ops st).
Proof.
  revert st. induction ops as [|op ops IH]; intros st Hok; simpl; [done|].
  apply IH, run_op_ledger_ok, Hok.
Qed.

(** C2.  [save] writes an output path at most once per build.  After a
    first call of [save] for a path, and whatever renamings, foldings and
    other calls of [save] follow it, a further call for that path changes
    nothing (no write, same disk, same trace), and the disk still holds for
    the path what it held right after the first call: the data the first
    call wrote, when the path was not in the ledger before it.  Counted
    over a whole build, which starts with an empty ledger, the trace never
    writes a path twice. *)
Theorem save_writes_a_path_once
    keep1 keep2 name body1 body2 outdir1 outdir2 st ops d ops' :
  let st1 := save keep1 name body1 outdir1 st in
  let st2 := run_ops ops st1 in
  save keep2 name body2 outdir2 st2 = st2 /\
  disk st2 !! name = disk st1 !! name /\
  (name ∉ pathSaved st ->
   exists written,
     writes_of (trace st1) = writes_of (trace st) ++ [(name, written)] /\
     disk st2 !! name = Some (body_data written st)) /\
  (writes_to name (trace (run_ops ops' (initial d))) <= 1)%nat.
Proof.
  intros st1 st2.
  assert (name ∈ pathSaved st1) as H1 by apply save_marks.
  assert (disk st2 !! name = disk st1 !! name) as Hkept
    by apply run_ops_disk_kept, H1.
  split; [|split; [|split]].
  - apply save_noop, run_ops_ledger_mono, H1.
  - exact Hkept.
  - intros Hnot. rewrite Hkept. subst st1.
    destruct (save_fresh keep1 name body1 outdir1 st Hnot) as [written ->].
    exists written. simpl. split.
    + unfold writes_of. rewrite flat_map_app. reflexivity.
    + apply lookup_insert_eq.
  - apply (run_ops_ledger_ok ops' (initial d) (ledger_ok_initial d) name).
Qed.

End LedgerFacts.

(** A style sheet saved twice on one path, the second time with another
    text: the disk holds the first text. *)
Lemma save_writes_a_path_once_witness :
  disk (@save Ex.rt None "/proj/dist/style.css" (BText "b{}") (Some "/proj/dist")
          (@save Ex.rt None "/proj/dist/style.css" (BText "a{}") (Some "/proj/dist")
             (initial ∅)))
    !! "/proj/dist/style.css"
  = Some "a{}".
Proof.
  destruct (@save_writes_a_path_once Ex.rt None None "/proj/dist/style.css"
              (BText "a{}") (BText "b{}") (Some "/proj/dist") (Some "/proj/dist")
              (initial ∅) [] ∅ [])
    as (Hnoop & _ & Hfirst & _).
  simpl in Hnoop. rewrite Hnoop.
  destruct (Hfirst (not_elem_of_empty _)) as (written & Hw & Hd).
  simpl in Hd. rewrite Hd. f_equal.
  vm_compute in Hw. injection Hw as <-. reflexivity.
Defined.

(** ** The write step *)

Section WriteFacts.
Context `{Runtime}.

Lemma writes_of_app t1 t2 : writes_of (t1 ++ t2) = writes_of t1 ++ writes_of t2.
Proof. unfold writes_of. apply flat_map_app. Qed.

Lemma save_writes keep name body outdir st :
  name ∉ pathSaved st ->
  exists body',
    writes_of (trace (save keep name body outdir st))
    = writes_of (trace st) ++ [(name, body')].
Proof.
  intros Hnot. destruct (save_fresh keep name body outdir st Hnot) as [body' ->].
  exists body'. simpl. by rewrite writes_of_app.
Qed.

Lemma app_one_neq {A} (l : list A) x : l ++ [x] <> l.
Proof.
  intros E. apply (f_equal (@length A)) in E. rewrite length_app in E.
  simpl in E. lia.
Qed.

(** [save] writes exactly when the path is not in the ledger. *)
Lemma save_skips_iff keep name body outdir st :
  writes_of (trace (save keep name body outdir st)) = writes_of (trace st)
  <-> name ∈ pathSaved st.
Proof.
  split.
  - intros E. destruct (decide (name ∈ pathSaved st)) as [Hin|Hnot]; [done|].
    destruct (save_writes keep name body outdir st Hnot) as [body' Hw].
    rewrite Hw in E. by apply app_one_neq in E.
  - intros Hin. by rewrite save_noop.
Qed.

Lemma write_asset_trace_rule options config rules st e :
  forall x, x ∈ fst (write_asset options config (rules, st) e) ->
            x ∈ rules \/ exists s a f ext, x = SetAttribute s a f ext.
Proof.
  intros x. unfold write_asset. simpl.
  destruct (name_of (fst e)) as [name|]; [|by left].
  destruct (content (snd e)) as [body|]; [|by left].
  destruct (negb (body_truthy body)); [by left|].
  destruct (already_there _ _ _); [by left|].
  destruct (attribute (snd e)) as [attr|]; [|by left].
  simpl. rewrite elem_of_app, list_elem_of_singleton.
  intros [Hx| ->]; [by left|right; eauto].
Qed.

(** The write step of an artifact that is not an entry point. *)
Lemma write_asset_skips_iff options config rules st e name body :
  name_of (fst e) = Some name ->
  content (snd e) = Some body ->
  body_truthy body = true ->
  writes_of (trace (snd (write_asset options config (rules, st) e)))
    = writes_of (trace st)
  <-> already_there name (hash (snd e)) st = true \/ name ∈ pathSaved st.
Proof.
  intros Hname Hbody Htruthy. unfold write_asset.
  rewrite Hname, Hbody, Htruthy. simpl.
  destruct (already_there name (hash (snd e)) st) eqn:Hthere.
  { simpl. split; [by left|done]. }
  destruct (attribute (snd e)); simpl; rewrite save_skips_iff;
    (split; [by right|intros [?|?]; [discriminate|done]]).
Qed.

(** The write step of an entry point. *)
Lemma write_entry_skips_iff options config rules st e name :
  name_of (fst e) = Some name ->
  writes_of (trace (write_entry options config rules st e)) = writes_of (trace st)
  <-> already_there name (hash (snd e)) st = true \/ name ∈ pathSaved st.
Proof.
  intros Hname. unfold write_entry. rewrite Hname.
  set (st1 := emit _ st).
  assert (already_there name (hash (snd e)) st1 = already_there name (hash (snd e)) st)
    as -> by reflexivity.
  assert (writes_of (trace st1) = writes_of (trace st)) as Ht.
  { subst st1. simpl. rewrite writes_of_app. simpl. by rewrite app_nil_r. }
  destruct (already_there name (hash (snd e)) st) eqn:Hthere.
  { split; [by left|done]. }
  rewrite <- Ht, save_skips_iff. split; [by right|].
  intros [?|?]; [discriminate|done].
Qed.

(** Files that are already there are passed over: nothing is written, the
    disk and the ledger stay as they are. *)
Lemma write_assets_all_there options config files rules st :
  (forall e name, e ∈ files -> name_of (fst e) = Some name ->
                  already_there name (hash (snd e)) st = true) ->
  fold_left (write_asset options config) files (rules, st) = (rules, st).
Proof.
  revert rules st. induction files as [|e files IH]; intros rules st Hall; [done|].
  cbn [fold_left].
  assert (write_asset options config (rules, st) e = (rules, st)) as ->.
  { unfold write_asset.
    destruct (name_of (fst e)) as [name|] eqn:Hname; [|done].
    destruct (content (snd e)) as [body|]; [|done].
    destruct (negb (body_truthy body)); [done|].
    rewrite (Hall e name); [done|left|done]. }
  apply IH. intros e' name' Hin. apply Hall. by right.
Qed.

Lemma write_entries_all_there options config files rules st :
  (forall e name, e ∈ files -> name_of (fst e) = Some name ->
                  already_there name (hash (snd e)) st = true) ->
  let st' := fold_left (write_entry options config rules) files st in
  writes_of (trace st') = writes_of (trace st) /\ disk st' = disk st
  /\ pathSaved st' = pathSaved st.
Proof.
  revert st. induction files as [|e files IH]; intros st Hall; [done|].
  cbn [fold_left].
  set (st1 := write_entry options config rules st e).
  assert (writes_of (trace st1) = writes_of (trace st) /\ disk st1 = disk st
          /\ pathSaved st1 = pathSaved st) as (Ht & Hd & Hp).
  { subst st1. unfold write_entry.
    assert (forall ev, writes_of (trace (emit (EvTransform (default "" (fd_name (fst e))) ev) st))
                       = writes_of (trace st)) as Hemit.
    { intros ev. simpl. rewrite writes_of_app. simpl. by rewrite app_nil_r. }
    destruct (name_of (fst e)) as [name|] eqn:Hname.
    - assert (already_there name (hash (snd e))
                (emit (EvTransform (default "" (fd_name (fst e))) rules) st)
              = true) as ->.
      { rewrite <- (Hall e name); [reflexivity|left|done]. }
      by rewrite Hemit.
    - by rewrite Hemit. }
  specialize (IH st1). simpl in IH.
  destruct IH as (Ht' & Hd' & Hp').
  { intros e' name' Hin Hn. unfold already_there, exists_on_disk. rewrite Hd.
    apply Hall; [by right|done]. }
  rewrite Ht', Hd', Hp'. done.
Qed.

(** C3 (as amended).  A write step whose target path contains the hash of
    the file while a file is at that path writes nothing; that is not the
    only case: for an artifact with a name (and, outside entry points, a
    content that is not the empty text), the step writes nothing exactly
    when the file is already there in this sense or the path has been saved
    earlier in the build.  Consequently, when every member of [newFiles] is
    already there (a rebuild of unchanged sources under a template that
    embeds the hash), the two write loops write nothing at all. *)
Theorem write_step_skips
    options config rules st e name newFiles :
  name_of (fst e) = Some name ->
  (already_there name (hash (snd e)) st = true ->
   snd (write_asset options config (rules, st) e) = st /\
   writes_of (trace (write_entry options config rules st e)) = writes_of (trace st)) /\
  (forall body, content (snd e) = Some body -> body_truthy body = true ->
     (writes_of (trace (snd (write_asset options config (rules, st) e)))
        = writes_of (trace st)
      <-> already_there name (hash (snd e)) st = true \/ name ∈ pathSaved st)) /\
  (writes_of (trace (write_entry options config rules st e)) = writes_of (trace st)
   <-> already_there name (hash (snd e)) st = true \/ name ∈ pathSaved st) /\
  ((forall e' name', e' ∈ newFiles -> name_of (fst e') = Some name' ->
                     already_there name' (hash (snd e')) st = true) ->
   let st' := write_outputs options config rules newFiles st in
   writes_of (trace st') = writes_of (trace st) /\ disk st' = disk st).
Proof.
  intros Hname. split; [|split; [|split]].
  - intros Hthere. split.
    + unfold write_asset. rewrite Hname.
      destruct (content (snd e)) as [body|]; [|done].
      destruct (negb (body_truthy body)); [done|]. by rewrite Hthere.
    + apply (write_entry_skips_iff _ _ _ _ _ _ Hname). by left.
  - intros body Hbody Htruthy. by apply write_asset_skips_iff with body.
  - by apply write_entry_skips_iff.
  - intros Hall. unfold write_outputs.
    rewrite write_assets_all_there.
    + destruct (write_entries_all_there options config
                  (List.filter is_entry newFiles) rules st) as (Ht & Hd & _).
      * intros e' name' Hin. apply Hall.
        apply list_elem_of_In in Hin. apply List.filter_In in Hin.
        apply list_elem_of_In. tauto.
      * done.
    + intros e' name' Hin. apply Hall.
      apply list_elem_of_In in Hin. apply List.filter_In in Hin.
      apply list_elem_of_In. tauto.
Qed.

End WriteFacts.

(** The write step of [ExWrite.out_1] from the initial state: an entry
    point on that path would be written, since the path holds no hash and
    is not in the ledger. *)
Lemma write_step_skips_witness :
  writes_of (trace (@write_entry Ex.rt None ExWrite.plain []
                      (initial ExWrite.sources) ExWrite.out_1))
    = writes_of (trace (initial ExWrite.sources))
  <-> already_there "/proj/dist/img/logo.png" (hash (snd ExWrite.out_1))
        (initial ExWrite.sources) = true
      \/ "/proj/dist/img/logo.png" ∈ pathSaved (initial ExWrite.sources).
Proof.
  exact (proj1 (proj2 (proj2
           (@write_step_skips Ex.rt None ExWrite.plain [] (initial ExWrite.sources)
              ExWrite.out_1 "/proj/dist/img/logo.png" [] eq_refl)))).
Defined.

(** C3 (as stated) fails in its "only if" part.  [ExWrite.out_1] and
    [ExWrite.out_2] resolve to one output path that does not contain their
    hash.  The write step of the second one writes nothing, because the
    first one has saved the path, although the path does not contain the
    hash. *)
Lemma write_step_skipped_without_hash :
  snd (@write_asset Ex.rt None ExWrite.plain ([], ExWrite.after_first) ExWrite.out_2)
    = ExWrite.after_first /\
  writes_of (trace ExWrite.after_first)
    = [("/proj/dist/img/logo.png", BFile Ex.logo_1)] /\
  Js.includes (hash (snd ExWrite.out_2)) "/proj/dist/img/logo.png" = false /\
  already_there "/proj/dist/img/logo.png" (hash (snd ExWrite.out_2))
    ExWrite.after_first = false.
Proof. repeat split; vm_compute; reflexivity. Qed.

(** ** Naming templates *)

Section NamingFacts.
Context `{Runtime}.

Lemma fold_input_picked options config sharedPath file fname hash k naming :
  renamable k = true ->
  name_of file = Some fname ->
  pick_naming options config (p_ext (path_parse fname)) k = Some naming ->
  Js.truthy naming = true ->
  exists o n,
    fold_input options config sharedPath file hash k
      = Some (o, n, renamed_path naming sharedPath fname hash)
    /\ fold_key o = rename_key sharedPath fname.
Proof.
  intros Hk Hname Hpick Htruthy. unfold fold_input.
  rewrite Hname, Hpick, Htruthy. simpl.
  destruct k; try discriminate; eauto.
Qed.

(** With no mapping on record for its key, a file is renamed to the path
    its template gives. *)
Lemma renameFile_uses_template options config sharedPath file fname hash k naming st :
  renamable k = true ->
  name_of file = Some fname ->
  pick_naming options config (p_ext (path_parse fname)) k = Some naming ->
  Js.truthy naming = true ->
  recorded (rename_key sharedPath fname) (namedAs st) = None ->
  fd_name (fst (renameFile options config file hash k sharedPath st))
  = Some (renamed_path naming sharedPath fname hash).
Proof.
  intros Hk Hname Hpick Htruthy Hnone.
  destruct (fold_input_picked options config sharedPath file fname hash k naming
              Hk Hname Hpick Htruthy) as (o & n & Hin & Hkey).
  rewrite renameFile_fold_input, Hin. rewrite <- Hkey in Hnone.
  set (r := renamed_path naming sharedPath fname hash).
  destruct (relocated o n) eqn:Hrel.
  - destruct (keepNamedAs_miss_relocated o n r st Hnone Hrel) as [Hres _].
    destruct (keepNamedAs o n r st) as [named st1]; simpl in *.
    by subst named.
  - by rewrite (keepNamedAs_miss_in_place o n r st Hnone Hrel).
Qed.

(** A file whose key has a mapping on record gets the recorded handle,
    whatever template is picked for it. *)
Lemma renameFile_uses_record options config sharedPath file fname hash k naming st e :
  renamable k = true ->
  name_of file = Some fname ->
  pick_naming options config (p_ext (path_parse fname)) k = Some naming ->
  Js.truthy naming = true ->
  recorded (rename_key sharedPath fname) (namedAs st) = Some e ->
  renameFile options config file hash k sharedPath st = (named_fd e, st).
Proof.
  intros Hk Hname Hpick Htruthy Hrec.
  destruct (fold_input_picked options config sharedPath file fname hash k naming
              Hk Hname Hpick Htruthy) as (o & n & Hin & Hkey).
  rewrite renameFile_fold_input, Hin. rewrite <- Hkey in Hrec.
  by rewrite (keepNamedAs_hit o n _ st e Hrec).
Qed.

(** C4 (as amended).  Take a file that has a name, a non-empty template,
    and no mapping on record for its base name and directory.  With a
    per-kind [naming] and no style override in force, [renameFile] names
    an entry point with the [entry] template, a chunk with the [chunk]
    template and an asset with the [asset] template; with a single string
    it names every kind it renames with that string; and for a style
    extension it names them with a non-empty [naming.css], whatever
    [naming] says.  Artifacts of kind [sourcemap] and [bytecode] are
    returned as they are.  A file that has a mapping on record gets the
    recorded handle instead, and nothing changes.  For the scripts it
    hands to the bundler, [forJsFiles] passes the string for all three
    kinds, and from a per-kind [naming] it passes the [chunk] template for
    both [entry] and [chunk] and the [asset] template for [asset]. *)
Theorem naming_template_resolution options config extension k :
  (forall file fname hash sharedPath st naming,
     name_of file = Some fname ->
     extension = p_ext (path_parse fname) ->
     Js.truthy naming = true ->
     recorded (rename_key sharedPath fname) (namedAs st) = None ->
     let named := fd_name (fst (renameFile options config file hash k sharedPath st)) in
     let by_template := Some (renamed_path naming sharedPath fname hash) in
     (forall o, cfg_naming config = Some (NamingObject o) ->
                css_override_applies options extension = false ->
                (k = EntryPoint -> n_entry o = Some naming -> named = by_template) /\
                (k = Chunk -> n_chunk o = Some naming -> named = by_template) /\
                (k = Asset -> n_asset o = Some naming -> named = by_template)) /\
     (cfg_naming config = Some (NamingString naming) ->
      css_override_applies options extension = false ->
      renamable k = true -> named = by_template) /\
     (is_style_ext extension = true -> css_override options = Some naming ->
      renamable k = true -> named = by_template)) /\
  (renamable k = false ->
   forall file hash sharedPath st,
     renameFile options config file hash k sharedPath st = (file, st)) /\
  (forall file fname hash sharedPath st naming e,
     renamable k = true ->
     name_of file = Some fname ->
     extension = p_ext (path_parse fname) ->
     pick_naming options config extension k = Some naming ->
     Js.truthy naming = true ->
     recorded (rename_key sharedPath fname) (namedAs st) = Some e ->
     renameFile options config file hash k sharedPath st = (named_fd e, st)) /\
  (forall s, cfg_naming config = Some (NamingString s) ->
             forJsFiles_naming config = mkNaming (Some s) (Some s) (Some s)) /\
  (forall o, cfg_naming config = Some (NamingObject o) ->
             forJsFiles_naming config = mkNaming (n_chunk o) (n_chunk o) (n_asset o)).
Proof.
  assert (css_override_applies options extension = false ->
          (if is_style_ext extension then css_override options else None) = None)
    as Hoff.
  { unfold css_override_applies. destruct (is_style_ext extension); [|done].
    destruct (css_override options); [discriminate|done]. }
  split; [|split; [|split; [|split]]].
  - intros file fname h sharedPath st naming Hname Hext Htruthy Hnone named by_template.
    subst named by_template.
    assert (renamable k = true ->
            pick_naming options config extension k = Some naming ->
            fd_name (fst (renameFile options config file h k sharedPath st))
            = Some (renamed_path naming sharedPath fname h)) as Huse.
    { intros Hk Hpick. subst extension. by apply renameFile_uses_template. }
    split; [|split].
    + intros o Hcfg Hno.
      assert (pick_naming options config extension k
              = naming_field o (buildNamingType k)) as Hpick.
      { unfold pick_naming. by rewrite (Hoff Hno), Hcfg. }
      repeat split; intros -> Ht; apply Huse; try done; by rewrite Hpick.
    + intros Hcfg Hno Hk. apply Huse; [done|].
      unfold pick_naming. by rewrite (Hoff Hno), Hcfg.
    + intros Hstyle Hcss Hk. apply Huse; [done|].
      unfold pick_naming. by rewrite Hstyle, Hcss.
  - intros Hk file h sharedPath st. unfold renameFile.
    by destruct k.
  - intros file fname h sharedPath st naming e Hk Hname -> Hpick Htruthy Hrec.
    by apply renameFile_uses_record with fname naming.
  - intros s Hcfg. unfold forJsFiles_naming. by rewrite Hcfg.
  - intros o Hcfg. unfold forJsFiles_naming. by rewrite Hcfg.
Qed.

End NamingFacts.

(** The entry page of the examples is renamed with the [entry] template of
    [Ex.per_kind]. *)
Lemma naming_template_resolution_witness :
  fd_name (fst (@renameFile Ex.rt None Ex.per_kind Ex.page_entry "11112222"
                  EntryPoint "/proj" (initial ∅)))
  = Some (@renamed_path Ex.rt "[dir]/[name].[ext]" "/proj" "/proj/page.html" "11112222").
Proof.
  destruct (@naming_template_resolution Ex.rt None Ex.per_kind ".html" EntryPoint)
    as [Hnamed _].
  destruct (Hnamed Ex.page_entry "/proj/page.html" "11112222" "/proj" (initial ∅)
              "[dir]/[name].[ext]" eq_refl eq_refl eq_refl eq_refl)
    as [Hper_kind _].
  destruct (Hper_kind _ eq_refl eq_refl) as [Hentry _].
  exact (Hentry eq_refl eq_refl).
Defined.

(** C4 (as stated) fails in two ways.  For the scripts of a page, with the
    per-kind templates of [Ex.per_kind], the template [forJsFiles] gives
    the bundler for artifacts of kind [entry-point] is the [chunk]
    template, not the [entry] template.  And in [renameFile], a page that
    is an entry point and that was first renamed as an asset of another
    page has a mapping on record: it gets the path the [asset] template
    gave, not the path the [entry] template gives. *)
Lemma entry_points_named_by_other_templates :
  (cfg_naming Ex.per_kind
     = Some (NamingObject (mkNaming (Some "[dir]/[name].[ext]")
                                    (Some "[dir]/[name]-[hash].[ext]")
                                    (Some "[dir]/[name]-[hash].[ext]"))) /\
   naming_field (forJsFiles_naming Ex.per_kind) (buildNamingType EntryPoint)
     = Some "[dir]/[name]-[hash].[ext]" /\
   naming_field (forJsFiles_naming Ex.per_kind) (buildNamingType EntryPoint)
     <> Some "[dir]/[name].[ext]") /\
  (let st1 := snd (@renameFile Ex.rt None Ex.per_kind Ex.page_asset "abcd1234"
                     Asset "/proj" (initial ∅)) in
   fd_name (fst (@renameFile Ex.rt None Ex.per_kind Ex.page_entry "11112222"
                   EntryPoint "/proj" st1))
   = Some "/proj/page-abcd1234.html" /\
   @renamed_path Ex.rt "[dir]/[name].[ext]" "/proj" "/proj/page.html" "11112222"
   = "/proj/page.html").
Proof.
  split.
  - repeat split. discriminate.
  - split; vm_compute; reflexivity.
Qed.

(** ** The order of writes *)

(** A step that adds nothing to what it started from. *)
Ltac no_event := exists []; rewrite ?app_nil_r; simpl; auto.

Section OrderFacts.
Context `{Runtime}.

(** [save] adds at most one event, a write of its path. *)
Lemma save_trace keep name body outdir st :
  exists l, trace (save keep name body outdir st) = trace st ++ l /\
            (l = [] \/ exists body', l = [EvWrite name body']).
Proof.
  destruct (decide (name ∈ pathSaved st)) as [Hin|Hnot].
  - rewrite save_noop by done. no_event.
  - destruct (save_fresh keep name body outdir st Hnot) as [body' ->].
    exists [EvWrite name body']. simpl. eauto.
Qed.

Lemma write_asset_trace options config rules st e :
  exists l, trace (snd (write_asset options config (rules, st) e)) = trace st ++ l /\
            (l = [] \/ exists name body, name_of (fst e) = Some name
                                         /\ l = [EvWrite name body]).
Proof.
  unfold write_asset.
  destruct (name_of (fst e)) as [name|] eqn:Hname; [|no_event].
  destruct (content (snd e)) as [body|]; [|no_event].
  destruct (negb (body_truthy body)); [no_event|].
  destruct (already_there _ _ _); [no_event|].
  destruct (save_trace (keepOriginalPaths_of options) name body (cfg_outdir config) st)
    as (l & Ht & Hl).
  exists l. split.
  - by destruct (attribute (snd e)).
  - destruct Hl as [->|[body' ->]]; [by left|right; eauto].
Qed.

Lemma write_assets_trace options config files newFiles rules st :
  (forall e, e ∈ files -> e ∈ newFiles /\ not_entry e = true) ->
  exists t, trace (snd (fold_left (write_asset options config) files (rules, st)))
            = trace st ++ t /\ Forall (asset_event newFiles) t.
Proof.
  revert rules st. induction files as [|e files IH]; intros rules st Hfiles.
  - exists []. simpl. by rewrite app_nil_r.
  - cbn [fold_left].
    destruct (write_asset_trace options config rules st e) as (l & Hl & Hshape).
    destruct (write_asset options config (rules, st) e) as [rules1 st1] eqn:Hstep.
    simpl in Hl.
    destruct (IH rules1 st1) as (t & Ht & Hall).
    { intros e' Hin. apply Hfiles. by right. }
    exists (l ++ t). rewrite Ht, Hl, app_assoc. split; [done|].
    apply Forall_app. split; [|done].
    destruct Hshape as [->|(name & body & Hname & ->)]; [constructor|].
    constructor; [|constructor].
    destruct (Hfiles e) as [Hin Hne]; [by left|].
    exists e, name, body. done.
Qed.

(** The first loop only adds rules. *)
Lemma write_assets_rules options config files rules st :
  exists registered,
    fst (fold_left (write_asset options config) files (rules, st))
    = rules ++ registered.
Proof.
  revert rules st. induction files as [|e files IH]; intros rules st.
  - exists []. simpl. by rewrite app_nil_r.
  - cbn [fold_left].
    assert (exists r, fst (write_asset options config (rules, st) e) = rules ++ r)
      as (r & Hr).
    { unfold write_asset.
      destruct (name_of (fst e)); [|no_event].
      destruct (content (snd e)) as [body|]; [|no_event].
      destruct (negb (body_truthy body)); [no_event|].
      destruct (already_there _ _ _); [no_event|].
      destruct (attribute (snd e)); [eauto|no_event]. }
    destruct (write_asset options config (rules, st) e) as [rules1 st1].
    simpl in Hr. subst rules1.
    destruct (IH (rules ++ r) st1) as (r' & Hr').
    exists (r ++ r'). by rewrite Hr', app_assoc.
Qed.

Lemma write_entry_trace options config rules st e :
  exists l, trace (write_entry options config rules st e)
            = trace st ++ EvTransform (default "" (fd_name (fst e))) rules :: l /\
            (l = [] \/ exists name body, name_of (fst e) = Some name
                                         /\ l = [EvWrite name body]).
Proof.
  unfold write_entry.
  set (st1 := emit _ st).
  assert (trace st1 = trace st ++ [EvTransform (default "" (fd_name (fst e))) rules])
    as Ht1 by reflexivity.
  destruct (name_of (fst e)) as [name|] eqn:Hname; [|exists []; rewrite Ht1; auto].
  destruct (already_there _ _ _); [exists []; rewrite Ht1; auto|].
  match goal with
  | |- context [save ?k name ?b ?o st1] =>
      destruct (save_trace k name b o st1) as (l & Ht & Hl)
  end.
  exists l. rewrite Ht, Ht1, <- app_assoc. split; [done|].
  destruct Hl as [->|[body' ->]]; [by left|right; eauto].
Qed.

Lemma write_entries_trace options config files newFiles rules st :
  (forall e, e ∈ files -> e ∈ newFiles /\ is_entry e = true) ->
  exists t, trace (fold_left (write_entry options config rules) files st)
            = trace st ++ t /\ Forall (entry_event newFiles rules) t.
Proof.
  revert st. induction files as [|e files IH]; intros st Hfiles.
  - exists []. simpl. by rewrite app_nil_r.
  - cbn [fold_left].
    destruct (write_entry_trace options config rules st e) as (l & Hl & Hshape).
    destruct (IH (write_entry options config rules st e)) as (t & Ht & Hall).
    { intros e' Hin. apply Hfiles. by right. }
    destruct (Hfiles e) as [Hin Hent]; [by left|].
    exists ((EvTransform (default "" (fd_name (fst e))) rules :: l) ++ t).
    rewrite Ht, Hl, app_assoc. split; [done|].
    apply Forall_app. split; [|done].
    constructor.
    { exists e. split; [done|]. split; [done|]. by left. }
    destruct Hshape as [->|(name & body & Hname & ->)]; [constructor|].
    constructor; [|constructor].
    exists e. split; [done|]. split; [done|]. right. eauto.
Qed.

(** C5.  Entry points are written last.  The events of the two write
    loops come in two runs: first the writes of the members of [newFiles]
    that are not entry points, then the markup passes and writes of the
    entry points.  Every markup pass runs with the same list of rules, the
    one the first loop leaves: the rules given to the loops (those of
    [processHtmlFiles]) followed by every rule the first loop registered. *)
Theorem entry_points_written_last options config rules newFiles st :
  let after_assets :=
    fold_left (write_asset options config) (List.filter not_entry newFiles)
              (rules, st) in
  exists t1 t2 registered,
    trace (write_outputs options config rules newFiles st) = trace st ++ t1 ++ t2 /\
    trace (snd after_assets) = trace st ++ t1 /\
    fst after_assets = rules ++ registered /\
    Forall (asset_event newFiles) t1 /\
    Forall (entry_event newFiles (fst after_assets)) t2.
Proof.
  intros after_assets. unfold write_outputs. fold after_assets.
  destruct (write_assets_rules options config (List.filter not_entry newFiles)
              rules st) as (registered & Hreg).
  fold after_assets in Hreg.
  destruct (write_assets_trace options config (List.filter not_entry newFiles)
              newFiles rules st) as (t1 & Ht1 & Hall1).
  { intros e Hin. apply list_elem_of_In, List.filter_In in Hin.
    rewrite <- list_elem_of_In in Hin. done. }
  fold after_assets in Ht1.
  destruct after_assets as [rules1 st1] eqn:Hafter. simpl in *.
  destruct (write_entries_trace options config (List.filter is_entry newFiles)
              newFiles rules1 st1) as (t2 & Ht2 & Hall2).
  { intros e Hin. apply list_elem_of_In, List.filter_In in Hin.
    rewrite <- list_elem_of_In in Hin. done. }
  exists t1, t2, registered. rewrite Ht2, Ht1, app_assoc. done.
Qed.

End OrderFacts.

(** ** Replacing every occurrence of a pattern *)

Section ReplaceAllFacts.

Lemma startsWith_cons a p b s :
  Js.startsWith (String a p) (String b s)
  = if Ascii.eqb a b then Js.startsWith p s else false.
Proof. reflexivity. Qed.

Lemma includes_cons p c s :
  Js.includes p (String c s) = Js.startsWith p (String c s) || Js.includes p s.
Proof. reflexivity. Qed.

Lemma append_cons c r s : String c r +:+ s = String c (r +:+ s).
Proof. reflexivity. Qed.

(** A prefix that does not hold the first character of the pattern adds no
    occurrence. *)
Lemma includes_skip_prefix p0 q r s :
  has_char p0 r = false ->
  Js.includes (String p0 q) (r +:+ s) = Js.includes (String p0 q) s.
Proof.
  induction r as [|c r IH]; intros Hr; [reflexivity|].
  simpl in Hr. apply orb_false_elim in Hr as [Hc Hr].
  rewrite append_cons, includes_cons, startsWith_cons, Hc. simpl.
  apply IH, Hr.
Qed.

Variables (p0 r0 : ascii) (q r : string).
Hypothesis r_clean : has_char p0 (String r0 r) = false.
Hypothesis q_clean : has_char p0 q = false /\ has_char r0 q = false.

Let P := String p0 q.
Let R := String r0 r.

(** Up to the first occurrence of the pattern the text is unchanged, as far
    as a string without [p0] and [r0] can tell. *)
Lemma replaceAll_prefix_kept u :
  has_char p0 u = false -> has_char r0 u = false ->
  forall s, Js.startsWith u (Js.replaceAll P R s) = Js.startsWith u s.
Proof.
  induction u as [|a u IH]; intros Hp Hr s; [reflexivity|].
  simpl in Hp, Hr.
  apply orb_false_elim in Hp as [Hpa Hp]. apply orb_false_elim in Hr as [Hra Hr].
  destruct s as [|c s]; [reflexivity|].
  unfold Js.replaceAll. cbn [Js.replaceAll_from].
  destruct (Js.startsWith P (String c s)) eqn:Hm.
  - unfold P in Hm. rewrite startsWith_cons in Hm.
    destruct (Ascii.eqb p0 c) eqn:Hc; [|discriminate].
    apply Ascii.eqb_eq in Hc. subst c.
    unfold R. rewrite append_cons, !startsWith_cons.
    rewrite Ascii.eqb_sym in Hpa, Hra. by rewrite Hpa, Hra.
  - rewrite !startsWith_cons. destruct (Ascii.eqb a c); [|reflexivity].
    apply (IH Hp Hr s).
Qed.

(** After [replaceAll] the pattern does not occur any more. *)
Lemma replaceAll_from_no_occurrence s :
  forall skip, Js.includes P (Js.replaceAll_from skip P R s) = false.
Proof.
  induction s as [|c s IH]; intros skip; [reflexivity|].
  cbn [Js.replaceAll_from]. destruct skip as [|k]; [|apply IH].
  destruct (Js.startsWith P (String c s)) eqn:Hm.
  - unfold P at 1. rewrite (includes_skip_prefix p0 q R _ r_clean). apply IH.
  - rewrite includes_cons, IH, orb_false_r.
    unfold P at 1. unfold P in Hm. rewrite startsWith_cons in *.
    destruct (Ascii.eqb p0 c); [|reflexivity].
    change (Js.replaceAll_from 0 P R s) with (Js.replaceAll P R s).
    rewrite (replaceAll_prefix_kept q (proj1 q_clean) (proj2 q_clean)). exact Hm.
Qed.

End ReplaceAllFacts.

(** The escaped text of a script holds no [</script>]. *)
Lemma escape_script_no_end_tag content :
  Js.includes "</script>" (escape_script content) = false.
Proof.
  unfold escape_script, Js.replaceAll.
  apply (replaceAll_from_no_occurrence "<"%char "\"%char "/script>" "x3C/script>");
    [reflexivity|split; reflexivity].
Qed.

(** ** Inlining *)

Section InlineFacts.
Context `{Runtime}.

Lemma classify_inlined options buildExtensions st e :
  inlined options buildExtensions e = true ->
  exists rule, inline_rule e = Some rule /\
               classify options buildExtensions st e = (None, [rule]).
Proof.
  unfold inlined, inline_rule, classify.
  destruct (attribute (snd e)) as [attr|]; [|discriminate].
  destruct (name_of (fst e)) as [fname|]; [|discriminate].
  simpl. destruct (is_style_ext (p_ext (path_parse fname))).
  - intros ->. eauto.
  - intros Hjs. apply andb_true_iff in Hjs as [-> ->]. eauto.
Qed.

(** An entry that stays keeps its handle. *)
Lemma classify_keeps_handle options buildExtensions st e e' rules :
  classify options buildExtensions st e = (Some e', rules) -> fst e' = fst e.
Proof.
  unfold classify.
  destruct (attribute (snd e)) as [attr|]; [|by intros [= <- _]].
  destruct (name_of (fst e)) as [fname|]; [|by intros [= <- _]].
  destruct (is_style_ext _).
  { destruct (inline_css options); [discriminate|by intros [= <- _]]. }
  destruct (Js.arr_includes _ _).
  { destruct (inline_js options); [discriminate|by intros [= <- _]]. }
  by intros [= <- _].
Qed.

(** A pass makes no handle appear. *)
Lemma classify_all_has options buildExtensions st files f :
  G.has f (fst (classify_all options buildExtensions st files)) = true ->
  exists e e' rules, e ∈ files /\ G.same f (fst e) = true /\
                     classify options buildExtensions st e = (Some e', rules).
Proof.
  induction files as [|e files IH]; [discriminate|].
  cbn [classify_all].
  destruct (classify options buildExtensions st e) as [kept rules] eqn:Hc.
  destruct (classify_all options buildExtensions st files) as [files' rules'].
  simpl in *.
  assert (G.has f files' = true ->
          exists e0 e' rules0, e0 ∈ e :: files /\ G.same f (fst e0) = true /\
            classify options buildExtensions st e0 = (Some e', rules0)) as Hrest.
  { intros Hf. destruct (IH Hf) as (e0 & e' & rules0 & Hin & Hs & Hc0).
    exists e0, e', rules0. split; [by right|done]. }
  destruct kept as [e1|]; [|exact Hrest].
  unfold G.has. simpl. intros Hor. apply orb_true_iff in Hor as [Hs|Hf].
  - exists e, e1, rules. rewrite <- (classify_keeps_handle _ _ _ _ _ _ Hc).
    split; [by left|done].
  - by apply Hrest.
Qed.

Lemma has_elem f (files : Graph) e :
  e ∈ files -> G.same f (fst e) = true -> G.has f files = true.
Proof.
  intros Hin Hs. unfold G.has. apply existsb_exists. exists e.
  split; [by apply list_elem_of_In|done].
Qed.

Lemma classify_all_sub options buildExtensions st files f :
  G.has f (fst (classify_all options buildExtensions st files)) = true ->
  G.has f files = true.
Proof.
  intros Hf. destruct (classify_all_has _ _ _ _ _ Hf) as (e & _ & _ & Hin & Hs & _).
  by apply has_elem with e.
Qed.

Lemma classify_times_sub n options buildExtensions st files f :
  G.has f (fst (classify_times n options buildExtensions st files)) = true ->
  G.has f files = true.
Proof.
  revert files. induction n as [|n IH]; intros files; [done|].
  cbn [classify_times].
  destruct (classify_all options buildExtensions st files) as [files1 rules1] eqn:H1.
  destruct (classify_times n options buildExtensions st files1) as [files2 rules2] eqn:H2.
  simpl. intros Hf. apply (classify_all_sub options buildExtensions st).
  rewrite H1. simpl. apply IH. by rewrite H2.
Qed.

(** In a graph with distinct handles, the entry of a handle is unique. *)
Lemma distinct_same (files : Graph) e e' :
  distinct_handles files -> e ∈ files -> e' ∈ files ->
  G.same (fst e) (fst e') = true -> e = e'.
Proof.
  unfold distinct_handles, G.same. intros Hnd Hin Hin' Hs.
  apply Nat.eqb_eq in Hs.
  apply list_elem_of_lookup in Hin as [i Hi].
  apply list_elem_of_lookup in Hin' as [j Hj].
  assert (i = j) as ->.
  { eapply NoDup_lookup; [exact Hnd| |].
    - rewrite list_lookup_fmap, Hi. reflexivity.
    - rewrite list_lookup_fmap, Hj. simpl. by rewrite Hs. }
  congruence.
Qed.

(** One pass drops an inlined entry and pushes its rule. *)
Lemma classify_all_inlined options buildExtensions st files e :
  distinct_handles files -> e ∈ files ->
  inlined options buildExtensions e = true ->
  G.has (fst e) (fst (classify_all options buildExtensions st files)) = false /\
  exists rule, inline_rule e = Some rule /\
               rule ∈ snd (classify_all options buildExtensions st files).
Proof.
  intros Hnd Hin Hinl.
  destruct (classify_inlined options buildExtensions st e Hinl) as (rule & Hrule & Hc).
  split.
  - destruct (G.has _ _) eqn:Hhas; [|done].
    destruct (classify_all_has _ _ _ _ _ Hhas) as (e0 & e' & rules & Hin0 & Hs & Hc0).
    rewrite <- (distinct_same files e e0 Hnd Hin Hin0 Hs) in Hc0. congruence.
  - exists rule. split; [done|]. clear Hnd.
    induction files as [|e0 files IH]; [by apply elem_of_nil in Hin|].
    cbn [classify_all].
    destruct (classify options buildExtensions st e0) as [kept rules] eqn:Hc0.
    destruct (classify_all options buildExtensions st files) as [files' rules'].
    simpl in *. apply elem_of_app.
    apply elem_of_cons in Hin as [<-|Hin].
    + left. rewrite Hc in Hc0. injection Hc0 as _ <-. by left.
    + right. by apply IH.
Qed.

End InlineFacts.

Section InlineClaim.
Context `{Runtime}.

Lemma get_removed a (l : list (string * string)) :
  Dict.get a (filter (fun kv => negb (String.eqb a (fst kv)) = true) l) = None.
Proof.
  induction l as [|[k v] l IH]; [reflexivity|].
  rewrite filter_cons.
  destruct (decide (negb (String.eqb a (fst (k, v))) = true)) as [Hd|Hd];
    [|exact IH].
  simpl in *. apply negb_true_iff in Hd. by rewrite Hd.
Qed.

Lemma processHtmlFiles_inlined options buildExtensions st files e :
  distinct_handles files -> e ∈ files ->
  getExtensionFiles files [".html"; ".htm"] <> [] ->
  inlined options buildExtensions e = true ->
  G.has (fst e) (fst (processHtmlFiles options buildExtensions st files)) = false /\
  exists rule, inline_rule e = Some rule /\
               rule ∈ snd (processHtmlFiles options buildExtensions st files).
Proof.
  intros Hnd Hin Hhtml Hinl. unfold processHtmlFiles.
  destruct (getExtensionFiles files [".html"; ".htm"]) as [|h hs]; [done|].
  cbn [length classify_times].
  destruct (classify_all_inlined options buildExtensions st files e Hnd Hin Hinl)
    as (Hgone & rule & Hrule & Hpushed).
  destruct (classify_all options buildExtensions st files) as [files1 rules1] eqn:H1.
  destruct (classify_times (length hs) options buildExtensions st files1)
    as [files2 rules2] eqn:H2.
  simpl in *. split.
  - destruct (G.has (fst e) files2) eqn:Hhas; [|done].
    rewrite <- Hgone. symmetry.
    apply (classify_times_sub (length hs) options buildExtensions st).
    by rewrite H2.
  - exists rule. split; [done|]. apply elem_of_app. by left.
Qed.

(** C6 (as amended).  Take a graph with distinct handles that holds an
    HTML file, and an entry of it that carries the attribute of the element
    referring to it and whose extension is a style extension with [inline]
    covering [css], or else a buildable extension with [inline] covering
    [js].  [processHtmlFiles] removes the entry from the graph, so that the
    outputs, which are resolved from the graph it returns, have none for
    it, and registers its rule.  A style rule replaces the element by a
    [style] element around the text of the style; a script rule removes the
    [src] attribute and sets the inner content to the text of the script
    in which every [</script>] is escaped, so that none is left. *)
Theorem inlined_assets_leave_the_graph
    options buildExtensions st files e :
  distinct_handles files -> e ∈ files ->
  getExtensionFiles files [".html"; ".htm"] <> [] ->
  inlined options buildExtensions e = true ->
  (G.has (fst e) (fst (processHtmlFiles options buildExtensions st files)) = false /\
   exists rule, inline_rule e = Some rule /\
                rule ∈ snd (processHtmlFiles options buildExtensions st files)) /\
  (forall selector file details extension location st' el,
     replaced (apply_rule buildExtensions location st'
                 (InlineStyle selector file details extension) el)
     = Some ("<style>" +:+ style_text file details extension st' +:+ "</style>")) /\
  (forall selector file details location st' el,
     let el' := apply_rule buildExtensions location st'
                  (InlineScript selector file details) el in
     El.getAttribute "src" el' = None /\
     inner el' = Some (escape_script (script_text file details st')) /\
     Js.includes "</script>" (escape_script (script_text file details st')) = false).
Proof.
  intros Hnd Hin Hhtml Hinl. split; [|split].
  - by apply processHtmlFiles_inlined.
  - intros. reflexivity.
  - intros selector file details location st' el el'. subst el'.
    split; [|split].
    + unfold apply_rule, El.getAttribute, El.setInnerContent, El.removeAttribute.
      simpl. apply get_removed.
    + reflexivity.
    + apply escape_script_no_end_tag.
Qed.

End InlineClaim.

(** The compiled script of the page, with [inline: true]: it leaves the
    graph, and its rule turns the [script] element into one without [src]
    whose content has the end tag escaped. *)
Lemma inlined_assets_leave_the_graph_witness :
  G.has (fst ExInline.main_js)
        (fst (@processHtmlFiles Ex.rt (Some ExInline.inline_all) extensionsToBuild
                (initial ∅) ExInline.graph)) = false /\
  (let el' := @apply_rule Ex.rt extensionsToBuild "/proj/dist/index.html" (initial ∅)
                (InlineScript "[src]" (fst ExInline.main_js) (snd ExInline.main_js))
                ExInline.script_element in
   attrs el' = [("type", "module")] /\
   inner el' = Some "document.write('<b>\x3C/script>');").
Proof.
  split.
  - refine (proj1 (proj1 (@inlined_assets_leave_the_graph Ex.rt
             (Some ExInline.inline_all) extensionsToBuild (initial ∅)
             ExInline.graph ExInline.main_js _ _ _ eq_refl))).
    + apply (bool_decide_unpack _). vm_compute. exact I.
    + apply list_elem_of_further, list_elem_of_here.
    + vm_compute. discriminate.
  - split; reflexivity.
Defined.

(** C6 (as stated) fails for an asset no element refers to.  With
    [inline: true], the chunk the bundler split off stays in the graph
    (and no rule is registered): it is written as an output of its own. *)
Lemma split_chunk_is_not_inlined :
  inline_js (Some ExInline.inline_all) = true /\
  Js.arr_includes ".js" extensionsToBuild = true /\
  G.has (fst ExInline.split_chunk)
        (fst (@processHtmlFiles Ex.rt (Some ExInline.inline_all) extensionsToBuild
                (initial ∅) ExInline.graph)) = true /\
  snd (@processHtmlFiles Ex.rt (Some ExInline.inline_all) extensionsToBuild
         (initial ∅) ExInline.graph)
  = [InlineScript (Demo.attributeToSelector (mkAttr "src" "./main.ts"))
       (fst ExInline.main_js) (snd ExInline.main_js)].
Proof. repeat split; reflexivity. Qed.

(** ** Missing assets *)

Section MissingFacts.
Context `{Runtime}.

Lemma searched_attribute_truthy el a v :
  searched_attribute el = Some (a, v) -> Js.truthy a = true.
Proof.
  unfold searched_attribute.
  destruct (List.find _ attributesToSearch) as [a'|] eqn:Hfind; [|discriminate].
  intros [= <- _]. apply List.find_some in Hfind as [Hin _].
  simpl in Hin. repeat (destruct Hin as [<-|Hin]; [reflexivity|]). destruct Hin.
Qed.

Lemma emit_all_trace es st : trace (emit_all es st) = trace st ++ es.
Proof.
  revert st. induction es as [|e es IH]; intros st; simpl.
  - by rewrite app_nil_r.
  - rewrite IH. simpl. by rewrite <- app_assoc.
Qed.

Lemma errors_shown_iff options :
  errors_shown options = false
  <-> exists o, options = Some o /\ suppressErrors o = Some true.
Proof.
  unfold errors_shown. split.
  - destruct options as [o|]; [|discriminate].
    destruct (suppressErrors o) as [[|]|] eqn:E; try discriminate. eauto.
  - intros (o & -> & ->). reflexivity.
Qed.

(** C7 (as amended).  Take an element the handler of the extractor is run
    on, whose first searched attribute has a non-empty value that is not a
    URL, whose resolved path has an extension that [excludeExtensions] does
    not list, and whose resolved path is not on the disk.  The handler
    returns (it does not throw), the list of discovered files is as before,
    and the trace grows by the four lines of the diagnostic (excerpt, caret,
    the message with the tag and the attribute, the position) when
    [suppressErrors] is not [true] and by nothing when it is. *)
Theorem missing_asset_is_dropped
    options filePath htmlResolvedPath hash el ex st attributeName attributeValue :
  searched_attribute el = Some (attributeName, Some attributeValue) ->
  Js.truthy attributeValue = true ->
  isURL attributeValue = false ->
  let resolvedPath := path_resolve [path_dirname filePath; attributeValue] in
  extension_excluded options (p_ext (path_parse resolvedPath)) = false ->
  exists_on_disk resolvedPath st = false ->
  exists ex' st',
    on_element options filePath htmlResolvedPath hash el ex st = Returned (ex', st') /\
    ex_files ex' = ex_files ex /\
    trace st' = trace st ++
                (if errors_shown options
                 then missing_diagnostic filePath (ex_fileText ex') el
                        attributeName attributeValue
                 else []) /\
    (trace st' = trace st <-> errors_shown options = false) /\
    (errors_shown options = false
     <-> exists o, options = Some o /\ suppressErrors o = Some true).
Proof.
  intros Hattr Hvalue Hurl resolvedPath Hext Hmissing.
  unfold on_element. rewrite Hattr, (searched_attribute_truthy _ _ _ Hattr).
  rewrite Hvalue, Hurl. simpl. fold resolvedPath. rewrite Hext.
  assert (file_exists (mkFile (next_fd st) (Some resolvedPath))
            (snd (Bun_file resolvedPath st)) = false) as Hfile by exact Hmissing.
  simpl in Hfile. rewrite Hfile. simpl.
  set (ex' := mkExtraction (ex_files ex) (Js.replaceAll tab tab (ex_fileText ex))).
  set (st1 := snd (Bun_file resolvedPath st)).
  destruct (errors_shown options) eqn:Hshown.
  - exists ex', (emit_all (missing_diagnostic filePath (ex_fileText ex') el
                            attributeName attributeValue) st1).
    split; [reflexivity|]. split; [reflexivity|].
    rewrite emit_all_trace. split; [reflexivity|]. split.
    + split; [|discriminate].
      intros E. apply (f_equal (@length Event)) in E.
      rewrite length_app in E. simpl in E. lia.
    + rewrite <- Hshown at 1. apply errors_shown_iff.
  - exists ex', st1.
    split; [reflexivity|]. split; [reflexivity|].
    split; [by rewrite app_nil_r|]. split.
    + split; reflexivity.
    + rewrite <- Hshown at 1. apply errors_shown_iff.
Qed.

End MissingFacts.

(** [<img src="./missing.png">] with no options: nothing is discovered and
    the four lines are printed, the third one being the message. *)
Lemma missing_asset_is_dropped_witness :
  exists ex' st',
    @on_element Ex.rt None "/proj/index.html" "/proj/index.html" "11112222"
      ExMissing.img ExMissing.start (initial ExMissing.sources)
    = Returned (ex', st') /\
    ex_files ex' = [] /\
    trace st' = @missing_diagnostic Ex.rt "/proj/index.html" ExMissing.page_text
                  ExMissing.img "src" "./missing.png" /\
    nth_error (trace st') 2
    = Some (EvError "bun-plugin-html - HTMLParseError: Specified <img> src './missing.png' does not exist!").
Proof.
  destruct (@missing_asset_is_dropped Ex.rt None "/proj/index.html"
              "/proj/index.html" "11112222" ExMissing.img ExMissing.start
              (initial ExMissing.sources) "src" "./missing.png"
              eq_refl eq_refl eq_refl eq_refl eq_refl)
    as (ex' & st' & Hret & Hfiles & Htrace & _).
  exists ex', st'. split; [exact Hret|]. split; [exact Hfiles|].
  rewrite Htrace.
  injection Hret as <- _. split; reflexivity.
Defined.

(** C7 (as stated) fails for an excluded extension.  With
    [excludeExtensions: ['.png']] and errors not suppressed, the same
    element is passed over before its file is looked for: nothing is
    printed although the file is not there. *)
Lemma excluded_missing_asset_is_silent :
  errors_shown (Some ExMissing.no_png) = true /\
  @exists_on_disk "/proj/missing.png" (initial ExMissing.sources) = false /\
  @on_element Ex.rt (Some ExMissing.no_png) "/proj/index.html" "/proj/index.html"
    "11112222" ExMissing.img ExMissing.start (initial ExMissing.sources)
  = Returned (ExMissing.start, initial ExMissing.sources).
Proof. repeat split; reflexivity. Qed.

(** ** Kept paths *)

Section KeepFacts.
Context `{Runtime}.






Lemma rewrite_literal_not_kept keep hostDir originName asNewNames content ctx :
  kept_literal keep (literal_bare_path ctx) = false ->
  rewrite_literal keep hostDir originName asNewNames content ctx
  = rewrite_literal None hostDir originName asNewNames content ctx.
Proof.
  unfold rewrite_literal, literal_bare_path.
  destruct (isURL (literal_path ctx)); [done|].
  destruct (split_extra_tail _ _) as [p suffix]. simpl. by intros ->.
Qed.








End KeepFacts.



(** ** The [onLoad] hook *)

Section OnLoadFacts.
Context `{Runtime}.

Lemma on_element_returns options filePath htmlResolvedPath hash el ex st :
  exists r, on_element options filePath htmlResolvedPath hash el ex st = Returned r.
Proof.
  unfold on_element.
  destruct (searched_attribute el) as [[a [v|]]|]; eauto.
  destruct (negb (Js.truthy a) || negb (Js.truthy v) || isURL v); eauto.
  destruct (extension_excluded _ _); eauto.
  destruct (Bun_file _ st) as [file st1].
  destruct (negb (file_exists file st1)); eauto.
  destruct (errors_shown options); eauto.
Qed.

Lemma onResolve_returns options config tempDirPath pathToResolveFrom
    requiresTempDir args toReplacePaths st :
  exists r, onResolve options config tempDirPath pathToResolveFrom requiresTempDir
              args toReplacePaths st = Returned r.
Proof.
  unfold onResolve.
  destruct (resolve_try _ _ _ _ _ _) as [[answer pushed]|error]; eauto.
Qed.

(** What the resolver answers when its [try] block throws. *)
Lemma onResolve_caught options config tempDirPath pathToResolveFrom
    requiresTempDir args toReplacePaths st error :
  resolve_try config tempDirPath pathToResolveFrom requiresTempDir args st
    = Thrown error ->
  exists st',
    onResolve options config tempDirPath pathToResolveFrom requiresTempDir
      args toReplacePaths st
    = Returned (Some (mkResolved "" None), toReplacePaths, st') /\
    trace st' = trace st ++ (if errors_shown options
                             then resolution_diagnostic error else []).
Proof.
  intros Hthrown. unfold onResolve. rewrite Hthrown.
  eexists. split; [reflexivity|].
  destruct (errors_shown options).
  - apply emit_all_trace.
  - by rewrite app_nil_r.
Qed.

(** The style sheet clean-css reports errors for is kept as it is. *)
Lemma getCSSMinifier_falls_back config options text st o :
  cfg_minify config = true ->
  minifyCSS options = CssObject o ->
  errors (cleancss_minify o text) <> [] ->
  fst (getCSSMinifier config options text st) = text.
Proof.
  intros Hmin Hcss Herr. unfold getCSSMinifier. rewrite Hmin, Hcss. simpl.
  destruct (errors (cleancss_minify o text)) as [|e es]; [done|reflexivity].
Qed.

(** C9.  The [onLoad] hook throws for every path it is given, so for
    every [.html] or [.htm] path, and whatever the options are:
    [suppressErrors] does not change that.  The other failures are
    absorbed where they are met: the handler of the extractor, where
    missing references are found, returns whatever it is given; the module
    resolver returns whatever it is given, with an empty path when its
    resolution throws; a failed build of a script is reported and the
    state is otherwise as before; a style sheet whose minification reports
    errors is kept as it is. *)
Theorem onLoad_always_throws options path :
  onLoad options path
    = Thrown "bun-plugin-html does not support output information at this time." /\
  (forall options', onLoad options' path = onLoad options path) /\
  (forall r, onLoad options path <> Returned r) /\
  (forall filePath htmlResolvedPath hash el ex st,
     exists r, on_element options filePath htmlResolvedPath hash el ex st = Returned r) /\
  (forall config tempDirPath pathToResolveFrom requiresTempDir args toReplacePaths st,
     (exists r, onResolve options config tempDirPath pathToResolveFrom
                  requiresTempDir args toReplacePaths st = Returned r) /\
     (forall error,
        resolve_try config tempDirPath pathToResolveFrom requiresTempDir args st
          = Thrown error ->
        exists st',
          onResolve options config tempDirPath pathToResolveFrom requiresTempDir
            args toReplacePaths st
          = Returned (Some (mkResolved "" None), toReplacePaths, st'))) /\
  (forall logs st,
     namedAs (report_build options false logs st) = namedAs st /\
     pathSaved (report_build options false logs st) = pathSaved st /\
     disk (report_build options false logs st) = disk st /\
     trace (report_build options false logs st)
       = trace st ++ (if errors_shown options then [EvError logs] else [])) /\
  (forall config htmlOptions text st o,
     cfg_minify config = true ->
     minifyCSS htmlOptions = CssObject o ->
     errors (cleancss_minify o text) <> [] ->
     fst (getCSSMinifier config htmlOptions text st) = text).
Proof.
  split; [reflexivity|]. split; [reflexivity|]. split; [discriminate|].
  split; [intros; apply on_element_returns|].
  split; [|split].
  - intros. split; [apply onResolve_returns|].
    intros error Hthrown.
    destruct (onResolve_caught options config tempDirPath pathToResolveFrom
                requiresTempDir args toReplacePaths st error Hthrown)
      as (st' & Hret & _).
    eauto.
  - intros logs st. unfold report_build. simpl.
    destruct (errors_shown options); simpl; [done|by rewrite app_nil_r].
  - intros. by apply getCSSMinifier_falls_back with o.
Qed.

End OnLoadFacts.

(** An import the runtime cannot resolve, with no options: the resolver
    answers with the empty path. *)
Lemma onLoad_always_throws_witness :
  exists st',
    @onResolve Ex.rt None Ex.per_kind "/tmp/bun-build-1" "/proj" false
      (mkArgs "./nowhere" "/proj/main.ts") [] (initial ∅)
    = Returned (Some (mkResolved "" None), [], st').
Proof.
  exact (proj2 (proj1 (proj2 (proj2 (proj2 (proj2
           (@onLoad_always_throws Ex.rt None "/proj/index.html")))))
           Ex.per_kind "/tmp/bun-build-1" "/proj" false
           (mkArgs "./nowhere" "/proj/main.ts") [] (initial ∅))
           "Cannot find module ." eq_refl).
Defined.

(** ** The lists of [setup] *)

Section ListFacts.
Context `{Runtime}.

Lemma arr_includes_elem x l : x ∈ l -> Js.arr_includes x l = true.
Proof.
  intros Hin. unfold Js.arr_includes. apply existsb_exists.
  exists x. split; [by apply list_elem_of_In|apply String.eqb_refl].
Qed.

(** C10.  The user's lists extend the defaults.  The excluded selectors
    are the user's [excludeSelectors] (none when the option is absent)
    followed by [a], and the buildable extensions are the user's
    [includeExtensions] followed by [.js], [.jsx], [.ts] and [.tsx].  So
    [a] is always excluded: the selector of the handler ends in
    [:not(a)], and the handler does not run on an element that the
    selector [a] matches; and the four default extensions are always
    buildable. *)
Theorem user_lists_extend_defaults options :
  let user_selectors :=
    match options with Some o => default [] (excludeSelectors o) | None => [] end in
  let user_extensions :=
    match options with Some o => default [] (includeExtensions o) | None => [] end in
  excluded_of options = user_selectors ++ ["a"] /\
  buildExtensions_of options = user_extensions ++ [".js"; ".jsx"; ".ts"; ".tsx"] /\
  "a" ∈ excluded_of options /\
  excludedSelector (excluded_of options)
    = excludedSelector user_selectors +:+ ":not(a)" /\
  (forall el, selector_matches "a" el = true ->
              handler_runs (excluded_of options) el = false) /\
  (forall extension, extension ∈ [".js"; ".jsx"; ".ts"; ".tsx"] ->
                     Js.arr_includes extension (buildExtensions_of options) = true).
Proof.
  intros user_selectors user_extensions.
  assert (excluded_of options = user_selectors ++ ["a"]) as Hex.
  { unfold excluded_of, user_selectors.
    destruct options as [o|]; [|reflexivity].
    destruct (excludeSelectors o); reflexivity. }
  assert (buildExtensions_of options
          = user_extensions ++ [".js"; ".jsx"; ".ts"; ".tsx"]) as Hbuild.
  { unfold buildExtensions_of, user_extensions.
    destruct options as [o|]; [|reflexivity].
    destruct (includeExtensions o); reflexivity. }
  split; [exact Hex|]. split; [exact Hbuild|]. split; [|split; [|split]].
  - rewrite Hex. apply elem_of_app. right. apply list_elem_of_here.
  - rewrite Hex. unfold excludedSelector at 1. rewrite fold_left_app.
    simpl. reflexivity.
  - intros el Ha. rewrite Hex. unfold handler_runs.
    rewrite forallb_app. simpl. rewrite Ha. simpl. apply andb_false_r.
  - intros extension Hin. rewrite Hbuild. apply arr_includes_elem.
    apply elem_of_app. by right.
Qed.

End ListFacts.

(** With [excludeSelectors: ['link']] and [includeExtensions: ['.cljs']]:
    the lists in force, and an anchor the handler does not run on. *)
Lemma user_lists_extend_defaults_witness :
  excluded_of (Some ExLists.custom) = ["link"; "a"] /\
  buildExtensions_of (Some ExLists.custom) = [".cljs"; ".js"; ".jsx"; ".ts"; ".tsx"] /\
  @handler_runs Ex.rt (excluded_of (Some ExLists.custom)) ExLists.anchor = false.
Proof.
  pose proof (@user_lists_extend_defaults Ex.rt (Some ExLists.custom))
    as (Hex & Hbuild & _ & _ & Hanchor & _).
  split; [exact Hex|]. split; [exact Hbuild|].
  apply Hanchor. reflexivity.
Defined.

(** * Further properties of the code *)

(** ** [processHtmlFiles]: one pass is all there is *)

Section ClassifierFacts.
Context `{Runtime}.

(** An entry that stays through a turn of the loop stays as it is through
    the next one, and pushes no rule in either. *)
Lemma classify_kept_fixed options buildExtensions st e e' rules :
  classify options buildExtensions st e = (Some e', rules) ->
  rules = [] /\ classify options buildExtensions st e' = (Some e', []).
Proof.
  unfold classify. destruct e as [file details]; simpl.
  destruct (attribute details) as [attr|] eqn:Ha.
  2:{ intros [= <- <-]. cbn [fst snd]. rewrite ?Ha; done. }
  destruct (name_of file) as [fname|] eqn:Hn.
  2:{ intros [= <- <-]. cbn [fst snd]. rewrite ?Ha, ?Hn; done. }
  destruct (is_style_ext (p_ext (path_parse fname))) eqn:Hs.
  { destruct (inline_css options) eqn:Hc; [discriminate|].
    intros [= <- <-]. cbn [fst snd]. rewrite ?Ha, ?Hn, ?Hs, ?Hc; done. }
  destruct (Js.arr_includes (p_ext (path_parse fname)) buildExtensions) eqn:Hb.
  { destruct (inline_js options) eqn:Hc; [discriminate|].
    intros [= <- <-]. cbn [fst snd]. rewrite ?Ha, ?Hn, ?Hs, ?Hb, ?Hc; done. }
  intros [= <- <-]. cbn [fst snd]. rewrite ?Ha, ?Hn, ?Hs, ?Hb; done.
Qed.

Lemma classify_all_again options buildExtensions st files :
  classify_all options buildExtensions st
    (fst (classify_all options buildExtensions st files))
  = (fst (classify_all options buildExtensions st files), []).
Proof.
  induction files as [|e files IH]; [reflexivity|].
  cbn [classify_all].
  destruct (classify options buildExtensions st e) as [[e'|] rules] eqn:Hc;
    destruct (classify_all options buildExtensions st files) as [files' rules'];
    simpl in *; [|exact IH].
  destruct (classify_kept_fixed _ _ _ _ _ _ Hc) as [_ ->].
  by rewrite IH.
Qed.

Lemma classify_times_succ n options buildExtensions st files :
  classify_times (S n) options buildExtensions st files
  = classify_all options buildExtensions st files.
Proof.
  revert files. induction n as [|n IH]; intros files.
  - simpl. destruct (classify_all options buildExtensions st files).
    by rewrite app_nil_r.
  - change (classify_times (S (S n)) options buildExtensions st files)
      with (let '(files1, rules1) := classify_all options buildExtensions st files in
            let '(files2, rules2) :=
              classify_times (S n) options buildExtensions st files1 in
            (files2, rules1 ++ rules2)).
    pose proof (classify_all_again options buildExtensions st files) as Hagain.
    destruct (classify_all options buildExtensions st files) as [files1 rules1].
    simpl in Hagain. rewrite IH, Hagain. by rewrite app_nil_r.
Qed.

(** X1.  However many HTML files the graph holds, [processHtmlFiles] does
    what one run of its inner loop does: the later runs remove nothing,
    change nothing and register no rule a second time.  With no HTML file
    in the graph it does nothing at all.  Run again on the graph it
    returns, it leaves that graph as it is and registers no rule. *)
Theorem processHtmlFiles_one_pass options buildExtensions st files :
  processHtmlFiles options buildExtensions st files
  = match getExtensionFiles files [".html"; ".htm"] with
    | [] => (files, [])
    | _ :: _ => classify_all options buildExtensions st files
    end /\
  processHtmlFiles options buildExtensions st
    (fst (processHtmlFiles options buildExtensions st files))
  = (fst (processHtmlFiles options buildExtensions st files), []).
Proof.
  assert (forall files,
    processHtmlFiles options buildExtensions st files
    = match getExtensionFiles files [".html"; ".htm"] with
      | [] => (files, [])
      | _ :: _ => classify_all options buildExtensions st files
      end) as Hone.
  { intros fs. unfold processHtmlFiles.
    destruct (getExtensionFiles fs [".html"; ".htm"]) as [|h hs]; [reflexivity|].
    apply classify_times_succ. }
  split; [apply Hone|].
  rewrite (Hone files).
  destruct (getExtensionFiles files [".html"; ".htm"]) as [|h hs] eqn:E.
  - simpl. by rewrite Hone, E.
  - rewrite Hone.
    destruct (getExtensionFiles (fst (classify_all options buildExtensions st files))
                [".html"; ".htm"]); [reflexivity|].
    apply classify_all_again.
Qed.

Lemma classify_not_inlined options buildExtensions st e :
  inlined options buildExtensions e = false ->
  exists e', classify options buildExtensions st e = (Some e', []).
Proof.
  unfold inlined, classify.
  destruct (attribute (snd e)) as [attr|]; [|eauto].
  destruct (name_of (fst e)) as [fname|]; [|eauto].
  simpl. destruct (is_style_ext (p_ext (path_parse fname))).
  - intros ->. eauto.
  - destruct (Js.arr_includes _ _); simpl; [intros ->|]; eauto.
Qed.

Lemma classify_all_handles options buildExtensions st files :
  map fst (fst (classify_all options buildExtensions st files))
  = map fst (List.filter (fun e => negb (inlined options buildExtensions e)) files) /\
  snd (classify_all options buildExtensions st files)
  = omap inline_rule (List.filter (inlined options buildExtensions) files).
Proof.
  induction files as [|e files [IHf IHr]]; [done|].
  cbn [classify_all List.filter].
  destruct (classify_all options buildExtensions st files) as [files' rules'].
  simpl in IHf, IHr.
  destruct (inlined options buildExtensions e) eqn:Hin.
  - destruct (classify_inlined options buildExtensions st e Hin)
      as (rule & Hrule & ->).
    simpl. rewrite Hrule. split; [exact IHf|by rewrite IHr].
  - destruct (classify_not_inlined options buildExtensions st e Hin) as [e' Hc].
    rewrite Hc. simpl. rewrite (classify_keeps_handle _ _ _ _ _ _ Hc).
    split; [by rewrite IHf|exact IHr].
Qed.

(** X2.  When the graph holds an HTML file, the handles [processHtmlFiles]
    leaves in it are those of the entries that are not inlined, in their
    order, and the rules it registers are those of the inlined entries, in
    their order: nothing else leaves the graph, nothing joins it, and
    nothing is registered twice. *)
Theorem processHtmlFiles_removes_the_inlined options buildExtensions st files
    (Hhtml : getExtensionFiles files [".html"; ".htm"] <> []) :
  map fst (fst (processHtmlFiles options buildExtensions st files))
  = map fst (List.filter (fun e => negb (inlined options buildExtensions e)) files) /\
  snd (processHtmlFiles options buildExtensions st files)
  = omap inline_rule (List.filter (inlined options buildExtensions) files).
Proof.
  unfold processHtmlFiles.
  destruct (getExtensionFiles files [".html"; ".htm"]) as [|h hs]; [done|].
  cbn [length]. rewrite classify_times_succ. apply classify_all_handles.
Qed.

Lemma classify_all_fields options buildExtensions st files :
  Forall (fun e' => exists e, e ∈ files /\ fst e' = fst e /\
            content (snd e') = content (snd e) /\
            attribute (snd e') = attribute (snd e) /\
            originalPath (snd e') = originalPath (snd e) /\
            htmlImporter (snd e') = htmlImporter (snd e) /\
            (snd e' = snd e \/
             (is_Some (attribute (snd e)) /\ kind (snd e') = Asset /\
              hash (snd e') = Bun_hash (file_text (fst e) st))))
         (fst (classify_all options buildExtensions st files)).
Proof.
  induction files as [|e files IH]; [constructor|].
  cbn [classify_all].
  destruct (classify options buildExtensions st e) as [kept rules] eqn:Hc.
  destruct (classify_all options buildExtensions st files) as [files' rules'].
  simpl in *.
  assert (Forall (fun e' => exists e0, e0 ∈ e :: files /\ fst e' = fst e0 /\
            content (snd e') = content (snd e0) /\
            attribute (snd e') = attribute (snd e0) /\
            originalPath (snd e') = originalPath (snd e0) /\
            htmlImporter (snd e') = htmlImporter (snd e0) /\
            (snd e' = snd e0 \/
             (is_Some (attribute (snd e0)) /\ kind (snd e') = Asset /\
              hash (snd e') = Bun_hash (file_text (fst e0) st)))) files') as Hrest.
  { eapply Forall_impl; [exact IH|]. intros e' (e0 & Hin & Hrest).
    exists e0. split; [by right|exact Hrest]. }
  destruct kept as [e1|]; [|exact Hrest].
  constructor; [|exact Hrest].
  exists e. split; [by left|].
  revert Hc. unfold classify.
  destruct (attribute (snd e)) as [attr|] eqn:Ha.
  2:{ intros [= <- _]. repeat split; try done. by left. }
  destruct (name_of (fst e)) as [fname|].
  2:{ intros [= <- _]. repeat split; try done. by left. }
  destruct (is_style_ext _).
  { destruct (inline_css options); [discriminate|].
    intros [= <- _]. repeat split; try done. by left. }
  destruct (Js.arr_includes _ _).
  { destruct (inline_js options); [discriminate|].
    intros [= <- _]. repeat split; try done. by left. }
  intros [= <- _]. simpl. repeat split; try done.
  right. repeat split; eauto.
Qed.

(** X3.  An entry [processHtmlFiles] leaves in the graph is an entry that
    was there, under the same handle, with the same content, attribute,
    original path and importer.  Either its details are untouched, or it
    carries an attribute and has become an [asset] whose hash is the hash
    of the text of its file. *)
Theorem processHtmlFiles_keeps_details options buildExtensions st files :
  Forall (fun e' => exists e, e ∈ files /\ fst e' = fst e /\
            content (snd e') = content (snd e) /\
            attribute (snd e') = attribute (snd e) /\
            originalPath (snd e') = originalPath (snd e) /\
            htmlImporter (snd e') = htmlImporter (snd e) /\
            (snd e' = snd e \/
             (is_Some (attribute (snd e)) /\ kind (snd e') = Asset /\
              hash (snd e') = Bun_hash (file_text (fst e) st))))
         (fst (processHtmlFiles options buildExtensions st files)).
Proof.
  unfold processHtmlFiles.
  destruct (getExtensionFiles files [".html"; ".htm"]) as [|h hs].
  - simpl. apply Forall_forall. intros e He. exists e. tauto.
  - cbn [length]. rewrite classify_times_succ. apply classify_all_fields.
Qed.

End ClassifierFacts.

(** A page, its compiled script to inline, and a chunk no element refers
    to: the script leaves the graph, the chunk stays. *)
Lemma processHtmlFiles_removes_the_inlined_witness :
  map fst (fst (@processHtmlFiles Ex.rt (Some ExInline.inline_all) extensionsToBuild
                  (initial ∅) ExInline.graph))
  = [fst ExInline.page; fst ExInline.split_chunk].
Proof.
  destruct (@processHtmlFiles_removes_the_inlined Ex.rt (Some ExInline.inline_all)
              extensionsToBuild (initial ∅) ExInline.graph) as [Hh _].
  { vm_compute. discriminate. }
  rewrite Hh. vm_compute. reflexivity.
Defined.

(** ** The mappings on record *)

Section NamedFacts.
Context `{Runtime}.

Lemma keepNamedAs_recorded o n resolved st key :
  recorded (fold_key o) (namedAs st) = None ->
  relocated o n = true ->
  next_fd (snd (keepNamedAs o n resolved st)) = S (next_fd st) /\
  recorded key (namedAs (snd (keepNamedAs o n resolved st)))
  = if decide (key = fold_key o)
    then Some (mkNamed (path_join [p_root n; p_dir n; p_base n])
                       (mkFile (next_fd st) (Some resolved)))
    else recorded key (namedAs st).
Proof.
  intros Hmiss Hrel. destruct key as [b d].
  revert Hmiss Hrel.
  unfold recorded, named_lookup, fold_key, relocated, keepNamedAs; simpl.
  intros Hmiss Hrel.
  assert (Dict.get (path_join [p_root o; p_dir o])
            (default [] (Dict.get (p_base o) (namedAs st))) = None) as Hnone.
  { destruct (Dict.get (p_base o) (namedAs st)); [exact Hmiss|reflexivity]. }
  rewrite Hnone, Hrel. simpl. split; [reflexivity|].
  destruct (decide ((b, d) = (p_base o, path_join [p_root o; p_dir o])))
    as [[= -> ->]|Hne].
  - by rewrite !Dict_get_set_eq.
  - destruct (String.eqb_spec (p_base o) b) as [<-|Hb].
    + rewrite Dict_get_set_eq.
      destruct (String.eqb_spec (path_join [p_root o; p_dir o]) d) as [<-|Hd];
        [done|].
      rewrite Dict_get_set_ne by exact Hd.
      by destruct (Dict.get (p_base o) (namedAs st)).
    + by rewrite Dict_get_set_ne by exact Hb.
Qed.

Lemma namedAs_ok_later st st' :
  namedAs st' = namedAs st -> (next_fd st <= next_fd st')%nat ->
  namedAs_ok st -> namedAs_ok st'.
Proof.
  intros Hn Hle [Hok Hinj]. split.
  - intros key e He. rewrite Hn in He. destruct (Hok key e He). split; [done|lia].
  - intros key key' e e'. rewrite Hn. apply Hinj.
Qed.

Lemma keepNamedAs_ok o n resolved st :
  namedAs_ok st -> namedAs_ok (snd (keepNamedAs o n resolved st)).
Proof.
  intros Hall.
  destruct (recorded (fold_key o) (namedAs st)) as [e0|] eqn:Hrec.
  { by rewrite (keepNamedAs_hit _ _ _ _ _ Hrec). }
  destruct (relocated o n) eqn:Hrel.
  2:{ by rewrite (keepNamedAs_miss_in_place _ _ _ _ Hrec Hrel). }
  destruct Hall as [Hok Hinj]. split.
  - intros key e.
    destruct (keepNamedAs_recorded o n resolved st key Hrec Hrel) as [-> ->].
    destruct (decide (key = fold_key o)) as [->|Hne].
    + intros [= <-]. simpl. split; [|lia].
      unfold relocated in Hrel. apply negb_true_iff in Hrel.
      by apply String.eqb_neq in Hrel.
    + intros He. destruct (Hok key e He). split; [done|lia].
  - intros key key' e e'.
    destruct (keepNamedAs_recorded o n resolved st key Hrec Hrel) as [_ ->].
    destruct (keepNamedAs_recorded o n resolved st key' Hrec Hrel) as [_ ->].
    destruct (decide (key = fold_key o)) as [->|Hne];
      destruct (decide (key' = fold_key o)) as [->|Hne']; [done| | |by apply Hinj].
    + intros [= <-] He'. simpl. destruct (Hok key' e' He'). lia.
    + intros He [= <-]. simpl. destruct (Hok key e He). lia.
Qed.

Lemma save_next_fd keep name body outdir st :
  next_fd (save keep name body outdir st) = next_fd st.
Proof.
  unfold save. case_bool_decide; [reflexivity|].
  destruct (keep_all keep); [reflexivity|].
  destruct body; reflexivity.
Qed.

Lemma run_op_namedAs_ok op st : namedAs_ok st -> namedAs_ok (run_op st op).
Proof.
  intros Hok. destruct op as [options config file h k sharedPath
                               |o n resolved|keep name body outdir]; simpl.
  - rewrite renameFile_fold_input.
    destruct (fold_input _ _ _ _ _ _) as [[[o n] resolved]|]; [|done].
    pose proof (keepNamedAs_ok o n resolved st Hok) as Hk.
    destruct (keepNamedAs o n resolved st) as [[named|] st1]; simpl in *; [done|].
    eapply namedAs_ok_later; [| |exact Hk]; simpl; [done|lia].
  - by apply keepNamedAs_ok.
  - eapply namedAs_ok_later; [apply save_namedAs| |exact Hok].
    by rewrite save_next_fd.
Qed.

(** X4.  Over a whole build (any renamings, foldings and writes from the
    start), a mapping on record always renames: the relative path it gives
    differs from [path.join(dir, base)] of the key it is filed under.  Its
    handle is one the build has made, and two keys never share a handle. *)
Theorem namedAs_records_only_renamings ops d :
  let st := run_ops ops (initial d) in
  (forall key e, recorded key (namedAs st) = Some e ->
     named_as e <> path_join [snd key; fst key] /\
     (fd_id (named_fd e) < next_fd st)%nat) /\
  (forall key key' e e',
     recorded key (namedAs st) = Some e -> recorded key' (namedAs st) = Some e' ->
     fd_id (named_fd e) = fd_id (named_fd e') -> key = key').
Proof.
  intros st. subst st.
  assert (namedAs_ok (initial d)) as Hinit.
  { split; intros; discriminate. }
  revert Hinit. generalize (initial d) as st.
  induction ops as [|op ops IH]; intros st Hok; [exact Hok|].
  simpl. apply IH, run_op_namedAs_ok, Hok.
Qed.

End NamedFacts.

(** ** The ledger, the trace and the disk *)

Section LedgerExact.
Context `{Runtime}.

Lemma ledger_exact_initial d : ledger_exact d (initial d).
Proof.
  intros x. unfold writes_to. simpl. split; [lia|]. split; [|done].
  split; [by intros ?%elem_of_empty|discriminate].
Qed.

Lemma ledger_exact_frame d st st' :
  pathSaved st' = pathSaved st -> disk st' = disk st ->
  (forall x, writes_to x (trace st') = writes_to x (trace st)) ->
  ledger_exact d st -> ledger_exact d st'.
Proof. intros Hp Hd Ht Hok x. rewrite Hp, Hd, Ht. apply Hok. Qed.

Lemma ledger_exact_save d keep name body outdir st :
  ledger_exact d st -> ledger_exact d (save keep name body outdir st).
Proof.
  intros Hok. destruct (decide (name ∈ pathSaved st)) as [Hin|Hnot].
  { by rewrite save_noop. }
  destruct (save_fresh keep name body outdir st Hnot) as [body' ->].
  intros x. simpl. rewrite writes_to_app, writes_to_one.
  destruct (Hok x) as (Hle & Hiff & Hdisk).
  destruct (String.eqb_spec name x) as [<-|Hne].
  - assert (writes_to name (trace st) = 0%nat) as ->.
    { destruct (writes_to name (trace st)) as [|[|?]] eqn:E; [done| |lia].
      exfalso. by apply Hnot, Hiff. }
    assert (name ∈ {[name]} ∪ pathSaved st) as Hnow
      by (apply elem_of_union_l; by apply elem_of_singleton).
    split; [simpl; lia|]. split; [done|].
    intros Hx. by exfalso.
  - rewrite Nat.add_0_r. split; [exact Hle|]. split.
    + rewrite <- Hiff, elem_of_union, elem_of_singleton.
      split; [intros [->|Hx]; done|by right].
    + intros Hx. rewrite lookup_insert_ne by exact Hne.
      apply Hdisk. intros Hin. by apply Hx, elem_of_union_r.
Qed.

Lemma ledger_exact_emit d e st :
  (forall x, is_write_to x e = false) ->
  ledger_exact d st -> ledger_exact d (emit e st).
Proof.
  intros He. apply ledger_exact_frame; [done|done|].
  intros x. simpl. rewrite writes_to_app. unfold writes_to at 2. simpl.
  rewrite He. simpl. lia.
Qed.

Lemma run_op_ledger_exact d op st :
  ledger_exact d st -> ledger_exact d (run_op st op).
Proof.
  intros Hok. destruct op as [options config file h k sharedPath
                               |o n resolved|keep name body outdir]; simpl.
  - destruct (renameFile_frame options config file h k sharedPath st)
      as (Hp & Hd & Ht).
    eapply ledger_exact_frame; [exact Hp|exact Hd| |exact Hok].
    intros x. by rewrite Ht.
  - destruct (keepNamedAs_frame o n resolved st) as (Hp & Hd & Ht).
    eapply ledger_exact_frame; [exact Hp|exact Hd| |exact Hok].
    intros x. by rewrite Ht.
  - by apply ledger_exact_save.
Qed.

(** X5.  Over a whole build (any renamings, foldings and writes from the
    start), the ledger is the set of the paths that were written: a path
    is in it exactly when the trace writes it, once.  A path that is not
    in it holds on the disk what it held when the build started. *)
Theorem ledger_is_what_was_written ops d x :
  let st := run_ops ops (initial d) in
  (x ∈ pathSaved st <-> writes_to x (trace st) = 1%nat) /\
  (x ∉ pathSaved st -> disk st !! x = d !! x).
Proof.
  intros st. subst st.
  assert (ledger_exact d (run_ops ops (initial d))) as Hex.
  { pose proof (ledger_exact_initial d) as Hinit.
    revert Hinit. generalize (initial d) as st.
    induction ops as [|op ops IH]; intros st Hok; [exact Hok|].
    simpl. apply IH, run_op_ledger_exact, Hok. }
  destruct (Hex x) as (_ & Hiff & Hdisk). by split.
Qed.

End LedgerExact.

(** ** [setup]: the loop that names the outputs *)

Section ResolveFacts.
Context `{Runtime}.

Lemma resolve_output_frame options config buildExtensions commonPath acc e :
  let acc' := resolve_output options config buildExtensions commonPath acc e in
  pathSaved (snd acc') = pathSaved (snd acc) /\
  disk (snd acc') = disk (snd acc) /\
  trace (snd acc') = trace (snd acc) /\
  extends (namedAs (snd acc)) (namedAs (snd acc')) /\
  (next_fd (snd acc) <= next_fd (snd acc'))%nat /\
  (fst acc' = fst acc \/
   exists fd, fst acc' = fst acc ++ [(fd, output_details (fst e) (snd e))]).
Proof.
  destruct acc as [newFiles st]. unfold resolve_output.
  destruct (name_of (fst e)) as [fname|].
  2:{ simpl. repeat split; try done; [apply extends_refl|by left]. }
  destruct (Js.arr_includes _ _).
  - set (o := match originalPath (snd e) with
              | Some o => if Js.truthy o then Some o else None
              | None => None
              end).
    assert (exists named st1,
      match originalPath (snd e) with
      | Some o =>
          if Js.truthy o then
            keepNamedAs (path_parse (removeCommonPath o commonPath))
              (path_parse (removeCommonPath fname commonPath))
              (under_outdir config (removeCommonPath fname commonPath)) st
          else (None, st)
      | None => (None, st)
      end = (named, st1) /\
      pathSaved st1 = pathSaved st /\ disk st1 = disk st /\ trace st1 = trace st /\
      extends (namedAs st) (namedAs st1) /\ (next_fd st <= next_fd st1)%nat)
      as (named & st1 & -> & Hp & Hd & Ht & He & Hn).
    { clear o. destruct (originalPath (snd e)) as [o|].
      2:{ exists None, st. repeat split; try done. apply extends_refl. }
      destruct (Js.truthy o).
      2:{ exists None, st. repeat split; try done. apply extends_refl. }
      pose proof (keepNamedAs_frame (path_parse (removeCommonPath o commonPath))
              (path_parse (removeCommonPath fname commonPath))
              (under_outdir config (removeCommonPath fname commonPath)) st) as Hf.
      pose proof (keepNamedAs_extends (path_parse (removeCommonPath o commonPath))
              (path_parse (removeCommonPath fname commonPath))
              (under_outdir config (removeCommonPath fname commonPath)) st) as Hx.
      assert (next_fd st <= next_fd (snd (keepNamedAs
              (path_parse (removeCommonPath o commonPath))
              (path_parse (removeCommonPath fname commonPath))
              (under_outdir config (removeCommonPath fname commonPath)) st)))%nat
        as Hle.
      { unfold keepNamedAs. destruct (Dict.get _ _); [done|].
        destruct (negb _); simpl; lia. }
      destruct (keepNamedAs _ _ _ st) as [named st1]. simpl in *.
      exists named, st1. tauto. }
    clear o. destruct named as [n|]; simpl.
    + repeat split; try done. right. by eexists.
    + repeat split; try done; [lia|]. right. by eexists.
  - pose proof (renameFile_frame options config (fst e) (hash (snd e))
                  (kind (snd e)) commonPath st) as (Hp & Hd & Ht).
    pose proof (renameFile_extends options config (fst e) (hash (snd e))
                  (kind (snd e)) commonPath st) as Hx.
    assert (next_fd st <= next_fd (snd (renameFile options config (fst e)
              (hash (snd e)) (kind (snd e)) commonPath st)))%nat as Hle.
    { rewrite renameFile_fold_input.
      destruct (fold_input _ _ _ _ _ _) as [[[o n] resolved]|]; [|done].
      unfold keepNamedAs. destruct (Dict.get _ _); [done|].
      destruct (negb _); simpl; lia. }
    destruct (renameFile _ _ _ _ _ _ st) as [newFile st1]. simpl in *.
    destruct (name_of newFile) as [newName|]; simpl.
    + repeat split; try done; [lia|]. right. by eexists.
    + repeat split; try done. by left.
Qed.

Lemma resolve_outputs_from options config buildExtensions commonPath files acc :
  let acc' := fold_left (resolve_output options config buildExtensions commonPath)
                        files acc in
  pathSaved (snd acc') = pathSaved (snd acc) /\
  disk (snd acc') = disk (snd acc) /\
  trace (snd acc') = trace (snd acc) /\
  extends (namedAs (snd acc)) (namedAs (snd acc')) /\
  (next_fd (snd acc) <= next_fd (snd acc'))%nat /\
  exists added,
    map snd (fst acc') = map snd (fst acc) ++ added /\
    sublist added (map (fun e => output_details (fst e) (snd e)) files).
Proof.
  revert acc. induction files as [|e files IH]; intros acc; simpl.
  { repeat split; try done; [apply extends_refl|].
    exists []. by rewrite app_nil_r. }
  destruct (resolve_output_frame options config buildExtensions commonPath acc e)
    as (Hp & Hd & Ht & Hx & Hn & Hfst).
  destruct (IH (resolve_output options config buildExtensions commonPath acc e))
    as (Hp' & Hd' & Ht' & Hx' & Hn' & added & Hmap & Hsub).
  rewrite Hp', Hd', Ht', Hp, Hd, Ht.
  repeat split; try done; [by eapply extends_trans|lia|].
  rewrite Hmap. destruct Hfst as [->|[fd ->]].
  - exists added. split; [done|]. by apply sublist_cons.
  - exists (output_details (fst e) (snd e) :: added).
    rewrite map_app. simpl. rewrite <- app_assoc. split; [done|].
    by apply sublist_skip.
Qed.

(** X6.  The loop of [setup] that names the outputs writes nothing: the
    ledger, the disk and the trace are as before it, and it only adds to
    the mappings on record.  The outputs it lists are, in the order of the
    graph, entries of the graph with their details, in which the content
    is filled in ([details.content ?? file]); it lists none that the graph
    does not hold. *)
Theorem resolve_outputs_only_names options config buildExtensions files st :
  let newFiles := fst (resolve_outputs options config buildExtensions files st) in
  let st' := snd (resolve_outputs options config buildExtensions files st) in
  pathSaved st' = pathSaved st /\ disk st' = disk st /\ trace st' = trace st /\
  extends (namedAs st) (namedAs st') /\
  sublist (map snd newFiles)
          (map (fun e => output_details (fst e) (snd e)) files) /\
  Forall (fun e => is_Some (content (snd e))) newFiles.
Proof.
  intros newFiles st'. subst newFiles st'. unfold resolve_outputs.
  destruct (resolve_outputs_from options config buildExtensions
              (findLastCommonPath (mapIntoKeys files)) files ([], st))
    as (Hp & Hd & Ht & Hx & _ & added & Hmap & Hsub).
  simpl in *. repeat split; try done.
  - by rewrite Hmap.
  - apply Forall_forall. intros e He.
    assert (snd e ∈ added) as Hin.
    { rewrite <- Hmap. apply list_elem_of_fmap. by exists e. }
    apply (sublist_subseteq _ _ Hsub) in Hin.
    apply list_elem_of_fmap in Hin as (e0 & -> & _). simpl. eauto.
Qed.

End ResolveFacts.

(** ** From [processHtmlFiles] to the last write *)

Section FinishFacts.
Context `{Runtime}.

Lemma write_asset_exact d options config acc e :
  ledger_exact d (snd acc) ->
  ledger_exact d (snd (write_asset options config acc e)).
Proof.
  destruct acc as [rules st]. unfold write_asset. simpl. intros Hok.
  destruct (name_of (fst e)) as [name|]; [|done].
  destruct (content (snd e)) as [body|]; [|done].
  destruct (negb (body_truthy body)); [done|].
  destruct (already_there _ _ _); [done|].
  destruct (attribute (snd e)); simpl; by apply ledger_exact_save.
Qed.

Lemma write_entry_exact d options config rules st e :
  ledger_exact d st -> ledger_exact d (write_entry options config rules st e).
Proof.
  intros Hok. unfold write_entry.
  assert (ledger_exact d (emit (EvTransform (default "" (fd_name (fst e))) rules) st))
    as Hemit by (by apply ledger_exact_emit).
  destruct (name_of (fst e)) as [name|]; [|done].
  destruct (already_there _ _ _); [done|].
  by apply ledger_exact_save.
Qed.

Lemma write_outputs_exact d options config rules newFiles st :
  ledger_exact d st ->
  ledger_exact d (write_outputs options config rules newFiles st).
Proof.
  intros Hok. unfold write_outputs.
  assert (forall l acc, ledger_exact d (snd acc) ->
            ledger_exact d (snd (fold_left (write_asset options config) l acc)))
    as Hassets.
  { induction l as [|e l IH]; intros acc Hacc; [done|].
    simpl. by apply IH, write_asset_exact. }
  specialize (Hassets (List.filter not_entry newFiles) (rules, st) Hok).
  destruct (fold_left (write_asset options config) _ (rules, st)) as [rules1 st1].
  simpl in Hassets. revert st1 Hassets.
  induction (List.filter is_entry newFiles) as [|e l IH]; intros st1 H1; [done|].
  simpl. by apply IH, write_entry_exact.
Qed.

(** X7.  The end of [setup], from [processHtmlFiles] to the last write,
    keeps the ledger exact.  If on entry the ledger holds the paths the
    trace writes, each written once, and the disk holds for all other
    paths what it held at the start, then the same is true on exit: no
    path is written twice, every write is on record, and a path that is
    not on record is untouched on the disk. *)
Theorem finish_keeps_the_ledger_exact options config files d st :
  ledger_exact d st -> ledger_exact d (finish options config files st).
Proof.
  intros Hok. unfold finish.
  destruct (processHtmlFiles options (buildExtensions_of options) st files)
    as [files1 rules].
  pose proof (resolve_outputs_from options config (buildExtensions_of options)
                (findLastCommonPath (mapIntoKeys files1)) files1 ([], st))
    as (Hp & Hd & Ht & _).
  unfold resolve_outputs.
  destruct (fold_left _ files1 ([], st)) as [newFiles st1]. simpl in *.
  apply write_outputs_exact.
  eapply ledger_exact_frame; [exact Hp|exact Hd| |exact Hok].
  intros x. by rewrite Ht.
Qed.

End FinishFacts.

(** The small build, from a start where nothing is written yet: the
    page's output path is written once. *)
Lemma finish_keeps_the_ledger_exact_witness :
  ledger_exact ExBuild.sources
    (@finish Ex.rt None ExBuild.hashed ExBuild.graph (initial ExBuild.sources)).
Proof.
  apply (@finish_keeps_the_ledger_exact Ex.rt None ExBuild.hashed ExBuild.graph
           ExBuild.sources (initial ExBuild.sources)).
  intros x. unfold writes_to. simpl. split; [lia|]. split; [|done].
  split; [by intros ?%elem_of_empty|discriminate].
Defined.

(** ** The resolver and the patch of the imports *)

Section ResolverFacts.
Context `{Runtime} `{Toolchain}.

(** X8.  A call of the resolver always returns.  It queues an import for
    the patch exactly when it answers it as external: either the queue is
    as before and the answer is not external, or [splitting] is on, the
    answer is external, the state is as before, and the queue has one more
    entry at its end, with the importer, the specifier and the resolved
    path of the answer. *)
Theorem onResolve_queues_what_it_marks_external
    options config tempDirPath pathToResolveFrom requiresTempDir args q st :
  exists answer q' st',
    onResolve options config tempDirPath pathToResolveFrom requiresTempDir args q st
    = Returned (answer, q', st') /\
    ((q' = q /\ forall r, answer <> Some (mkResolved r (Some true))) \/
     (exists r, answer = Some (mkResolved r (Some true)) /\
                q' = q ++ [mkToReplace (args_importer args) (args_path args) r] /\
                st' = st /\ cfg_splitting config = true)).
Proof.
  unfold onResolve, resolve_try.
  destruct (isURL (args_path args)).
  { do 3 eexists. split; [reflexivity|]. left. split; [done|]. intros r. discriminate. }
  destruct (exists_on_disk _ st).
  { destruct (Bun_resolveSync _ _); simpl;
      (do 3 eexists; split; [reflexivity|]; left; split; [done|];
       intros r; discriminate). }
  destruct (_ || exists_on_disk _ st).
  { destruct (Bun_resolveSync _ _); simpl;
      (do 3 eexists; split; [reflexivity|]; left; split; [done|];
       intros r; discriminate). }
  match goal with
  | |- context [bind ?o _] => destruct o as [resolved|error]
  end; simpl.
  2:{ do 3 eexists. split; [reflexivity|]. left. split; [done|]. intros r. discriminate. }
  destruct (cfg_splitting config) eqn:Hs; simpl.
  - do 3 eexists. split; [reflexivity|]. right. by exists resolved.
  - do 3 eexists. split; [reflexivity|]. left. split; [done|]. intros r. discriminate.
Qed.

Lemma resolve_try_without_splitting
    config tempDirPath pathToResolveFrom requiresTempDir args st answer pushed :
  cfg_splitting config = false ->
  resolve_try config tempDirPath pathToResolveFrom requiresTempDir args st
  = Returned (answer, pushed) ->
  pushed = None.
Proof.
  intros Hs. unfold resolve_try. rewrite Hs.
  destruct (isURL (args_path args)); [by intros [= _ <-]|].
  destruct (exists_on_disk _ st).
  { destruct (Bun_resolveSync _ _); simpl; [by intros [= _ <-]|discriminate]. }
  destruct (_ || exists_on_disk _ st).
  { destruct (Bun_resolveSync _ _); simpl; [by intros [= _ <-]|discriminate]. }
  match goal with
  | |- context [bind ?o _] => destruct o as [resolved|error]
  end; simpl; [by intros [= _ <-]|discriminate].
Qed.

Lemma onResolve_all_without_splitting
    options config tempDirPath pathToResolveFrom requiresTempDir calls q st :
  cfg_splitting config = false ->
  fst (onResolve_all options config tempDirPath pathToResolveFrom requiresTempDir
         calls q st) = q.
Proof.
  intros Hs. revert q st. induction calls as [|args calls IH]; intros q st; [done|].
  cbn [onResolve_all]. unfold onResolve.
  destruct (resolve_try config tempDirPath pathToResolveFrom requiresTempDir args st)
    as [[answer pushed]|error] eqn:Htry; [|apply IH].
  rewrite (resolve_try_without_splitting _ _ _ _ _ _ _ _ Hs Htry). apply IH.
Qed.

End ResolverFacts.

Section PatchFacts.
Context `{Runtime}.

Lemma patch_entry_cases outputs q st e :
  let e' := patch_entry outputs q st e in
  fst e' = fst e /\
  attribute (snd e') = attribute (snd e) /\
  kind (snd e') = kind (snd e) /\
  hash (snd e') = hash (snd e) /\
  originalPath (snd e') = originalPath (snd e) /\
  htmlImporter (snd e') = htmlImporter (snd e) /\
  (e' = e \/
   exists t output fromOutput,
     t ∈ q /\
     Dict.get (tr_resolved t) outputs = Some output /\
     Dict.get (tr_from t) outputs = Some fromOutput /\
     fd_name (fst e) = Some fromOutput /\
     content (snd e')
     = Some (BText (patch_text (tr_path t)
                      (path_relative (p_dir (path_parse fromOutput)) output)
                      (contentToString (content (snd e)) st)))).
Proof.
  unfold patch_entry, find_toReplace.
  destruct (List.find _ q) as [t|] eqn:Hfind; [|simpl; repeat split; by left].
  apply find_some in Hfind as [Hin Hname].
  apply bool_decide_eq_true in Hname.
  unfold given.
  destruct (Dict.get (tr_resolved t) outputs) as [output|] eqn:Ho;
    [|simpl; repeat split; by left].
  destruct (Js.truthy output); [|simpl; repeat split; by left].
  destruct (Dict.get (tr_from t) outputs) as [fromOutput|] eqn:Hf;
    [|simpl; repeat split; by left].
  destruct (Js.truthy fromOutput); [|simpl; repeat split; by left].
  simpl. repeat split. right. exists t, output, fromOutput.
  repeat split; try done. by apply list_elem_of_In.
Qed.

(** X9.  The last loop of [forJsFiles] changes nothing but contents.  Every
    entry of the graph keeps its place, its handle, attribute, kind, hash,
    original path and importer.  An entry whose content changes is named
    after the output recorded for the importer of a queued import whose
    target has an output on record too; its new content is its text in
    which the specifier of that import points at the target's output,
    relative to the directory of its own. *)
Theorem patch_imports_changes_only_contents outputs q st files :
  Forall2 (fun e e' =>
     fst e' = fst e /\
     attribute (snd e') = attribute (snd e) /\
     kind (snd e') = kind (snd e) /\
     hash (snd e') = hash (snd e) /\
     originalPath (snd e') = originalPath (snd e) /\
     htmlImporter (snd e') = htmlImporter (snd e) /\
     (e' = e \/
      exists t output fromOutput,
        t ∈ q /\
        Dict.get (tr_resolved t) outputs = Some output /\
        Dict.get (tr_from t) outputs = Some fromOutput /\
        fd_name (fst e) = Some fromOutput /\
        content (snd e')
        = Some (BText (patch_text (tr_path t)
                         (path_relative (p_dir (path_parse fromOutput)) output)
                         (contentToString (content (snd e)) st)))))
    files (patch_imports outputs q st files).
Proof.
  unfold patch_imports. induction files as [|e files IH]; simpl; constructor.
  - apply patch_entry_cases.
  - exact IH.
Qed.

(** X10.  Without [splitting], the resolver queues nothing, however many
    imports the bundler asks it to resolve, and the last loop of
    [forJsFiles] then leaves the graph as it is. *)
Theorem without_splitting_no_import_is_patched
    options config tempDirPath pathToResolveFrom requiresTempDir calls st
    outputs st' files
    (Hoff : cfg_splitting config = false) :
  fst (onResolve_all options config tempDirPath pathToResolveFrom requiresTempDir
         calls [] st) = [] /\
  patch_imports outputs
    (fst (onResolve_all options config tempDirPath pathToResolveFrom
            requiresTempDir calls [] st))
    st' files
  = files.
Proof.
  rewrite (onResolve_all_without_splitting _ _ _ _ _ _ _ _ Hoff).
  split; [done|]. unfold patch_imports, patch_entry, find_toReplace. simpl.
  apply map_id.
Qed.

End PatchFacts.

(** ** [forJsFiles]: the outputs of the bundler join the graph *)

Section FoldBackFacts.
Context `{Runtime}.

Lemma fold_output_step commonPath tempDirPath source acc o :
  let acc' := fold_output commonPath tempDirPath source acc o in
  pathSaved (fo_state acc') = pathSaved (fo_state acc) /\
  disk (fo_state acc') = disk (fo_state acc) /\
  trace (fo_state acc') = trace (fo_state acc) /\
  namedAs (fo_state acc') = namedAs (fo_state acc) /\
  (acc' = acc \/
   exists d,
     fo_files acc'
     = fo_files acc ++ [(mkFile (next_fd (fo_state acc))
                                (Some (output_filePath commonPath tempDirPath o)), d)] /\
     next_fd (fo_state acc') = S (next_fd (fo_state acc)) /\
     content d = Some (BText (out_text o)) /\
     hash d = output_hash o /\
     htmlImporter d = htmlImporter (snd source) /\
     ((Kind_eqb (out_kind o) EntryPoint || String.eqb (out_loader o) "css" = false /\
       fo_outputs acc' = fo_outputs acc /\
       attribute d = None /\ kind d = out_kind o /\ originalPath d = None) \/
      (exists name,
         name_of (fst source) = Some name /\
         fo_outputs acc'
         = Dict.set name (output_filePath commonPath tempDirPath o) (fo_outputs acc) /\
         attribute d = attribute (snd source) /\ kind d = kind (snd source) /\
         originalPath d = originalPath (snd source)))).
Proof.
  unfold fold_output.
  destruct (Kind_eqb (out_kind o) EntryPoint || String.eqb (out_loader o) "css")
    eqn:Hk.
  - destruct (name_of (fst source)) as [name|] eqn:Hn.
    2:{ destruct acc. simpl. repeat split; by left. }
    simpl. repeat split. right. eexists. split; [reflexivity|].
    repeat split. right. by exists name.
  - simpl. repeat split. right. eexists. split; [reflexivity|].
    repeat split. by left.
Qed.

Lemma NoDup_snoc_fresh (l : list nat) n :
  NoDup l -> Forall (fun i => (i < n)%nat) l -> NoDup (l ++ [n]).
Proof.
  intros Hnd Hlt. apply NoDup_app. split; [done|]. split.
  - intros i Hi ->%list_elem_of_singleton.
    rewrite Forall_forall in Hlt. specialize (Hlt _ Hi). lia.
  - apply NoDup_singleton.
Qed.

(** What the loop over the outputs of a build keeps true of the graph and
    of [entrypointToOutput]. *)
Lemma fold_outputs_keep commonPath tempDirPath source outputs acc :
  distinct_handles (fo_files acc) ->
  Forall (fun e => (fd_id (fst e) < next_fd (fo_state acc))%nat) (fo_files acc) ->
  (forall k v, Dict.get k (fo_outputs acc) = Some v ->
     exists e, e ∈ fo_files acc /\ fd_name (fst e) = Some v) ->
  let acc' := fold_left (fold_output commonPath tempDirPath source) outputs acc in
  distinct_handles (fo_files acc') /\
  Forall (fun e => (fd_id (fst e) < next_fd (fo_state acc'))%nat) (fo_files acc') /\
  (forall k v, Dict.get k (fo_outputs acc') = Some v ->
     exists e, e ∈ fo_files acc' /\ fd_name (fst e) = Some v) /\
  fo_files acc `prefix_of` fo_files acc' /\
  pathSaved (fo_state acc') = pathSaved (fo_state acc) /\
  disk (fo_state acc') = disk (fo_state acc) /\
  trace (fo_state acc') = trace (fo_state acc) /\
  namedAs (fo_state acc') = namedAs (fo_state acc).
Proof.
  revert acc. induction outputs as [|o outputs IH]; intros acc Hnd Hlt Hout.
  { simpl. repeat split; done. }
  cbn [fold_left].
  destruct (fold_output_step commonPath tempDirPath source acc o)
    as (Hp & Hd & Ht & Hn & Hstep).
  set (acc1 := fold_output commonPath tempDirPath source acc o) in *.
  assert (distinct_handles (fo_files acc1) /\
          Forall (fun e => (fd_id (fst e) < next_fd (fo_state acc1))%nat)
                 (fo_files acc1) /\
          (forall k v, Dict.get k (fo_outputs acc1) = Some v ->
             exists e, e ∈ fo_files acc1 /\ fd_name (fst e) = Some v) /\
          fo_files acc `prefix_of` fo_files acc1) as (Hnd1 & Hlt1 & Hout1 & Hpre1).
  { destruct Hstep as [->|(d & Hfiles & Hnext & _ & _ & _ & Hkind)]; [done|].
    rewrite Hfiles, Hnext. split; [|split; [|split]].
    - unfold distinct_handles. rewrite map_app. simpl.
      apply NoDup_snoc_fresh; [exact Hnd|].
      apply Forall_fmap. exact Hlt.
    - apply Forall_app. split.
      + eapply Forall_impl; [exact Hlt|]. simpl. intros; lia.
      + constructor; [simpl; lia|constructor].
    - intros k v Hget.
      assert (Dict.get k (fo_outputs acc) = Some v \/
              v = output_filePath commonPath tempDirPath o) as [Hold| ->].
      { destruct Hkind as [(_ & Ho & _)|(name & _ & Ho & _)]; rewrite Ho in Hget.
        - by left.
        - destruct (String.eqb_spec name k) as [<-|Hne].
          + rewrite Dict_get_set_eq in Hget. right. congruence.
          + rewrite Dict_get_set_ne in Hget by exact Hne. by left. }
      * destruct (Hout k v Hold) as (e & He & Hname).
        exists e. split; [|done]. apply elem_of_app. by left.
      * eexists. split; [apply elem_of_app; right; apply list_elem_of_here|done].
    - by apply prefix_app_r. }
  destruct (IH acc1 Hnd1 Hlt1 Hout1) as (Ha & Hb & Hc & Hd' & He & Hf & Hg & Hh).
  repeat split; try done.
  - by etrans.
  - by rewrite He.
  - by rewrite Hf.
  - by rewrite Hg.
  - by rewrite Hh.
Qed.

(** X11.  Folding the outputs of the builds back into the graph keeps it a
    map with distinct handles, made before now, and keeps every output
    path on record in [entrypointToOutput] the name of an entry of the
    graph.  The entries that were there stay, in their places, before the
    new ones; nothing is written, and neither the ledger nor the mappings
    on record change. *)
Theorem fold_build_keeps_the_graph_a_map
    options commonPath tempDirPath builds acc
    (Hdistinct : distinct_handles (fo_files acc))
    (Hbelow : Forall (fun e => (fd_id (fst e) < next_fd (fo_state acc))%nat)
                     (fo_files acc))
    (Hnamed : forall k v, Dict.get k (fo_outputs acc) = Some v ->
                exists e, e ∈ fo_files acc /\ fd_name (fst e) = Some v) :
  let acc' := fold_left (fold_build options commonPath tempDirPath) builds acc in
  distinct_handles (fo_files acc') /\
  Forall (fun e => (fd_id (fst e) < next_fd (fo_state acc'))%nat) (fo_files acc') /\
  (forall k v, Dict.get k (fo_outputs acc') = Some v ->
     exists e, e ∈ fo_files acc' /\ fd_name (fst e) = Some v) /\
  fo_files acc `prefix_of` fo_files acc' /\
  pathSaved (fo_state acc') = pathSaved (fo_state acc) /\
  disk (fo_state acc') = disk (fo_state acc) /\
  writes_of (trace (fo_state acc')) = writes_of (trace (fo_state acc)) /\
  namedAs (fo_state acc') = namedAs (fo_state acc).
Proof.
  revert acc Hdistinct Hbelow Hnamed.
  induction builds as [|[source [[success logs] outputs]] builds IH];
    intros acc Hnd Hlt Hout.
  { simpl. repeat split; done. }
  set (acc0 := mkFolded (fo_files acc) (fo_outputs acc)
                        (report_build options success logs (fo_state acc))).
  change (fold_left (fold_build options commonPath tempDirPath)
            ((source, (success, logs, outputs)) :: builds) acc)
    with (fold_left (fold_build options commonPath tempDirPath) builds
            (fold_left (fold_output commonPath tempDirPath source) outputs acc0)).
  cbv zeta.
  assert (pathSaved (fo_state acc0) = pathSaved (fo_state acc) /\
          disk (fo_state acc0) = disk (fo_state acc) /\
          writes_of (trace (fo_state acc0)) = writes_of (trace (fo_state acc)) /\
          namedAs (fo_state acc0) = namedAs (fo_state acc) /\
          next_fd (fo_state acc0) = next_fd (fo_state acc))
    as (Hp0 & Hd0 & Ht0 & Hn0 & Hf0).
  { subst acc0. simpl. unfold report_build.
    destruct (negb success && errors_shown options); [|done].
    simpl. repeat split. rewrite writes_of_app. simpl. by rewrite app_nil_r. }
  destruct (fold_outputs_keep commonPath tempDirPath source outputs acc0)
    as (Ha & Hb & Hc & Hd & He & Hf & Hg & Hh).
  { exact Hnd. }
  { eapply Forall_impl; [exact Hlt|].
    intros e He0. cbv beta in *. rewrite Hf0. exact He0. }
  { exact Hout. }
  set (acc1 := fold_left (fold_output commonPath tempDirPath source) outputs acc0)
    in *.
  destruct (IH acc1 Ha Hb Hc) as (Ha' & Hb' & Hc' & Hd' & He' & Hf' & Hg' & Hh').
  repeat split; try done; try congruence.
  etrans; [|exact Hd']. exact Hd.
Qed.

End FoldBackFacts.

(** ** The graph as a map *)

Section GraphFacts.
Context `{Runtime}.

Lemma getExtensionFiles_filter files extensions :
  getExtensionFiles files extensions = List.filter (has_extension extensions) files.
Proof.
  unfold getExtensionFiles, has_extension.
  unfold Graph, File in *.
  induction files as [|e files IH]; [reflexivity|].
  rewrite filter_cons. simpl.
  destruct (match name_of (fst e) with
            | Some n => Js.arr_includes (p_ext (path_parse n)) extensions
            | None => false
            end) eqn:E.
  - rewrite decide_True by done. by rewrite IH.
  - rewrite decide_False by (by intros ?). exact IH.
Qed.

Lemma filter_ext_in {A} (p q : A -> bool) (l : list A) :
  (forall x, x ∈ l -> p x = q x) -> List.filter p l = List.filter q l.
Proof.
  induction l as [|x l IH]; intros Hpq; [reflexivity|]. simpl.
  rewrite (Hpq x) by apply list_elem_of_here.
  rewrite IH; [done|]. intros y Hy. apply Hpq. by apply list_elem_of_further.
Qed.

Lemma filter_twice {A} (p q : A -> bool) (l : list A) :
  List.filter p (List.filter q l) = List.filter (fun x => q x && p x) l.
Proof.
  induction l as [|x l IH]; [done|]. simpl.
  destruct (q x); simpl; [destruct (p x)|]; by rewrite IH.
Qed.

Lemma graph_delete_all (items : list File) (g : Graph) :
  fold_left (fun g item => graph_delete (fst item) g) items g
  = List.filter (fun e => negb (existsb (fun item => G.same (fst item) (fst e)) items)) g.
Proof.
  revert g. induction items as [|item items IH]; intros g; simpl.
  - induction g as [|e g IHg]; [reflexivity|]. simpl. by rewrite <- IHg.
  - rewrite IH. unfold graph_delete. rewrite filter_twice.
    apply filter_ext_in. intros e _. by rewrite negb_orb.
Qed.

Lemma same_sym f g : G.same f g = G.same g f.
Proof. unfold G.same. apply Nat.eqb_sym. Qed.

(** In a graph with distinct handles, a handle is one of the files that
    pass a test exactly when its entry passes it. *)
Lemma existsb_same_filter (p : File -> bool) (files : Graph) e :
  distinct_handles files -> e ∈ files ->
  existsb (fun item => G.same (fst item) (fst e)) (List.filter p files) = p e.
Proof.
  intros Hnd Hin. destruct (p e) eqn:Hp.
  - apply existsb_exists. exists e. split.
    + apply filter_In. split; [by apply list_elem_of_In|done].
    + unfold G.same. apply Nat.eqb_refl.
  - destruct (existsb _ _) eqn:Hex; [|done].
    apply existsb_exists in Hex as (item & Hitem & Hsame).
    apply filter_In in Hitem as [Hitem Hpi].
    apply list_elem_of_In in Hitem.
    rewrite (distinct_same files item e Hnd Hitem Hin Hsame) in Hpi. congruence.
Qed.

(** Deleting the files of some extensions, one by one, from a graph with
    distinct handles leaves the other entries, in their order. *)
Lemma delete_extension_files files extensions :
  distinct_handles files ->
  fold_left (fun g item => graph_delete (fst item) g)
            (getExtensionFiles files extensions) files
  = List.filter (fun e => negb (has_extension extensions e)) files.
Proof.
  intros Hnd. rewrite graph_delete_all, getExtensionFiles_filter.
  apply filter_ext_in. intros e He. f_equal.
  by apply existsb_same_filter.
Qed.

Lemma distinct_handles_filter (p : File -> bool) files :
  distinct_handles files -> distinct_handles (List.filter p files).
Proof.
  unfold distinct_handles. induction files as [|e files IH]; [done|].
  simpl. intros Hnd. apply NoDup_cons in Hnd as [Hnot Hnd].
  destruct (p e); [|by apply IH]. simpl. apply NoDup_cons. split; [|by apply IH].
  intros Hin. apply Hnot.
  apply list_elem_of_fmap in Hin as (x & -> & Hx).
  apply list_elem_of_fmap. exists x. split; [done|].
  apply list_elem_of_In. apply list_elem_of_In, filter_In in Hx. tauto.
Qed.

Lemma filter_split {A} (p : A -> bool) (l : list A) :
  List.filter p l ++ List.filter (fun x => negb (p x)) l ≡ₚ l.
Proof.
  induction l as [|x l IH]; [done|]. simpl. destruct (p x); simpl.
  - by rewrite IH.
  - rewrite <- Permutation_middle. by rewrite IH.
Qed.

Lemma filter_none {A} (p : A -> bool) (l : list A) :
  List.filter p (List.filter (fun x => negb (p x)) l) = [].
Proof.
  induction l as [|x l IH]; [done|]. simpl.
  destruct (p x) eqn:Hp; simpl; [done|]. by rewrite Hp.
Qed.

End GraphFacts.

(** ** The style bridge *)

Section StyleFacts.
Context `{Runtime} `{Toolchain}.

Lemma same_but_trace_refl st : same_but_trace st st.
Proof. by repeat split. Qed.

Lemma same_but_trace_trans st1 st2 st3 :
  same_but_trace st1 st2 -> same_but_trace st2 st3 -> same_but_trace st1 st3.
Proof.
  intros (A1 & B1 & C1 & D1 & E1) (A2 & B2 & C2 & D2 & E2).
  repeat split; congruence.
Qed.

Lemma emit_all_state es st :
  emit_all es st
  = mkState (namedAs st) (pathSaved st) (disk st) (next_fd st) (trace st ++ es).
Proof.
  revert st. induction es as [|e es IH]; intros st.
  - destruct st. simpl. by rewrite app_nil_r.
  - unfold emit_all in *. simpl. rewrite IH. simpl. by rewrite <- app_assoc.
Qed.

Lemma emit_all_quiet es st :
  writes_of es = [] -> same_but_trace st (emit_all es st).
Proof.
  intros Hq. rewrite emit_all_state. repeat split. simpl.
  by rewrite writes_of_app, Hq, app_nil_r.
Qed.

Lemma writes_of_warnings l : writes_of (map EvWarn l) = [].
Proof. by induction l. Qed.

Lemma writes_of_errors l : writes_of (map EvError l) = [].
Proof. by induction l. Qed.

Lemma getCSSMinifier_quiet config options text st :
  same_but_trace st (snd (getCSSMinifier config options text st)).
Proof.
  unfold getCSSMinifier.
  destruct (cfg_minify config && _); [|apply same_but_trace_refl].
  assert (forall o, same_but_trace st
            (snd (let output := cleancss_minify o text in
                  let st1 := emit_all (map EvWarn (warnings output)) st in
                  if (0 <? length (errors output))%nat
                  then (text, emit_all (map EvError (errors output)) st1)
                  else (styles output, st1)))) as Hclean.
  { intros o. simpl.
    pose proof (emit_all_quiet (map EvWarn (warnings (cleancss_minify o text))) st
                  (writes_of_warnings _)) as Hw.
    destruct (0 <? _)%nat; simpl; [|exact Hw].
    eapply same_but_trace_trans; [exact Hw|].
    apply emit_all_quiet, writes_of_errors. }
  destruct (minifyCSS options); try apply Hclean.
  apply same_but_trace_refl.
Qed.

Lemma compile_style_quiet config htmlOptions item st :
  same_but_trace st (snd (compile_style config htmlOptions item st)).
Proof.
  unfold compile_style. destruct (is_sass_source _).
  - apply same_but_trace_refl.
  - apply getCSSMinifier_quiet.
Qed.

Lemma graph_set_fresh f d (done : Graph) e rest :
  (forall x, x ∈ done -> G.same f (fst x) = false) ->
  G.same f (fst e) = true ->
  graph_set f d (done ++ e :: rest) = done ++ (fst e, d) :: rest.
Proof.
  intros Hfresh Hsame. induction done as [|x done IH]; simpl.
  - by rewrite Hsame.
  - rewrite (Hfresh x) by apply list_elem_of_here.
    rewrite IH; [done|]. intros y Hy. apply Hfresh. by apply list_elem_of_further.
Qed.

Lemma same_refl f : G.same f f = true.
Proof. unfold G.same. apply Nat.eqb_refl. Qed.

(** The loop of [forStyleFiles], when it compiles in place: what is behind
    the entry it is at stays, what is ahead is compiled if it is a style. *)
Lemma style_fold_in_place config htmlOptions st0 :
  cfg_experimentalCss config = false ->
  forall todo done st,
    same_but_trace st0 st ->
    (forall e x, e ∈ todo -> x ∈ done -> G.same (fst e) (fst x) = false) ->
    distinct_handles todo ->
    exists todo' st',
      fold_left (style_step config htmlOptions)
                (List.filter (has_extension style_extensions) todo)
                (done ++ todo, st)
      = (done ++ todo', st') /\
      same_but_trace st0 st' /\
      Forall2 (fun e e' =>
         fst e' = fst e /\
         if has_extension style_extensions e
         then exists st_i, same_but_trace st0 st_i /\
                let c := fst (compile_style config htmlOptions e st_i) in
                snd e' = mkDetails (Some (BText c)) (attribute (snd e))
                                   (kind (snd e)) (Bun_hash c)
                                   (originalPath (snd e)) (htmlImporter (snd e))
         else e' = e) todo todo'.
Proof.
  intros Hoff. induction todo as [|e todo IH]; intros done st Hst Hfresh Hnd.
  { exists [], st. simpl. split; [done|]. split; [exact Hst|constructor]. }
  apply NoDup_cons in Hnd as [Hnot Hnd].
  assert (forall e2, e2 ∈ todo -> G.same (fst e2) (fst e) = false) as Hahead.
  { intros e2 He2. unfold G.same. apply Nat.eqb_neq. intros Heq.
    apply Hnot. rewrite <- Heq. apply list_elem_of_fmap. by exists e2. }
  cbn [List.filter]. destruct (has_extension style_extensions e) eqn:Hext.
  - cbn [fold_left]. unfold style_step at 2.
    pose proof (compile_style_quiet config htmlOptions e st) as Hq.
    destruct (compile_style config htmlOptions e st) as [c st1] eqn:Hc.
    rewrite Hoff. cbn [negb].
    rewrite graph_set_fresh; [|intros x Hx; apply Hfresh; [apply list_elem_of_here|done]
                              |apply same_refl].
    set (d := mkDetails (Some (BText c)) (attribute (snd e)) (kind (snd e))
                        (Bun_hash c) (originalPath (snd e)) (htmlImporter (snd e))).
    destruct (IH (done ++ [(fst e, d)]) st1) as (todo' & st' & Hfold & Hst' & Hall).
    { eapply same_but_trace_trans; [exact Hst|exact Hq]. }
    { intros e2 x He2 Hx. apply elem_of_app in Hx as [Hx|Hx].
      - apply Hfresh; [by apply list_elem_of_further|done].
      - apply list_elem_of_singleton in Hx as ->. simpl. by apply Hahead. }
    { exact Hnd. }
    rewrite <- !app_assoc in Hfold. simpl in Hfold.
    exists ((fst e, d) :: todo'), st'. split; [exact Hfold|]. split; [exact Hst'|].
    constructor; [|exact Hall]. split; [done|]. rewrite Hext.
    exists st. split; [exact Hst|]. simpl. by rewrite Hc.
  - destruct (IH (done ++ [e]) st) as (todo' & st' & Hfold & Hst' & Hall).
    { exact Hst. }
    { intros e2 x He2 Hx. apply elem_of_app in Hx as [Hx|Hx].
      - apply Hfresh; [by apply list_elem_of_further|done].
      - apply list_elem_of_singleton in Hx as ->. by apply Hahead. }
    { exact Hnd. }
    rewrite <- !app_assoc in Hfold. simpl in Hfold.
    exists (e :: todo'), st'. split; [exact Hfold|]. split; [exact Hst'|].
    constructor; [|exact Hall]. split; [done|]. by rewrite Hext.
Qed.

(** The loop of [forStyleFiles], when the bundler compiles the styles: the
    entries leave the graph one by one. *)
Lemma style_fold_delete config htmlOptions items :
  cfg_experimentalCss config = true ->
  forall g st,
    fst (fold_left (style_step config htmlOptions) items (g, st))
    = fold_left (fun g item => graph_delete (fst item) g) items g /\
    same_but_trace st (snd (fold_left (style_step config htmlOptions) items (g, st))).
Proof.
  intros Hon. induction items as [|item items IH]; intros g st.
  { split; [done|apply same_but_trace_refl]. }
  cbn [fold_left]. unfold style_step at 2 4.
  pose proof (compile_style_quiet config htmlOptions item st) as Hq.
  destruct (compile_style config htmlOptions item st) as [c st1].
  rewrite Hon. cbn [negb].
  destruct (IH (graph_delete (fst item) g) st1) as [Hg Hs].
  split; [exact Hg|]. eapply same_but_trace_trans; [exact Hq|exact Hs].
Qed.

(** X12.  Without the bundler's own style pipeline, [forStyleFiles]
    compiles the styles in place, when the handles of the graph are
    distinct.  Every entry keeps its place and its handle.  An entry whose
    file is not a style is untouched.  A style gets the compiled text as
    content and the hash of that text as hash, and keeps its attribute,
    kind, original path and importer.  Nothing is returned, and nothing
    changes in the state but what was printed. *)
Theorem forStyleFiles_compiles_in_place options config htmlOptions files st
    (Hdistinct : distinct_handles files)
    (Hoff : cfg_experimentalCss config = false) :
  let result := forStyleFiles options config htmlOptions files st in
  fst (fst result) = None /\
  same_but_trace st (snd result) /\
  Forall2 (fun e e' =>
     fst e' = fst e /\
     if has_extension style_extensions e
     then exists st_i, same_but_trace st st_i /\
            let c := fst (compile_style config htmlOptions e st_i) in
            snd e' = mkDetails (Some (BText c)) (attribute (snd e))
                               (kind (snd e)) (Bun_hash c)
                               (originalPath (snd e)) (htmlImporter (snd e))
     else e' = e) files (snd (fst result)).
Proof.
  unfold forStyleFiles. cbv zeta. rewrite getExtensionFiles_filter.
  destruct (style_fold_in_place config htmlOptions st Hoff files [] st)
    as (files' & st' & Hfold & Hst & Hall).
  { apply same_but_trace_refl. }
  { intros e x _ Hx. by apply elem_of_nil in Hx. }
  { exact Hdistinct. }
  simpl in Hfold.
  match goal with
  | |- context [fold_left ?f ?l ?a] =>
      replace (fold_left f l a) with (files', st') by (symmetry; exact Hfold)
  end.
  rewrite Hoff. simpl. split; [done|]. split; [exact Hst|exact Hall].
Qed.

(** X13.  With the bundler's own style pipeline, [forStyleFiles] takes
    the styles out of the graph, when its handles are distinct: it returns
    the style files, as they were, in their order, and leaves the other
    entries, untouched and in their order.  Nothing changes in the state
    but what was printed. *)
Theorem forStyleFiles_hands_styles_over options config htmlOptions files st
    (Hdistinct : distinct_handles files)
    (Hon : cfg_experimentalCss config = true) :
  let result := forStyleFiles options config htmlOptions files st in
  fst (fst result) = Some (List.filter (has_extension style_extensions) files) /\
  snd (fst result)
  = List.filter (fun e => negb (has_extension style_extensions e)) files /\
  same_but_trace st (snd result).
Proof.
  unfold forStyleFiles. cbv zeta.
  destruct (style_fold_delete config htmlOptions
              (getExtensionFiles files style_extensions) Hon files st) as [Hg Hs].
  destruct (fold_left _ _ (files, st)) as [files' st']. simpl in *.
  rewrite Hon. split; [|split].
  - by rewrite getExtensionFiles_filter.
  - rewrite Hg. by apply delete_extension_files.
  - exact Hs.
Qed.

End StyleFacts.

(** ** [forJsFiles]: the sources of the builds *)

Section SourcesFacts.
Context `{Runtime} `{Toolchain}.

(** X14.  [forJsFiles] starts by splitting a graph with distinct handles.
    The scripts (the files of a buildable extension) leave it and become
    the sources of the builds, in the order of the graph.  With the
    bundler's own style pipeline the styles among the other files follow
    them, and leave the graph too; without it the other files all stay and
    the state is untouched.  Every entry goes to one side, as it was:
    sources and graph together are a permutation of the graph before. *)
Theorem forJsFiles_sources_split
    options config htmlOptions buildExtensions files st
    (Hdistinct : distinct_handles files) :
  let result := forJsFiles_sources options config htmlOptions buildExtensions
                                   files st in
  let sources := fst (fst result) in
  let files' := snd (fst result) in
  let scripts := List.filter (has_extension buildExtensions) files in
  let others := List.filter (fun e => negb (has_extension buildExtensions e)) files in
  (if cfg_experimentalCss config
   then sources = scripts ++ List.filter (has_extension style_extensions) others /\
        files' = List.filter (fun e => negb (has_extension style_extensions e)) others
   else sources = scripts /\ files' = others /\ snd result = st) /\
  sources ++ files' ≡ₚ files /\
  same_but_trace st (snd result).
Proof.
  unfold forJsFiles_sources. cbv zeta.
  rewrite (delete_extension_files files buildExtensions Hdistinct).
  rewrite getExtensionFiles_filter.
  destruct (cfg_experimentalCss config) eqn:Hexp.
  - set (others := List.filter (fun e => negb (has_extension buildExtensions e)) files).
    assert (distinct_handles others) as Hothers
      by (by apply distinct_handles_filter).
    unfold forStyleFiles. cbv zeta.
    pose proof (style_fold_delete config htmlOptions
                  (getExtensionFiles others style_extensions) Hexp others st)
      as [Hg Hst].
    match goal with
    | |- context [fold_left ?f ?l ?a] =>
        destruct (fold_left f l a) as [files1 st1] eqn:Hfold
    end.
    simpl in Hg, Hst. rewrite Hexp. simpl.
    rewrite Hg, (delete_extension_files others style_extensions Hothers),
      getExtensionFiles_filter.
    split; [done|]. split; [|exact Hst].
    rewrite <- app_assoc, filter_split. apply filter_split.
  - simpl. split; [done|]. split; [apply filter_split|apply same_but_trace_refl].
Qed.

Lemma stage_one_frame tempDirPath commonPath item st :
  let st' := snd (stage_one tempDirPath commonPath item st) in
  pathSaved st' = pathSaved st /\ namedAs st' = namedAs st /\
  next_fd st' = next_fd st /\
  (forall x, is_Some (disk st !! x) -> is_Some (disk st' !! x)).
Proof.
  unfold stage_one. destruct (name_of (fst item)) as [name|]; simpl; [|done].
  repeat split. intros x Hx.
  destruct (decide (path_resolve [tempDirPath; removeCommonPath name commonPath] = x))
    as [->|Hne].
  - rewrite lookup_insert_eq. eauto.
  - by rewrite lookup_insert_ne.
Qed.

Lemma stage_all_frame tempDirPath commonPath jsFiles st :
  let st' := snd (stage_all tempDirPath commonPath jsFiles st) in
  pathSaved st' = pathSaved st /\ namedAs st' = namedAs st /\
  next_fd st' = next_fd st /\
  (forall x, is_Some (disk st !! x) -> is_Some (disk st' !! x)).
Proof.
  revert st. induction jsFiles as [|item jsFiles IH]; intros st; [done|].
  cbn [stage_all].
  pose proof (stage_one_frame tempDirPath commonPath item st) as (Hp & Hn & Hf & Hd).
  destruct (stage_one tempDirPath commonPath item st) as [entrypoint st1].
  pose proof (IH st1) as (Hp' & Hn' & Hf' & Hd').
  destruct (stage_all tempDirPath commonPath jsFiles st1) as [entrypoints st2].
  simpl in *. repeat split; try congruence. intros x Hx. by apply Hd', Hd.
Qed.

Lemma stage_all_entry_points tempDirPath commonPath jsFiles st :
  Forall2 (fun item entrypoint =>
     match name_of (fst item) with
     | Some name =>
         entrypoint = path_resolve [tempDirPath; removeCommonPath name commonPath] /\
         is_Some (disk (snd (stage_all tempDirPath commonPath jsFiles st))
                    !! entrypoint)
     | None => entrypoint = default "" (fd_name (fst item))
     end) jsFiles (fst (stage_all tempDirPath commonPath jsFiles st)).
Proof.
  revert st. induction jsFiles as [|item jsFiles IH]; intros st; [constructor|].
  cbn [stage_all].
  destruct (stage_one tempDirPath commonPath item st) as [entrypoint st1] eqn:Hone.
  pose proof (IH st1) as Hrest.
  pose proof (stage_all_frame tempDirPath commonPath jsFiles st1) as (_ & _ & _ & Hd).
  destruct (stage_all tempDirPath commonPath jsFiles st1) as [entrypoints st2].
  simpl in *. constructor; [|exact Hrest].
  revert Hone. unfold stage_one.
  destruct (name_of (fst item)) as [name|]; intros [= <- <-]; [|done].
  split; [done|]. apply Hd. simpl. rewrite lookup_insert_eq. eauto.
Qed.

(** X15.  Staging gives the builds one entry point for each script, in
    their order, and never touches the ledger, the mappings on record or
    the handles.  When no script has a content of its own, the entry
    points are the names of the scripts and nothing is written.
    Otherwise the entry point of a script with a name is its path under
    the staging directory, relative to the common path, and that path
    exists on the disk when staging is over. *)
Theorem stage_gives_entry_points_that_exist tempDirPath jsFiles st :
  let result := stage tempDirPath jsFiles st in
  let names := map (fun e => default "" (fd_name (fst e))) jsFiles in
  length (fst result) = length jsFiles /\
  pathSaved (snd result) = pathSaved st /\
  namedAs (snd result) = namedAs st /\
  next_fd (snd result) = next_fd st /\
  if requiresTempDir_of jsFiles
  then Forall2 (fun item entrypoint =>
         match name_of (fst item) with
         | Some name =>
             entrypoint
             = path_resolve [tempDirPath;
                             removeCommonPath name (findLastCommonPath names)] /\
             is_Some (disk (snd result) !! entrypoint)
         | None => entrypoint = default "" (fd_name (fst item))
         end) jsFiles (fst result)
  else result = (names, st).
Proof.
  unfold stage. cbv zeta. destruct (requiresTempDir_of jsFiles).
  - set (commonPath := findLastCommonPath _).
    pose proof (stage_all_frame tempDirPath commonPath jsFiles st) as (Hp & Hn & Hf & _).
    pose proof (stage_all_entry_points tempDirPath commonPath jsFiles st) as Hall.
    repeat split; try done.
    symmetry. eapply Forall2_length, Hall.
  - simpl. by rewrite length_map.
Qed.

End SourcesFacts.

(** ** The extractor *)

Section ExtractorFacts.
Context `{Runtime} `{Toolchain}.

Lemma searched_attribute_in el a ov :
  searched_attribute el = Some (a, ov) ->
  a ∈ attributesToSearch /\ ov = El.getAttribute a el.
Proof.
  unfold searched_attribute.
  destruct (List.find _ attributesToSearch) as [a0|] eqn:Hfind; [|discriminate].
  intros [= <- <-]. apply find_some in Hfind as [Hin _].
  split; [by apply list_elem_of_In|done].
Qed.

Lemma handles_between_snoc lo hi files f d :
  handles_between lo hi files -> (hi <= fd_id f)%nat ->
  handles_between lo (S (fd_id f)) (files ++ [(f, d)]).
Proof.
  revert lo. induction files as [|e files IH]; intros lo; simpl.
  - intros Hlo Hhi. split; lia.
  - intros [Hlo Hrest] Hhi. split; [done|]. by apply IH.
Qed.

Lemma handles_between_later lo hi hi' files :
  handles_between lo hi files -> (hi <= hi')%nat -> handles_between lo hi' files.
Proof.
  revert lo. induction files as [|e files IH]; intros lo; simpl.
  - lia.
  - intros [Hlo Hrest] Hhi. split; [done|]. by apply IH.
Qed.

Lemma handles_between_app lo mid hi files files' :
  handles_between lo mid files -> handles_between mid hi files' ->
  handles_between lo hi (files ++ files').
Proof.
  revert lo. induction files as [|e files IH]; intros lo; simpl.
  - intros Hlo Hrest. destruct files' as [|e' files']; simpl in *; [lia|].
    destruct Hrest. split; [lia|done].
  - intros [Hlo Hrest] Hmid. split; [done|]. by apply IH.
Qed.

Lemma handles_between_bounds lo hi files :
  handles_between lo hi files ->
  (lo <= hi)%nat /\
  Forall (fun e => (lo <= fd_id (fst e) < hi)%nat) files /\
  distinct_handles files.
Proof.
  unfold distinct_handles.
  revert lo. induction files as [|e files IH]; intros lo; simpl.
  - intros Hlo. split; [done|]. split; constructor.
  - intros [Hlo Hrest]. destruct (IH _ Hrest) as (Hle & Hall & Hnd).
    split; [lia|]. split.
    + constructor; [lia|]. eapply Forall_impl; [exact Hall|]. simpl. intros; lia.
    + apply NoDup_cons. split; [|exact Hnd].
      intros Hin. apply list_elem_of_fmap in Hin as (x & Hx & Hin).
      rewrite Forall_forall in Hall. specialize (Hall x Hin). simpl in Hall. lia.
Qed.

(** One call of the handler. *)
Lemma on_element_step options filePath htmlResolvedPath hash el ex st :
  exists ex' st',
    on_element options filePath htmlResolvedPath hash el ex st = Returned (ex', st') /\
    namedAs st' = namedAs st /\ pathSaved st' = pathSaved st /\
    disk st' = disk st /\ (next_fd st <= next_fd st')%nat /\
    writes_of (trace st') = writes_of (trace st) /\
    (errors_shown options = false -> trace st' = trace st) /\
    (ex_files ex' = ex_files ex \/
     exists e, ex_files ex' = ex_files ex ++ [e] /\ fd_id (fst e) = next_fd st /\
               next_fd st' = S (next_fd st) /\
               extracted_asset options filePath htmlResolvedPath hash st e).
Proof.
  assert (exists ex' st',
    Returned (ex, st) = Returned (ex', st') /\
    namedAs st' = namedAs st /\ pathSaved st' = pathSaved st /\
    disk st' = disk st /\ (next_fd st <= next_fd st')%nat /\
    writes_of (trace st') = writes_of (trace st) /\
    (errors_shown options = false -> trace st' = trace st) /\
    (ex_files ex' = ex_files ex \/
     exists e, ex_files ex' = ex_files ex ++ [e] /\ fd_id (fst e) = next_fd st /\
               next_fd st' = S (next_fd st) /\
               extracted_asset options filePath htmlResolvedPath hash st e))
    as Hskip.
  { exists ex, st. repeat split; try done. by left. }
  unfold on_element.
  destruct (searched_attribute el) as [[a [v|]]|] eqn:Hs; try exact Hskip.
  apply searched_attribute_in in Hs as [Ha _].
  destruct (Js.truthy a); simpl; [|exact Hskip].
  destruct (Js.truthy v) eqn:Hv; simpl; [|exact Hskip].
  destruct (isURL v) eqn:Hurl; [exact Hskip|].
  destruct (extension_excluded options _) eqn:Hex; [exact Hskip|].
  clear Hskip. unfold file_exists. simpl.
  destruct (exists_on_disk (path_resolve [path_dirname filePath; v]) _) eqn:Hthere;
    cbn [negb].
  - eexists _, _. split; [reflexivity|]. simpl. repeat split; try done; [lia|].
    right. eexists. split; [reflexivity|]. repeat split.
    exists a, v. by repeat split.
  - destruct (errors_shown options) eqn:Hshown.
    + eexists _, _. split; [reflexivity|]. rewrite ?emit_all_state. simpl.
      repeat split; try done; [lia| |by left].
      rewrite !writes_of_app. simpl. by rewrite !app_nil_r.
    + eexists _, _. split; [reflexivity|]. simpl.
      repeat split; try done; [lia|by left].
Qed.

Lemma handles_between_earlier lo lo' hi files :
  handles_between lo hi files -> (lo' <= lo)%nat -> handles_between lo' hi files.
Proof.
  destruct files as [|e files]; simpl; [lia|].
  intros [Hlo Hrest] Hle. split; [lia|done].
Qed.

Lemma extracted_asset_disk options filePath htmlResolvedPath hash st st' e :
  disk st' = disk st ->
  extracted_asset options filePath htmlResolvedPath hash st' e ->
  extracted_asset options filePath htmlResolvedPath hash st e.
Proof.
  intros Hd (a & v & Ha & Hv & Hurl & Hex & Hthere & Hname & Hdet).
  exists a, v. repeat split; try done.
  unfold exists_on_disk in *. by rewrite <- Hd.
Qed.

(** The handler, run on the elements of the document one after the
    other. *)
Lemma visit_all options filePath htmlResolvedPath hash els :
  forall ex st,
  exists ex' st' added,
    fold_left (visit options filePath htmlResolvedPath hash) els (Returned (ex, st))
    = Returned (ex', st') /\
    ex_files ex' = ex_files ex ++ added /\
    (length added <= length els)%nat /\
    handles_between (next_fd st) (next_fd st') added /\
    Forall (extracted_asset options filePath htmlResolvedPath hash st) added /\
    namedAs st' = namedAs st /\ pathSaved st' = pathSaved st /\
    disk st' = disk st /\
    writes_of (trace st') = writes_of (trace st) /\
    (errors_shown options = false -> trace st' = trace st).
Proof.
  induction els as [|el els IH]; intros ex st.
  { exists ex, st, []. simpl. rewrite app_nil_r. repeat split; try done. }
  cbn [fold_left]. unfold visit at 2.
  destruct (on_element_step options filePath htmlResolvedPath hash el ex st)
    as (ex1 & st1 & -> & Hn & Hp & Hd & Hf & Hw & Hq & Hpush).
  destruct (IH ex1 st1)
    as (ex' & st' & added & -> & Hfiles & Hlen & Hids & Hall & Hn' & Hp' & Hd' & Hw' & Hq').
  assert (Forall (extracted_asset options filePath htmlResolvedPath hash st) added)
    as Hall0.
  { eapply Forall_impl; [exact Hall|]. intros e. by apply extracted_asset_disk. }
  destruct Hpush as [Hsame|(e & Hnew & Hid & Hnext & He)].
  - exists ex', st', added. split; [reflexivity|]. rewrite Hfiles, Hsame.
    repeat split; try done; try congruence.
    all: try (simpl; lia).
    all: try (by apply handles_between_earlier with (next_fd st1)).
    all: intros Hoff; rewrite Hq', Hq; done.
  - exists ex', st', (e :: added). split; [reflexivity|]. rewrite Hfiles, Hnew.
    rewrite <- app_assoc. simpl.
    repeat split; try done; try congruence.
    all: try (simpl; lia).
    all: try (by rewrite Hid, <- Hnext).
    all: try (by constructor).
    all: intros Hoff; rewrite Hq', Hq; done.
Qed.

Lemma getAllFiles_cases options filePath excluded st :
  let resolved := path_resolve [filePath] in
  if is_page filePath
  then match disk st !! resolved with
       | Some text =>
           exists rest st',
             getAllFiles options filePath excluded st
             = Returned ((mkFile (next_fd st) (Some resolved),
                          mkDetails None None EntryPoint (Bun_hash text)
                                    (Some resolved) resolved) :: rest,
                         st') /\
             (length rest <= length (document_elements text))%nat /\
             handles_between (S (next_fd st)) (next_fd st') rest /\
             Forall (extracted_asset options filePath resolved (Bun_hash text) st)
                    rest /\
             namedAs st' = namedAs st /\ pathSaved st' = pathSaved st /\
             disk st' = disk st /\
             writes_of (trace st') = writes_of (trace st) /\
             (errors_shown options = false -> trace st' = trace st)
       | None =>
           exists message,
             getAllFiles options filePath excluded st = Thrown message
       end
  else getAllFiles options filePath excluded st = Returned ([], st).
Proof.
  cbv zeta. unfold getAllFiles, is_page. cbv zeta.
  assert (negb (String.eqb (p_ext (path_parse filePath)) ".htm")
          && negb (String.eqb (p_ext (path_parse filePath)) ".html")
          = negb (String.eqb (p_ext (path_parse filePath)) ".htm"
                  || String.eqb (p_ext (path_parse filePath)) ".html")) as ->
    by (by rewrite negb_orb).
  destruct (String.eqb (p_ext (path_parse filePath)) ".htm"
            || String.eqb (p_ext (path_parse filePath)) ".html");
    cbn [negb]; [|reflexivity].
  unfold Bun_file, file_exists, exists_on_disk, file_text.
  cbn [fd_name disk fst snd].
  destruct (disk st !! path_resolve [filePath]) as [text|] eqn:Hpage.
  2:{ rewrite bool_decide_eq_false_2 by (by intros [? ?]). cbn [negb]. eauto. }
  rewrite bool_decide_eq_true_2 by eauto. cbn [negb default from_option id].
  match goal with
  | |- context [fold_left ?f ?els (Returned (?ex, ?s))] =>
      destruct (visit_all options filePath (path_resolve [filePath])
                  (Bun_hash text) els ex s)
        as (ex' & st' & added & -> & Hfiles & Hlen & Hids & Hall & Hrest)
  end.
  exists added, st'. simpl in *. rewrite Hfiles.
  split; [reflexivity|].
  split; [etrans; [exact Hlen|]; apply List.filter_length_le|].
  split; [exact Hids|].
  split; [|exact Hrest].
  eapply Forall_impl; [exact Hall|]. intros e.
  by apply extracted_asset_disk.
Qed.

(** X16.  For a path whose extension is neither [.htm] nor [.html],
    [getAllFiles] returns no file and leaves the state as it is.  For a
    page that is not on the disk it throws.  For a page that is there it
    returns, first, the page itself, as an [entry-point] whose hash is the
    hash of its text, then, at most one for each element of the document,
    the files its elements refer to.  Each of those is there on the disk,
    under the path its attribute resolves to from the directory of the
    page; its attribute is one of the searched ones, and the value is a
    non-empty path that is no URL and whose extension is not excluded.  It
    is a [chunk] with no content yet, the hash of the page and the page as
    its importer. *)
Theorem getAllFiles_lists_the_page_then_its_assets
    options filePath excluded st :
  let resolved := path_resolve [filePath] in
  if is_page filePath
  then match disk st !! resolved with
       | Some text =>
           exists rest st',
             getAllFiles options filePath excluded st
             = Returned ((mkFile (next_fd st) (Some resolved),
                          mkDetails None None EntryPoint (Bun_hash text)
                                    (Some resolved) resolved) :: rest,
                         st') /\
             (length rest <= length (document_elements text))%nat /\
             Forall (extracted_asset options filePath resolved (Bun_hash text) st)
                    rest
       | None =>
           exists message,
             getAllFiles options filePath excluded st = Thrown message
       end
  else getAllFiles options filePath excluded st = Returned ([], st).
Proof.
  pose proof (getAllFiles_cases options filePath excluded st) as Hcases.
  cbv zeta in *.
  destruct (is_page filePath); [|exact Hcases].
  destruct (disk st !! path_resolve [filePath]) as [text|]; [|exact Hcases].
  destruct Hcases as (rest & st' & Hget & Hlen & _ & Hall & _).
  by exists rest, st'.
Qed.

Lemma getAllFiles_frame options filePath excluded st :
  match getAllFiles options filePath excluded st with
  | Returned (files, st') =>
      page_missing st filePath = false /\
      handles_between (next_fd st) (next_fd st') files /\
      namedAs st' = namedAs st /\ pathSaved st' = pathSaved st /\
      disk st' = disk st /\
      writes_of (trace st') = writes_of (trace st) /\
      (errors_shown options = false -> trace st' = trace st)
  | Thrown _ => page_missing st filePath = true
  end.
Proof.
  pose proof (getAllFiles_cases options filePath excluded st) as Hcases.
  cbv zeta in *. unfold page_missing, exists_on_disk.
  destruct (is_page filePath).
  - destruct (disk st !! path_resolve [filePath]) as [text|].
    + destruct Hcases as (rest & st' & -> & _ & Hids & _ & Hrest).
      rewrite bool_decide_eq_true_2 by eauto.
      split; [reflexivity|]. split; [|exact Hrest].
      simpl. split; [lia|exact Hids].
    + destruct Hcases as [message ->].
      by rewrite bool_decide_eq_false_2 by (by intros [? ?]).
  - rewrite Hcases. simpl. repeat split; try done.
Qed.

Lemma page_missing_disk st st' filePath :
  disk st' = disk st -> page_missing st' filePath = page_missing st filePath.
Proof. intros Hd. unfold page_missing, exists_on_disk. by rewrite Hd. Qed.

Lemma extract_all_frame options entrypoints st :
  match extract_all options entrypoints st with
  | Returned (files, st') =>
      existsb (page_missing st) entrypoints = false /\
      handles_between (next_fd st) (next_fd st') files /\
      namedAs st' = namedAs st /\ pathSaved st' = pathSaved st /\
      disk st' = disk st /\
      writes_of (trace st') = writes_of (trace st) /\
      (errors_shown options = false -> trace st' = trace st)
  | Thrown _ => existsb (page_missing st) entrypoints = true
  end.
Proof.
  revert st. induction entrypoints as [|entrypoint entrypoints IH]; intros st.
  { simpl. repeat split; try done. }
  cbn [extract_all existsb].
  pose proof (getAllFiles_frame options entrypoint (excluded_of options) st) as H1.
  destruct (getAllFiles options entrypoint (excluded_of options) st)
    as [[files1 st1]|message]; [|by rewrite H1].
  destruct H1 as (Hm1 & Hids1 & Hn1 & Hp1 & Hd1 & Hw1 & Hq1).
  rewrite Hm1. cbn [orb].
  assert (existsb (page_missing st) entrypoints
          = existsb (page_missing st1) entrypoints) as ->.
  { clear IH. induction entrypoints as [|x xs IHx]; [done|]. simpl.
    by rewrite (page_missing_disk st st1 x Hd1), IHx. }
  specialize (IH st1).
  destruct (extract_all options entrypoints st1) as [[files2 st2]|message];
    [|exact IH].
  destruct IH as (Hm2 & Hids2 & Hn2 & Hp2 & Hd2 & Hw2 & Hq2).
  split; [exact Hm2|]. split; [by eapply handles_between_app|].
  repeat split; try congruence.
  intros Hoff. rewrite Hq2, Hq1; done.
Qed.

(** X17.  The extraction at the head of [setup] throws when one of the
    entry points is a page that is not on the disk, and only then.  When
    it returns, what it returns is a map: the handles of the files are
    distinct, and all were made during the extraction.  It writes nothing
    and records nothing: the ledger, the disk and the mappings on record
    are as before, and the trace has no new write.  With
    [suppressErrors: true] it prints nothing either. *)
Theorem extract_all_gives_a_map options entrypoints st :
  match extract_all options entrypoints st with
  | Returned (files, st') =>
      existsb (page_missing st) entrypoints = false /\
      distinct_handles files /\
      Forall (fun e => (next_fd st <= fd_id (fst e) < next_fd st')%nat) files /\
      namedAs st' = namedAs st /\ pathSaved st' = pathSaved st /\
      disk st' = disk st /\
      writes_of (trace st') = writes_of (trace st) /\
      (errors_shown options = false -> trace st' = trace st)
  | Thrown _ => existsb (page_missing st) entrypoints = true
  end.
Proof.
  pose proof (extract_all_frame options entrypoints st) as Hframe.
  destruct (extract_all options entrypoints st) as [[files st']|message];
    [|exact Hframe].
  destruct Hframe as (Hmissing & Hids & Hrest).
  destruct (handles_between_bounds _ _ _ Hids) as (_ & Hbounds & Hnd).
  split; [exact Hmissing|]. split; [exact Hnd|]. split; [exact Hbounds|exact Hrest].
Qed.

End ExtractorFacts.

(** ** [save]: cutting a matched literal *)

Section LiteralFacts.
Context `{Runtime}.

Lemma take_drop_whole n s : Js.take n s +:+ Js.drop n s = s.
Proof.
  revert s. induction n as [|n IH]; intros s; [reflexivity|].
  destruct s as [|c s]; [reflexivity|].
  cbn [Js.take Js.drop]. by rewrite append_cons, IH.
Qed.

Lemma drop_drop a b s : Js.drop a (Js.drop b s) = Js.drop (b + a) s.
Proof.
  revert s. induction b as [|b IH]; intros s; [reflexivity|].
  destruct s as [|c s]; simpl; [by destruct a|]. apply IH.
Qed.

Lemma string_app_assoc (a b c : string) : (a +:+ b) +:+ c = a +:+ (b +:+ c).
Proof. induction a as [|x a IH]; [reflexivity|]. by rewrite !append_cons, IH. Qed.

Lemma split_extra_tail_whole pathString suffix :
  fst (split_extra_tail pathString suffix) +:+ snd (split_extra_tail pathString suffix)
  = pathString +:+ suffix.
Proof.
  unfold split_extra_tail.
  destruct (extra_tail_index pathString) as [[|i]|]; try reflexivity.
  cbn [fst snd]. unfold substring.
  rewrite Nat.max_r, Nat.min_l by lia.
  change (Js.drop 0 pathString) with pathString.
  rewrite Nat.sub_0_r, <- string_app_assoc.
  by rewrite (take_drop_whole (S i) pathString).
Qed.

(** X18.  [save] cuts a matched literal into its opening delimiter, the
    path, and a suffix that holds the closing delimiter and, moved there
    from the path, the query or fragment if there is one.  Nothing is lost
    in the cut: for a literal of two characters or more, as every match of
    the pattern is, the three pieces spell the literal again. *)
Theorem literal_pieces_spell_the_literal pathStrCtx
    (Hlong : (2 <= String.length pathStrCtx)%nat) :
  let prefix := substring 0 1 pathStrCtx in
  let pieces := split_extra_tail (literal_path pathStrCtx)
                  (Js.drop (String.length pathStrCtx - 1) pathStrCtx) in
  prefix +:+ fst pieces +:+ snd pieces = pathStrCtx.
Proof.
  cbv zeta. rewrite split_extra_tail_whole.
  unfold literal_path, substring.
  rewrite (Nat.max_r 0 1), (Nat.min_l 0 1) by lia.
  rewrite (Nat.max_r 1), (Nat.min_l 1) by lia.
  replace (Js.drop (String.length pathStrCtx - 1) pathStrCtx)
    with (Js.drop (String.length pathStrCtx - 1 - 1) (Js.drop 1 pathStrCtx)).
  2:{ rewrite drop_drop. f_equal. lia. }
  rewrite take_drop_whole.
  change (Js.drop 0 pathStrCtx) with pathStrCtx.
  apply (take_drop_whole 1 pathStrCtx).
Qed.

End LiteralFacts.

(** ** The further statements on examples *)

(** Without [splitting], an import of the script of the page is resolved
    and the graph of the small build is left as it is. *)
Lemma without_splitting_no_import_is_patched_witness :
  fst (@onResolve_all Ex.rt None ExBuild.hashed "/tmp/bun-build-1" "/proj" false
         [ExBridge.import_util] [] ExBridge.start) = [] /\
  @patch_imports Ex.rt [("/proj/main.ts", "/proj/main.js")]
    (fst (@onResolve_all Ex.rt None ExBuild.hashed "/tmp/bun-build-1" "/proj" false
            [ExBridge.import_util] [] ExBridge.start))
    ExBridge.start ExBridge.graph
  = ExBridge.graph.
Proof.
  apply (@without_splitting_no_import_is_patched Ex.rt None ExBuild.hashed
           "/tmp/bun-build-1" "/proj" false [ExBridge.import_util] ExBridge.start
           [("/proj/main.ts", "/proj/main.js")] ExBridge.start ExBridge.graph).
  reflexivity.
Defined.

(** The outputs of the build of the script join the graph of the page:
    the handles stay distinct. *)
Lemma fold_build_keeps_the_graph_a_map_witness :
  distinct_handles
    (fo_files
       (fold_left (@fold_build Ex.rt None "/proj" "/tmp/bun-build-1")
          [(ExBridge.script, (true, "", [ExBridge.main_out; ExBridge.chunk_out]))]
          (mkFolded [ExBuild.page; ExBuild.sheet] [] ExBridge.start))).
Proof.
  destruct (@fold_build_keeps_the_graph_a_map Ex.rt None "/proj" "/tmp/bun-build-1"
              [(ExBridge.script, (true, "", [ExBridge.main_out; ExBridge.chunk_out]))]
              (mkFolded [ExBuild.page; ExBuild.sheet] [] ExBridge.start))
    as [Hd _].
  - unfold distinct_handles. simpl. apply (bool_decide_unpack _). vm_compute. exact I.
  - simpl. repeat constructor; simpl; lia.
  - simpl. intros k v Hget. discriminate Hget.
  - exact Hd.
Defined.

(** The style sheet of the small build is compiled in place, and nothing
    is returned. *)
Lemma forStyleFiles_compiles_in_place_witness :
  fst (fst (@forStyleFiles Ex.rt ExBridge.toolchain None ExBuild.hashed
              defaultMinifyOptions ExBuild.graph ExBridge.start)) = None.
Proof.
  destruct (@forStyleFiles_compiles_in_place Ex.rt ExBridge.toolchain None
              ExBuild.hashed defaultMinifyOptions ExBuild.graph ExBridge.start)
    as [Hnone _].
  - unfold distinct_handles. simpl. apply (bool_decide_unpack _). vm_compute. exact I.
  - reflexivity.
  - exact Hnone.
Defined.

(** With [experimentalCss], the style sheet of the small build is handed
    over and the page and the image stay. *)
Lemma forStyleFiles_hands_styles_over_witness :
  fst (fst (@forStyleFiles Ex.rt ExBridge.toolchain None ExBridge.css_by_bundler
              defaultMinifyOptions ExBuild.graph ExBridge.start))
  = Some [ExBuild.sheet] /\
  snd (fst (@forStyleFiles Ex.rt ExBridge.toolchain None ExBridge.css_by_bundler
              defaultMinifyOptions ExBuild.graph ExBridge.start))
  = [ExBuild.page; ExBuild.logo].
Proof.
  destruct (@forStyleFiles_hands_styles_over Ex.rt ExBridge.toolchain None
              ExBridge.css_by_bundler defaultMinifyOptions ExBuild.graph
              ExBridge.start)
    as (Hret & Hfiles & _).
  - unfold distinct_handles. simpl. apply (bool_decide_unpack _). vm_compute. exact I.
  - reflexivity.
  - split.
    + etrans; [exact Hret|]. vm_compute. reflexivity.
    + etrans; [exact Hfiles|]. vm_compute. reflexivity.
Defined.

(** The script of the page is the one source of the builds; the page and
    the style sheet stay in the graph. *)
Lemma forJsFiles_sources_split_witness :
  fst (fst (@forJsFiles_sources Ex.rt ExBridge.toolchain None ExBuild.hashed
              defaultMinifyOptions extensionsToBuild ExBridge.graph ExBridge.start))
  = [ExBridge.script] /\
  snd (fst (@forJsFiles_sources Ex.rt ExBridge.toolchain None ExBuild.hashed
              defaultMinifyOptions extensionsToBuild ExBridge.graph ExBridge.start))
  = [ExBuild.page; ExBuild.sheet].
Proof.
  destruct (@forJsFiles_sources_split Ex.rt ExBridge.toolchain None ExBuild.hashed
              defaultMinifyOptions extensionsToBuild ExBridge.graph ExBridge.start)
    as ((Hsources & Hfiles & _) & _).
  - unfold distinct_handles. simpl. apply (bool_decide_unpack _). vm_compute. exact I.
  - split.
    + etrans; [exact Hsources|]. vm_compute. reflexivity.
    + etrans; [exact Hfiles|]. vm_compute. reflexivity.
Defined.

(** A literal with a query: the pieces are the quote, [img/logo.png] and
    [?v=2] with the closing quote. *)
Lemma literal_pieces_spell_the_literal_witness :
  split_extra_tail
    (literal_path "'img/logo.png?v=2'")
    (Js.drop (String.length "'img/logo.png?v=2'" - 1) "'img/logo.png?v=2'")
  = ("img/logo.png", "?v=2'") /\
  substring 0 1 "'img/logo.png?v=2'" +:+ "img/logo.png" +:+ "?v=2'"
  = "'img/logo.png?v=2'".
Proof.
  split; [vm_compute; reflexivity|].
  exact (literal_pieces_spell_the_literal "'img/logo.png?v=2'"
           ltac:(simpl; lia)).
Defined.

(** The extraction of the small build: the page, then the image and the
    style sheet its elements refer to. *)
Example extraction_of_the_small_build :
  match @getAllFiles Ex.rt ExBridge.toolchain None "/proj/index.html"
          selectorsToExclude (initial ExBuild.sources) with
  | Returned (files, st') =>
      map (fun e => (fd_name (fst e), kind (snd e))) files
      = [(Some "/proj/index.html", EntryPoint);
         (Some "/proj/img/logo.png", Chunk);
         (Some "/proj/main.css", Chunk)] /\
      next_fd st' = 3%nat /\ trace st' = []
  | Thrown _ => False
  end.
Proof. vm_compute. repeat split. Qed.

(** An entry point that is a page and is not there: the extraction
    throws. *)
Example extraction_of_a_missing_page :
  @extract_all Ex.rt ExBridge.toolchain None ["/proj/index.html"; "/proj/gone.html"]
    (initial ExBuild.sources)
  = Thrown "ENOENT: no such file or directory, open '/proj/gone.html'".
Proof. vm_compute. reflexivity. Qed.
